(** * Delhi High Court case tracker: the retrieval pipeline of
    [court_scraper.py] and the entry point of [app.py]

    The development embeds the text heuristics of [DataExtractor]
    ([_extract_status], [_extract_court_details], [_extract_orders_link],
    [_parse_order_row], [extract_orders_data], [extract_case_data]), the
    orchestration of [CourtScraper] ([search_case_details], [_setup_browser],
    [_fill_search_form], [_cleanup]), [DatabaseManager.save_search_record]
    and the validation of [render_search_tab] / [perform_case_search].

    Strings are sequences of code points below 256, so [ascii] stands for a
    code point; the [str] methods used by the program are modelled on that
    range as Python defines them. *)

From Stdlib Require Import String Ascii List Bool Arith ZArith Lia.
From Stdlib Require Import DecimalString Sorted Permutation.
Import ListNotations.

Local Open Scope list_scope.
Local Open Scope string_scope.

(** ** Python [str] operations *)

Module PyStr.

(** [s.startswith(p)] *)
Fixpoint startswith (p s : string) : bool :=
  match p with
  | EmptyString => true
  | String a p' =>
      match s with
      | EmptyString => false
      | String b s' => if Ascii.eqb a b then startswith p' s' else false
      end
  end.

(** [needle in hay] *)
Fixpoint str_in (needle hay : string) : bool :=
  if startswith needle hay then true
  else match hay with
       | EmptyString => false
       | String _ hay' => str_in needle hay'
       end.

(** [str.isspace] on one code point: the ASCII separators, the four
    information separators 28..31, NEL (133) and NBSP (160). *)
Definition isspace (c : ascii) : bool :=
  let n := nat_of_ascii c in
  (((9 <=? n) && (n <=? 13)) || ((28 <=? n) && (n <=? 32))
   || (n =? 133) || (n =? 160))%nat.

Fixpoint lstrip (s : string) : string :=
  match s with
  | EmptyString => EmptyString
  | String c s' => if isspace c then lstrip s' else s
  end.

(** Drop trailing white space: a character is kept when it is not white
    space or when something is kept after it. *)
Fixpoint rstrip (s : string) : string :=
  match s with
  | EmptyString => EmptyString
  | String c s' =>
      match rstrip s' with
      | EmptyString => if isspace c then EmptyString else String c EmptyString
      | r => String c r
      end
  end.

(** [s.strip()] *)
Definition strip (s : string) : string := rstrip (lstrip s).

(** [str.lower] on one code point: A-Z and the Latin-1 capitals 192..222
    except the multiplication sign 215 move up by 32. *)
Definition lower_char (c : ascii) : ascii :=
  let n := nat_of_ascii c in
  if (((65 <=? n) && (n <=? 90))
      || ((192 <=? n) && (n <=? 222) && negb (n =? 215)))%nat
  then ascii_of_nat (n + 32) else c.

Fixpoint lower (s : string) : string :=
  match s with
  | EmptyString => EmptyString
  | String c s' => String (lower_char c) (lower s')
  end.

(** [str.isdigit] on one code point: 0-9 and the superscripts two, three
    and one (178, 179, 185), which Python counts as digits. *)
Definition isdigit_char (c : ascii) : bool :=
  let n := nat_of_ascii c in
  (((48 <=? n) && (n <=? 57)) || (n =? 178) || (n =? 179)
   || (n =? 185))%nat.

Fixpoint all_chars (p : ascii -> bool) (s : string) : bool :=
  match s with
  | EmptyString => true
  | String c s' => p c && all_chars p s'
  end.

(** [s.isdigit()]: every character is a digit and there is at least one. *)
Definition isdigit (s : string) : bool :=
  match s with
  | EmptyString => false
  | _ => all_chars isdigit_char s
  end.

(** [s.split(sep)] for a non-empty [sep]: scan from the left, cut at each
    occurrence and resume after it.  [skip] counts the characters of a
    matched separator still to be passed over and [cur] is the piece being
    collected. *)
Fixpoint split_from (sep : string) (skip : nat) (cur s : string)
  : list string :=
  match s with
  | EmptyString => [cur]
  | String c s' =>
      match skip with
      | S k => split_from sep k cur s'
      | O =>
          if startswith sep s
          then cur :: split_from sep (String.length sep - 1) EmptyString s'
          else split_from sep 0 (cur ++ String c EmptyString) s'
      end
  end.

Definition split (sep s : string) : list string :=
  split_from sep 0 EmptyString s.

(** [s.split(sep)[0]] and [s.split(sep)[-1]] *)
Definition split_first (sep s : string) : string :=
  hd EmptyString (split sep s).

Definition split_last (sep s : string) : string :=
  last (split sep s) EmptyString.

(** [str(n)] for an integer *)
Definition str_of_Z (z : Z) : string :=
  NilZero.string_of_int (Z.to_int z).

End PyStr.

Import PyStr.

(** ** [re.search(r'\[([^\]]+)\]', text)]

    The pattern is an opening bracket, a non-empty greedy run of characters
    other than the closing bracket, and a closing bracket.  The run is
    maximal, so a start position matches exactly when the text after its
    opening bracket reaches a closing bracket after at least one other
    character; [re.search] takes the leftmost such position. *)

(** The characters before the first closing bracket, when there is one. *)
Fixpoint until_close (s : string) : option string :=
  match s with
  | EmptyString => None
  | String c s' =>
      if Ascii.eqb c "]"%char then Some EmptyString
      else match until_close s' with
           | Some g => Some (String c g)
           | None => None
           end
  end.

(** [match.group(1)] of the leftmost match, [None] when nothing matches. *)
Fixpoint re_search_bracket (s : string) : option string :=
  match s with
  | EmptyString => None
  | String c s' =>
      if Ascii.eqb c "["%char
      then match until_close s' with
           | Some (String a g) => Some (String a g)
           | _ => re_search_bracket s'
           end
      else re_search_bracket s'
  end.

(** ** [DataExtractor._extract_status] *)

Definition _extract_status (case_text : string) : string :=
  if str_in "[DISPOSED]" case_text then "DISPOSED"
  else if str_in "[CLOSED]" case_text then "CLOSED"
  else if str_in "[PENDING]" case_text then "PENDING"
  else if str_in "[" case_text && str_in "]" case_text then
    match re_search_bracket case_text with
    | Some g => strip g
    | None => "ACTIVE"
    end
  else "ACTIVE".

(** ** [DataExtractor._extract_court_details] *)

Definition _extract_court_details (court_text : string)
  : string * string * string :=
  let next_date :=
    if str_in "NEXT DATE:" court_text then
      strip (split_first "Last Date:" (split_last "NEXT DATE:" court_text))
    else if str_in "Next Date:" court_text then
      strip (split_first "Last Date:" (split_last "Next Date:" court_text))
    else "Not Scheduled" in
  let last_date :=
    if str_in "Last Date:" court_text then
      strip (split_first "COURT NO:" (split_last "Last Date:" court_text))
    else if str_in "LAST DATE:" court_text then
      strip (split_first "COURT NO:" (split_last "LAST DATE:" court_text))
    else "Not Available" in
  let court_no :=
    if str_in "COURT NO:" court_text then
      strip (split_last "COURT NO:" court_text)
    else if str_in "Court No:" court_text then
      strip (split_last "Court No:" court_text)
    else "Not Assigned" in
  (next_date, last_date, court_no).

(** ** Results of calls that may raise *)

Inductive outcome (A : Type) : Type :=
| Returned (a : A)
| Raised (msg : string).

Arguments Returned {A} a.
Arguments Raised {A} msg.

(** ** The parsed page

    What the program reads of a BeautifulSoup tree: per cell the text of
    [get_text(strip=True)] and its [<a>] elements in document order, each
    with its [href] attribute when it has one and its stripped text; per
    table its [<tbody>] rows when there is a [<tbody>], and all its [<tr>]
    rows otherwise; per page the tables the program looks up. *)

Record Anchor : Type := {
  a_href : option string;
  a_text : string
}.

Record Cell : Type := {
  c_text : string;
  c_links : list Anchor
}.

Definition Row : Type := list Cell.

Record Table : Type := {
  t_tbody : option (list Row);
  t_trs : list Row
}.

Record Page : Type := {
  id_caseTable : option Table;
  class_case_table : option Table;
  class_result_table : option Table;
  class_order_table : option Table
}.

(** [tbody.find_all('tr') if tbody else table.find_all('tr')[1:]] *)
Definition body_rows (t : Table) : list Row :=
  match t_tbody t with
  | Some rows => rows
  | None => tl (t_trs t)
  end.

(** The [href] values of [cell.find_all('a', href=True)], in order. *)
Fixpoint hrefs (links : list Anchor) : list (string * string) :=
  match links with
  | [] => []
  | a :: rest =>
      match a_href a with
      | Some h => (h, a_text a) :: hrefs rest
      | None => hrefs rest
      end
  end.

(** ** Records produced by the extractor *)

Record OrderRecord : Type := {
  order_index : nat;
  date : string;
  case_info : string;
  pdf_link : option string
}.

Record CaseData : Type := {
  case_number : string;
  case_type : string;
  filing_year : string;
  status : string;
  parties : string;
  next_date : string;
  last_date : string;
  court_no : string;
  orders_link : option string;
  extracted_at : string;
  raw_case_info : string;
  raw_court_info : string;
  orders : option (list OrderRecord)
}.

Definition with_orders (cd : CaseData) (os : list OrderRecord) : CaseData :=
  {| case_number := case_number cd; case_type := case_type cd;
     filing_year := filing_year cd; status := status cd;
     parties := parties cd; next_date := next_date cd;
     last_date := last_date cd; court_no := court_no cd;
     orders_link := orders_link cd; extracted_at := extracted_at cd;
     raw_case_info := raw_case_info cd; raw_court_info := raw_court_info cd;
     orders := Some os |}.

(** ** [DataExtractor]: the parts that only read a parsed page

    [urljoin] is [urllib.parse.urljoin], which returns the joined URL or
    raises [ValueError]; [base_url] is the extractor's [self.base_url]. *)

Section DataExtractor.

Variable urljoin : string -> string -> outcome string.
Variable base_url : string.

Definition link_keywords : list string := ["order"; "status"; "detail"].

(** [any(keyword in href.lower() for keyword in [...])] *)
Definition has_keyword (href : string) : bool :=
  existsb (fun keyword => str_in keyword (lower href)) link_keywords.

(** The loop of [_extract_orders_link] over the anchors that carry an
    [href]: the first one with a keyword decides. *)
Fixpoint orders_link_loop (links : list (string * string))
  : outcome (option string) :=
  match links with
  | [] => Returned None
  | (href, _) :: rest =>
      if has_keyword href then
        if startswith "http" href then Returned (Some href)
        else match urljoin base_url href with
             | Returned u => Returned (Some u)
             | Raised e => Raised e
             end
      else orders_link_loop rest
  end.

(** [_extract_orders_link]: [None] for a missing cell, and for any
    exception of the body. *)
Definition _extract_orders_link (cell : option Cell) : option string :=
  match cell with
  | None => None
  | Some c =>
      match orders_link_loop (hrefs (c_links c)) with
      | Returned r => r
      | Raised _ => None
      end
  end.

(** The body of [_parse_order_row] inside its [try]. *)
Definition parse_order_row_body (cells : Row) (index : nat)
  : outcome OrderRecord :=
  match (if (1 <? List.length cells)%nat then nth_error cells 1
         else nth_error cells 0) with
  | None => Raised "list index out of range"
  | Some case_link_cell =>
      let order_date :=
        match nth_error cells 2 with
        | Some c => c_text c
        | None => "Date not available"
        end in
      match hrefs (c_links case_link_cell) with
      | [] =>
          Returned {| order_index := index + 1; date := order_date;
                      case_info := "Not Available"; pdf_link := None |}
      | (href, text) :: _ =>
          if negb (String.eqb href "") && negb (startswith "http" href)
          then match urljoin base_url href with
               | Returned u =>
                   Returned {| order_index := index + 1;
                               date := order_date; case_info := text;
                               pdf_link := Some u |}
               | Raised e => Raised e
               end
          else Returned {| order_index := index + 1; date := order_date;
                           case_info := text; pdf_link := Some href |}
      end
  end.

(** [_parse_order_row]: any exception of the body gives [None]. *)
Definition _parse_order_row (cells : Row) (index : nat)
  : option OrderRecord :=
  match parse_order_row_body cells index with
  | Returned o => Some o
  | Raised _ => None
  end.

(** The loop [for i, row in enumerate(rows)] of [extract_orders_data],
    started at index [i]. *)
Fixpoint order_rows_loop (rows : list Row) (i : nat) : list OrderRecord :=
  match rows with
  | [] => []
  | cells :: rest =>
      if (2 <=? List.length cells)%nat then
        match _parse_order_row cells i with
        | Some order_data => order_data :: order_rows_loop rest (S i)
        | None => order_rows_loop rest (S i)
        end
      else order_rows_loop rest (S i)
  end.

(** [extract_orders_data] once the orders page is parsed. *)
Definition orders_of_page (soup : Page) : list OrderRecord :=
  match (match id_caseTable soup with
         | Some t => Some t
         | None => class_order_table soup
         end) with
  | None => []
  | Some table => order_rows_loop (body_rows table) 0
  end.

(** [_parse_case_row]; [now] is the reading of [datetime.now()]. *)
Definition _parse_case_row (cells : Row) (case_type0 case_number0 : string)
    (filing_year0 : Z) (now : string) : option CaseData :=
  let text_at n := match nth_error cells n with
                   | Some c => c_text c
                   | None => ""
                   end in
  let case_info0 := text_at 1 in
  let parties_info := text_at 2 in
  let court_info := text_at 3 in
  let '(next, last, court) := _extract_court_details court_info in
  Some {| case_number :=
            case_type0 ++ " " ++ case_number0 ++ "/" ++ str_of_Z filing_year0;
          case_type := case_type0;
          filing_year := str_of_Z filing_year0;
          status := _extract_status case_info0;
          parties := parties_info;
          next_date := next;
          last_date := last;
          court_no := court;
          orders_link := _extract_orders_link (nth_error cells 1);
          extracted_at := now;
          raw_case_info := case_info0;
          raw_court_info := court_info;
          orders := None |}.

(** The row loop of [extract_case_data]: the first row of at least three
    cells that parses is the result. *)
Fixpoint case_rows_loop (rows : list Row) (case_type0 case_number0 : string)
    (filing_year0 : Z) (now : string) : option CaseData :=
  match rows with
  | [] => None
  | cells :: rest =>
      if (3 <=? List.length cells)%nat then
        match _parse_case_row cells case_type0 case_number0 filing_year0 now
        with
        | Some cd => Some cd
        | None => case_rows_loop rest case_type0 case_number0 filing_year0 now
        end
      else case_rows_loop rest case_type0 case_number0 filing_year0 now
  end.

(** [extract_case_data] once the results page is parsed. *)
Definition case_of_page (soup : Page) (case_type0 case_number0 : string)
    (filing_year0 : Z) (now : string) : option CaseData :=
  match (match id_caseTable soup with
         | Some t => Some t
         | None =>
             match class_case_table soup with
             | Some t => Some t
             | None => class_result_table soup
             end
         end) with
  | None => None
  | Some table =>
      case_rows_loop (body_rows table) case_type0 case_number0 filing_year0
        now
  end.

End DataExtractor.

(** ** The persistence store and the event log *)

Inductive PyVal : Type :=
| PyNone
| PyInt (z : Z)
| PyStr (s : string).

(** The dictionaries handed to [save_search_record]: the case record of a
    successful search, or the three-key [failed_data] of a failed one. *)
Inductive SearchData : Type :=
| FoundData (cd : CaseData)
| FailedData (case_number0 case_type0 : string) (filing_year0 : Z).

Definition data_case_number (d : SearchData) : string :=
  match d with
  | FoundData cd => case_number cd
  | FailedData n _ _ => n
  end.

Definition data_case_type (d : SearchData) : string :=
  match d with
  | FoundData cd => case_type cd
  | FailedData _ t _ => t
  end.

Definition data_filing_year (d : SearchData) : PyVal :=
  match d with
  | FoundData cd => PyStr (filing_year cd)
  | FailedData _ _ y => PyInt y
  end.

(** A row of [search_history]. *)
Record SearchRow : Type := {
  r_case_number : string;
  r_case_type : string;
  r_filing_year : PyVal;
  r_search_timestamp : string;
  r_case_data : option SearchData;
  r_success : bool;
  r_error_message : option string
}.

(** What an invocation does to the outside, in the order it does it. *)
Inductive Event : Type :=
| EProgress (label : string) (pct : Z)
| ECreateDriver
| EGet (url : string)
| EWaitForPageLoad
| EFillCaseType (v : string)
| EFillCaseNumber (v : string)
| EFillFilingYear (y : Z)
| ESolveCaptcha
| ESubmitForm
| EExtractCaseData
| EExtractOrdersData (url : string)
| ESaveSearchRecord (d : SearchData) (success : bool)
    (error_message : option string)
| ECleanup
| EQuit.

(** The [progress_callback]: it returns some value or raises. *)
Definition Callback : Type := string -> Z -> outcome PyVal.

(** The answers of the browser, the site, the clock and SQLite during one
    invocation.  [FormHandler]'s methods are taken as single steps. *)
Record World : Type := {
  env_create_driver : outcome unit;
  env_get : string -> outcome unit;
  env_fill_case_type : string -> outcome bool;
  env_fill_case_number : string -> outcome bool;
  env_fill_filing_year : Z -> outcome bool;
  env_solve_captcha : outcome bool;
  env_submit_form : outcome bool;
  env_results_page : outcome Page;
  env_orders_page : string -> outcome Page;
  env_quit : outcome unit;
  env_sqlite_ok : bool;
  env_now_extracted : string;
  env_now_saved : string
}.

(** The scraper object ([self.driver], [self.form_handler],
    [self.data_extractor]: [true] when not [None]), the events so far
    (newest first) and the rows of [search_history] (newest first). *)
Record State : Type := {
  driver : bool;
  form_handler : bool;
  data_extractor : bool;
  trace : list Event;
  db : list SearchRow
}.

Definition events (st : State) : list Event := rev (trace st).

(** ** A state and exception monad for the methods *)

Definition M (A : Type) : Type := State -> outcome A * State.

Definition ret {A} (a : A) : M A := fun st => (Returned a, st).

Definition raise {A} (msg : string) : M A := fun st => (Raised msg, st).

Definition bind {A B} (m : M A) (k : A -> M B) : M B :=
  fun st =>
    match m st with
    | (Returned a, st1) => k a st1
    | (Raised e, st1) => (Raised e, st1)
    end.

Declare Scope py_scope.
Delimit Scope py_scope with py.
Notation "x <- m ;; k" := (bind m (fun x => k))
  (at level 61, m at next level, right associativity) : py_scope.
Notation "m ;; k" := (bind m (fun _ => k))
  (at level 61, right associativity) : py_scope.
Local Open Scope py_scope.

(** [try: body except Exception as e: handler(str(e))] *)
Definition try_except {A} (body : M A) (handler : string -> M A) : M A :=
  fun st =>
    match body st with
    | (Returned a, st1) => (Returned a, st1)
    | (Raised e, st1) => handler e st1
    end.

(** [try: body finally: fin]: [fin] runs on every exit of [body], and an
    exception of [fin] replaces the result of [body]. *)
Definition try_finally {A} (body : M A) (fin : M unit) : M A :=
  fun st =>
    match body st with
    | (r, st1) =>
        match fin st1 with
        | (Returned _, st2) => (r, st2)
        | (Raised e, st2) => (Raised e, st2)
        end
    end.

Definition emit (e : Event) : M unit :=
  fun st =>
    (Returned tt,
     {| driver := driver st; form_handler := form_handler st;
        data_extractor := data_extractor st;
        trace := e :: trace st; db := db st |}).

Definition of_outcome {A} (o : outcome A) : M A := fun st => (o, st).

Definition attribute_error {A} (attr : string) : M A :=
  raise ("'NoneType' object has no attribute '" ++ attr ++ "'").

(** ** [DatabaseManager.save_search_record]

    The row is inserted unless SQLite fails; an [sqlite3.Error] is logged
    and not raised. *)
Definition save_search_record (W : World) (case_data0 : SearchData)
    (success : bool) (error_message : option string) : M unit :=
  fun st =>
    let row :=
      {| r_case_number := data_case_number case_data0;
         r_case_type := data_case_type case_data0;
         r_filing_year := data_filing_year case_data0;
         r_search_timestamp := env_now_saved W;
         r_case_data := if success then Some case_data0 else None;
         r_success := success;
         r_error_message := error_message |} in
    (Returned tt,
     {| driver := driver st; form_handler := form_handler st;
        data_extractor := data_extractor st;
        trace := ESaveSearchRecord case_data0 success error_message
                   :: trace st;
        db := if env_sqlite_ok W then row :: db st else db st |}).

(** ** [CourtScraper] *)

Section CourtScraper.

Variable urljoin : string -> string -> outcome string.
Variable W : World.

Definition BASE_URL : string := "https://delhihighcourt.nic.in/".
Definition SEARCH_URL : string :=
  "https://delhihighcourt.nic.in/app/get-case-type-status".

(** [if progress_callback: progress_callback(label, pct)] *)
Definition report (progress_callback : option Callback) (label : string)
    (pct : Z) : M unit :=
  match progress_callback with
  | None => ret tt
  | Some f =>
      emit (EProgress label pct) ;;
      _ <- of_outcome (f label pct) ;;
      ret tt
  end.

Definition set_references (b : bool) : M unit :=
  fun st =>
    (Returned tt,
     {| driver := b; form_handler := b; data_extractor := b;
        trace := trace st; db := db st |}).

(** [_setup_browser]: the three references are set once the driver
    exists; the exception of [create_driver] is logged and raised again. *)
Definition _setup_browser : M unit :=
  try_except
    (emit ECreateDriver ;;
     of_outcome (env_create_driver W) ;;
     set_references true)
    (fun e => raise e).

(** [self.driver.get(url)] *)
Definition driver_get (url : string) : M unit :=
  fun st =>
    if driver st then (emit (EGet url) ;; of_outcome (env_get W url)) st
    else attribute_error "get" st.

(** A call of a [FormHandler] method through [self.form_handler]. *)
Definition form_call {A} (name : string) (e : Event) (o : outcome A)
  : M A :=
  fun st =>
    if form_handler st then (emit e ;; of_outcome o) st
    else attribute_error name st.

(** [wait_for_page_load] logs a time-out and never raises. *)
Definition wait_for_page_load : M unit :=
  form_call "wait_for_page_load" EWaitForPageLoad (Returned tt).

Definition fill_case_type (v : string) : M bool :=
  form_call "fill_case_type" (EFillCaseType v) (env_fill_case_type W v).

Definition fill_case_number (v : string) : M bool :=
  form_call "fill_case_number" (EFillCaseNumber v)
    (env_fill_case_number W v).

Definition fill_filing_year (y : Z) : M bool :=
  form_call "fill_filing_year" (EFillFilingYear y)
    (env_fill_filing_year W y).

Definition solve_captcha : M bool :=
  form_call "solve_captcha" ESolveCaptcha (env_solve_captcha W).

Definition submit_form : M bool :=
  form_call "submit_form" ESubmitForm (env_submit_form W).

(** [_fill_search_form] *)
Definition _fill_search_form (case_type0 case_number0 : string)
    (filing_year0 : Z) : M bool :=
  try_except
    (ok1 <- fill_case_type case_type0 ;;
     if negb ok1 then ret false else
     ok2 <- fill_case_number case_number0 ;;
     if negb ok2 then ret false else
     ok3 <- fill_filing_year filing_year0 ;;
     if negb ok3 then ret false else
     ret true)
    (fun _ => ret false).

(** [self.data_extractor.extract_case_data(...)]: every exception inside
    gives [None]. *)
Definition extract_case_data (case_type0 case_number0 : string)
    (filing_year0 : Z) : M (option CaseData) :=
  fun st =>
    if data_extractor st then
      (emit EExtractCaseData ;;
       try_except
         (soup <- of_outcome (env_results_page W) ;;
          ret (case_of_page urljoin BASE_URL soup case_type0 case_number0
                 filing_year0 (env_now_extracted W)))
         (fun _ => ret None)) st
    else attribute_error "extract_case_data" st.

(** [self.data_extractor.extract_orders_data(orders_url)]: every
    exception inside gives the empty list. *)
Definition extract_orders_data (orders_url : string)
  : M (list OrderRecord) :=
  fun st =>
    if data_extractor st then
      (emit (EExtractOrdersData orders_url) ;;
       try_except
         (soup <- of_outcome (env_orders_page W orders_url) ;;
          ret (orders_of_page urljoin BASE_URL soup))
         (fun _ => ret [])) st
    else attribute_error "extract_orders_data" st.

Definition get_driver : M bool := fun st => (Returned (driver st), st).

(** [_cleanup] *)
Definition _cleanup : M unit :=
  emit ECleanup ;;
  has_driver <- get_driver ;;
  if has_driver then
    try_finally
      (try_except
         (emit EQuit ;; of_outcome (env_quit W))
         (fun _ => ret tt))
      (set_references false)
  else ret tt.

(** Truthiness of [case_data.get('orders_link')]. *)
Definition truthy_link (l : option string) : option string :=
  match l with
  | Some u => if String.eqb u "" then None else Some u
  | None => None
  end.

(** The [try] block of [search_case_details].  The local [error_message]
    only carries the text of the exception about to be raised; its
    assignment before [return None] is not read by anything. *)
Definition search_attempt (case_type0 case_number0 : string)
    (filing_year0 : Z) (progress_callback : option Callback)
  : M (option CaseData) :=
  report progress_callback "Initializing browser session" 10 ;;
  _setup_browser ;;
  report progress_callback "Loading court website" 25 ;;
  driver_get SEARCH_URL ;;
  wait_for_page_load ;;
  report progress_callback "Filling case search form" 40 ;;
  filled <- _fill_search_form case_type0 case_number0 filing_year0 ;;
  if negb filled then raise "Unable to fill search form" else
  report progress_callback "Processing security verification" 60 ;;
  solved <- solve_captcha ;;
  if negb solved
  then raise "Security verification failed - please try again" else
  report progress_callback "Submitting search request" 70 ;;
  submitted <- submit_form ;;
  if negb submitted then raise "Search submission failed" else
  report progress_callback "Extracting case information" 85 ;;
  found <- extract_case_data case_type0 case_number0 filing_year0 ;;
  match found with
  | None => ret None
  | Some case_data0 =>
      case_data1 <-
        match truthy_link (orders_link case_data0) with
        | Some link =>
            report progress_callback "Retrieving order documents" 95 ;;
            orders0 <- extract_orders_data link ;;
            ret (with_orders case_data0 orders0)
        | None => ret case_data0
        end ;;
      report progress_callback "Search completed successfully" 100 ;;
      save_search_record W (FoundData case_data1) true None ;;
      ret (Some case_data1)
  end.

(** The dictionary [failed_data] of the [except] block. *)
Definition failed_data (case_type0 case_number0 : string) (filing_year0 : Z)
  : SearchData :=
  FailedData
    (case_type0 ++ " " ++ case_number0 ++ "/" ++ str_of_Z filing_year0)
    case_type0 filing_year0.

(** [str(e) or "Unknown error occurred during search"] *)
Definition error_text (e : string) : string :=
  if String.eqb e "" then "Unknown error occurred during search" else e.

(** The [except Exception as e] block of [search_case_details]. *)
Definition search_failed (case_type0 case_number0 : string)
    (filing_year0 : Z) (e : string) : M (option CaseData) :=
  let error_message := error_text e in
  save_search_record W (failed_data case_type0 case_number0 filing_year0)
    false (Some error_message) ;;
  raise error_message.

(** [search_case_details]: the [try] block, its [except] block, and
    [_cleanup] in the [finally] block. *)
Definition search_case_details (case_type0 case_number0 : string)
    (filing_year0 : Z) (progress_callback : option Callback)
  : M (option CaseData) :=
  try_finally
    (try_except
       (search_attempt case_type0 case_number0 filing_year0
          progress_callback)
       (search_failed case_type0 case_number0 filing_year0))
    _cleanup.

(** ** [app.py]: the search form *)

(** What the page shows; pictographs of the messages are left out. *)
Inductive Ui : Type :=
| st_error (msg : string)
| st_info (msg : string)
| st_success (msg : string)
| status_text (msg : string)
| display_case_details (cd : CaseData).

(** The outcome of a form submission: what is shown, what the scraper
    did (oldest event first) and the store afterwards. *)
Record AppRun : Type := {
  shown : list Ui;
  did : list Event;
  store : list SearchRow
}.

(** [CourtScraper.__init__] over the store as it is. *)
Definition new_scraper (db0 : list SearchRow) : State :=
  {| driver := false; form_handler := false; data_extractor := false;
     trace := []; db := db0 |}.

(** [update_progress] moves the progress bar and returns [None]. *)
Definition update_progress : Callback := fun _ _ => Returned PyNone.

(** The guidance of the [except] branch of [perform_case_search]. *)
Definition error_guidance (error_msg : string) : list Ui :=
  if str_in "Security verification failed" error_msg then
    [st_info "**Tip:** The court website's security verification failed. Please try again in a few moments."]
  else if str_in "No case found" error_msg then
    [st_info "**Tip:** Please verify the case number, type, and filing year are correct."]
  else if str_in "internet connection" (lower error_msg) then
    [st_info "**Tip:** Please check your internet connection and try again."]
  else [].

Definition perform_case_search (case_type0 case_number0 : string)
    (filing_year0 : Z) (db0 : list SearchRow) : AppRun :=
  match search_case_details case_type0 case_number0 filing_year0
          (Some update_progress) (new_scraper db0) with
  | (Returned (Some cd), st) =>
      {| shown :=
           [status_text "**Search completed successfully!**";
            st_success ("Found case: **" ++ case_number cd ++ "**");
            display_case_details cd;
            st_info "**Tip:** This search result has been automatically saved to your search history. Switch to 'Search History' tab to view all previous searches."];
         did := events st; store := db st |}
  | (Returned None, st) =>
      {| shown :=
           [status_text "**No case found**";
            st_error "No case found with the provided details. Please verify case number, type, and filing year."];
         did := events st; store := db st |}
  | (Raised error_msg, st) =>
      {| shown :=
           [status_text "**Search failed**";
            st_error ("Search failed: " ++ error_msg)]
           ++ error_guidance error_msg;
         did := events st; store := db st |}
  end.

(** The handler of the submit button in [render_search_tab]. *)
Definition render_search_tab (case_type0 case_number0 : string)
    (filing_year0 : Z) (db0 : list SearchRow) : AppRun :=
  if String.eqb (strip case_number0) "" then
    {| shown := [st_error "Please enter a case number"];
       did := []; store := db0 |}
  else if negb (isdigit case_number0) then
    {| shown := [st_error "Case number should contain only digits"];
       did := []; store := db0 |}
  else perform_case_search case_type0 (strip case_number0) filing_year0 db0.

End CourtScraper.

(** ** Declarative readings used by the statements *)

(** [text] holds a bracketed group [g] after the prefix [pre]: an opening
    bracket, the non-empty [g] free of closing brackets, then a closing
    bracket. *)
Definition no_close (g : string) : bool :=
  all_chars (fun c => negb (Ascii.eqb c "]"%char)) g.

Definition is_group (text pre g post : string) : Prop :=
  text = pre ++ String "["%char (g ++ String "]"%char post)
  /\ g <> "" /\ no_close g = true.

(** The first bracketed group of [text]: no group starts further left. *)
Definition first_group (text pre g post : string) : Prop :=
  is_group text pre g post
  /\ forall pre' g' post',
       is_group text pre' g' post' -> String.length pre <= String.length pre'.

(** None of the three special-cased labels occurs in [text]. *)
Definition no_special_label (text : string) : Prop :=
  str_in "[DISPOSED]" text = false
  /\ str_in "[CLOSED]" text = false
  /\ str_in "[PENDING]" text = false.

(** [text] has no colon. *)
Definition no_colon (text : string) : bool :=
  all_chars (fun c => negb (Ascii.eqb c ":"%char)) text.

(** No occurrence of [sep] in [t ++ rest] starts inside [t]. *)
Fixpoint no_start (sep t rest : string) : bool :=
  match t with
  | EmptyString => true
  | String c t' =>
      negb (startswith sep (t ++ rest)) && no_start sep t' rest
  end.

(** [m] is [M] after at least one more character. *)
Fixpoint longer_suffix (M m : string) : bool :=
  match m with
  | EmptyString => false
  | String _ m' => String.eqb m' M || longer_suffix M m'
  end.

(** A stand-in for [urllib.parse.urljoin] in the examples.  It agrees with
    the library on the references used there against a base that ends in a
    slash: the empty reference gives the base, a reference with an
    unbalanced bracket in its host raises, a path from the root replaces the
    path of the base, and a relative path is appended to the base. *)
Definition urljoin_sample (base url : string) : outcome string :=
  if String.eqb url "" then Returned base
  else if startswith "//[" url then Raised "Invalid IPv6 URL"
  else if startswith "/" url then
    Returned (substring 0 (String.length base - 1) base ++ url)
  else Returned (base ++ url).

(** The first [href] that holds a keyword. *)
Definition first_keyword_href (links : list (string * string))
  : option string :=
  find has_keyword (map fst links).

(** Failure of a join drops the link. *)
Definition joined (o : outcome string) : option string :=
  match o with
  | Returned u => Some u
  | Raised _ => None
  end.

(** ** Sample pages and worlds for the examples *)

Definition empty_page : Page :=
  {| id_caseTable := None; class_case_table := None;
     class_result_table := None; class_order_table := None |}.

Definition plain (text : string) : Cell :=
  {| c_text := text; c_links := [] |}.

Definition linked (text href : string) : Cell :=
  {| c_text := text;
     c_links := [ {| a_href := Some href; a_text := text |} ] |}.

(** A results page with one case row whose case-info cell links to the
    orders page. *)
Definition results_page_sample : Page :=
  {| id_caseTable :=
       Some {| t_tbody :=
                 Some [ [ plain "1";
                          linked "W.P.(C) 12345/2020 [PENDING]"
                            "app/case-orders/12345";
                          plain "A vs B";
                          plain "NEXT DATE: 12.05.2024Last Date: 01.03.2024COURT NO: 5" ] ];
               t_trs := [] |};
     class_case_table := None; class_result_table := None;
     class_order_table := None |}.

(** An orders page of five rows whose third row holds a reference that
    [urljoin] rejects. *)
Definition order_rows_sample : list Row :=
  [ [ plain "1"; linked "Order 1" "/files/o1.pdf"; plain "01.01.2024" ];
    [ plain "2"; linked "Order 2" "https://x.example/o2.pdf";
      plain "02.01.2024" ];
    [ plain "3"; linked "Order 3" "//[o3.pdf"; plain "03.01.2024" ];
    [ plain "4"; plain "Order 4"; plain "04.01.2024" ];
    [ plain "5"; linked "Order 5" "files/o5.pdf" ] ].

Definition orders_page_sample : Page :=
  {| id_caseTable := Some {| t_tbody := Some order_rows_sample;
                             t_trs := [] |};
     class_case_table := None; class_result_table := None;
     class_order_table := None |}.

(** A world in which every step succeeds and the site shows [results]. *)
Definition world_showing (results : Page) : World :=
  {| env_create_driver := Returned tt;
     env_get := fun _ => Returned tt;
     env_fill_case_type := fun _ => Returned true;
     env_fill_case_number := fun _ => Returned true;
     env_fill_filing_year := fun _ => Returned true;
     env_solve_captcha := Returned true;
     env_submit_form := Returned true;
     env_results_page := Returned results;
     env_orders_page := fun _ => Returned orders_page_sample;
     env_quit := Returned tt;
     env_sqlite_ok := true;
     env_now_extracted := "2024-03-05T10:00:00";
     env_now_saved := "2024-03-05T10:00:07" |}.

(** The same world with a verification code that cannot be read. *)
Definition world_captcha_fails : World :=
  {| env_create_driver := Returned tt;
     env_get := fun _ => Returned tt;
     env_fill_case_type := fun _ => Returned true;
     env_fill_case_number := fun _ => Returned true;
     env_fill_filing_year := fun _ => Returned true;
     env_solve_captcha := Returned false;
     env_submit_form := Returned true;
     env_results_page := Returned results_page_sample;
     env_orders_page := fun _ => Returned orders_page_sample;
     env_quit := Raised "chrome not reachable";
     env_sqlite_ok := true;
     env_now_extracted := "2024-03-05T10:00:00";
     env_now_saved := "2024-03-05T10:00:07" |}.

(** ** Observations on a run *)

Definition is_save (e : Event) : bool :=
  match e with ESaveSearchRecord _ _ _ => true | _ => false end.

Definition is_cleanup (e : Event) : bool :=
  match e with ECleanup => true | _ => false end.

Definition is_quit (e : Event) : bool :=
  match e with EQuit => true | _ => false end.

Definition is_progress (e : Event) : bool :=
  match e with EProgress _ _ => true | _ => false end.

(** The steps of the stages that follow the filling of the form. *)
Definition is_verification (e : Event) : bool :=
  match e with ESolveCaptcha => true | _ => false end.

Definition is_submission (e : Event) : bool :=
  match e with ESubmitForm => true | _ => false end.

Definition is_extraction (e : Event) : bool :=
  match e with
  | EExtractCaseData | EExtractOrdersData _ => true
  | _ => false
  end.

(** Running [m] adds to the events selected by [p] exactly [f r], where [r]
    is the result of the run. *)
Definition emits {A} (p : Event -> bool) (m : M A)
    (f : outcome A -> list Event) : Prop :=
  forall st,
    filter p (trace (snd (m st)))
    = (f (fst (m st)) ++ filter p (trace st))%list.

(** Running [m] adds no event selected by [p]. *)
Definition silent {A} (p : Event -> bool) (m : M A) : Prop :=
  emits p m (fun _ => []).

(** [m] never raises. *)
Definition returns {A} (m : M A) : Prop :=
  forall st, exists a, fst (m st) = Returned a.

(** The callback returns a value at every milestone. *)
Definition callback_returns (f : Callback) : Prop :=
  forall label pct, exists v, f label pct = Returned v.

(** Two states that differ at most in their progress events. *)
Definition same_but_progress (s1 s2 : State) : Prop :=
  driver s1 = driver s2
  /\ form_handler s1 = form_handler s2
  /\ data_extractor s1 = data_extractor s2
  /\ db s1 = db s2
  /\ filter (fun e => negb (is_progress e)) (trace s1)
     = filter (fun e => negb (is_progress e)) (trace s2).

(** Two computations that, from such states, give the same result and
    again such states. *)
Definition alike {A} (m1 m2 : M A) : Prop :=
  forall s1 s2,
    same_but_progress s1 s2 ->
    fst (m1 s1) = fst (m2 s2)
    /\ same_but_progress (snd (m1 s1)) (snd (m2 s2)).

(** The stages up to the extraction of the case record add no event of a
    kind [p] that none of their steps has. *)
Definition stage_free (p : Event -> bool) : Prop :=
  (forall l n, p (EProgress l n) = false)
  /\ p ECreateDriver = false /\ (forall u, p (EGet u) = false)
  /\ p EWaitForPageLoad = false
  /\ (forall v, p (EFillCaseType v) = false)
  /\ (forall v, p (EFillCaseNumber v) = false)
  /\ (forall y, p (EFillFilingYear y) = false)
  /\ p ESolveCaptcha = false /\ p ESubmitForm = false
  /\ p EExtractCaseData = false
  /\ (forall u, p (EExtractOrdersData u) = false).

(** What the [try] and [except] blocks add together. *)
Definition attempt_events (p : Event -> bool) (ct cn : string) (fy : Z)
    (r : outcome (option CaseData)) : list Event :=
  match r with
  | Returned (Some cd) =>
      filter p [ESaveSearchRecord (FoundData cd) true None]
  | Returned None => []
  | Raised msg =>
      filter p [ESaveSearchRecord (failed_data ct cn fy) false (Some msg)]
  end.

(** A callback, when there is one, returns at every milestone. *)
Definition callback_ok (cb : option Callback) : Prop :=
  match cb with
  | Some f => callback_returns f
  | None => True
  end.

(** The session is created and the search page loads. *)
Definition form_reached (W : World) : Prop :=
  env_create_driver W = Returned tt /\ env_get W SEARCH_URL = Returned tt.

(** All three fill/select calls of the form return [True]. *)
Definition form_filled (W : World) (ct cn : string) (fy : Z) : bool :=
  match env_fill_case_type W ct with
  | Returned true =>
      match env_fill_case_number W cn with
      | Returned true =>
          match env_fill_filing_year W fy with
          | Returned true => true
          | _ => false
          end
      | _ => false
      end
  | _ => false
  end.

(** The events of a report and of the filling of the form, newest first. *)
Definition progress_events (cb : option Callback) (label : string) (pct : Z)
  : list Event :=
  match cb with
  | Some _ => [EProgress label pct]
  | None => []
  end.

Definition fill_events (W : World) (ct cn : string) (fy : Z) : list Event :=
  match env_fill_case_type W ct with
  | Returned true =>
      match env_fill_case_number W cn with
      | Returned true =>
          [EFillFilingYear fy; EFillCaseNumber cn; EFillCaseType ct]
      | _ => [EFillCaseNumber cn; EFillCaseType ct]
      end
  | _ => [EFillCaseType ct]
  end.

(** What [extract_case_data] finds on the results page of the world. *)
Definition case_found (urljoin : string -> string -> outcome string)
    (W : World) (ct cn : string) (fy : Z) : option CaseData :=
  match env_results_page W with
  | Returned soup =>
      case_of_page urljoin BASE_URL soup ct cn fy (env_now_extracted W)
  | Raised _ => None
  end.

(** The state with [evs] added to its events. *)
Definition logged (evs : list Event) (st : State) : State :=
  {| driver := driver st; form_handler := form_handler st;
     data_extractor := data_extractor st;
     trace := evs ++ trace st; db := db st |}.

(** ** The store *)

(** The row that [save_search_record] inserts. *)
Definition search_row (W : World) (d : SearchData) (ok : bool)
    (msg : option string) : SearchRow :=
  {| r_case_number := data_case_number d;
     r_case_type := data_case_type d;
     r_filing_year := data_filing_year d;
     r_search_timestamp := env_now_saved W;
     r_case_data := if ok then Some d else None;
     r_success := ok;
     r_error_message := msg |}.

(** The rows that the calls of [save_search_record] among [evs] insert
    (newest first, as the events are), none when SQLite fails. *)
Definition rows_saved (W : World) (evs : list Event) : list SearchRow :=
  flat_map
    (fun e =>
       match e with
       | ESaveSearchRecord d ok msg =>
           if env_sqlite_ok W then [search_row W d ok msg] else []
       | _ => []
       end) evs.

(** [st] continues [st0]: it has the events of [st0] and some more, and
    its store is the store of [st0] with the rows those events insert. *)
Definition continues (W : World) (st0 st : State) : Prop :=
  exists evs,
    trace st = (evs ++ trace st0)%list
    /\ db st = (rows_saved W evs ++ db st0)%list.

(** Running [m] only ever continues a state. *)
Definition keeps_store {A} (W : World) (m : M A) : Prop :=
  forall st0 st, continues W st0 st -> continues W st0 (snd (m st)).

(** The aggregate query of [get_search_statistics] over the rows of
    [search_history]: the count of all rows, of the rows with [success = 1]
    and of the rows with [success = 0].  (The dictionary built from it also
    holds the success rate, a rounded floating-point quotient, which is not
    modelled.) *)
Definition count_searches (rows : list SearchRow) : nat * nat * nat :=
  (List.length rows,
   List.length (filter r_success rows),
   List.length (filter (fun r => negb (r_success r)) rows)).

(** What [extract_orders_data] finds on the orders page of the world. *)
Definition orders_found (urljoin : string -> string -> outcome string)
    (W : World) (orders_url : string) : list OrderRecord :=
  match env_orders_page W orders_url with
  | Returned soup => orders_of_page urljoin BASE_URL soup
  | Raised _ => []
  end.

(** The case record of a successful search: the extracted record, with
    the orders of its orders page when it has a non-empty orders link. *)
Definition with_orders_found (urljoin : string -> string -> outcome string)
    (W : World) (cd : CaseData) : CaseData :=
  match truthy_link (orders_link cd) with
  | Some link => with_orders cd (orders_found urljoin W link)
  | None => cd
  end.

(** Persistence or cleanup. *)
Definition is_save_or_cleanup (e : Event) : bool :=
  is_save e || is_cleanup e.

(** Running [m] leaves the driver reference as it is. *)
Definition keeps_driver {A} (m : M A) : Prop :=
  forall st, driver (snd (m st)) = driver st.

(** The percentage of a progress event. *)
Definition pct_of (e : Event) : Z :=
  match e with
  | EProgress _ pct => pct
  | _ => 0
  end.

(** The percentages reported so far, newest first. *)
Definition reported (st : State) : list Z :=
  map pct_of (filter is_progress (trace st)).

(** [l] is strictly decreasing and lies above [lo] and at most at [hi]. *)
Fixpoint descending (lo hi : Z) (l : list Z) : Prop :=
  match l with
  | [] => (lo <= hi)%Z
  | x :: l' => (lo < x <= hi)%Z /\ descending lo (x - 1) l'
  end.

(** Running [m] reports percentages above [lo] and up to [hi], each higher
    than the one before. *)
Definition reports_within {A} (lo hi : Z) (m : M A) : Prop :=
  forall st,
    exists new,
      reported (snd (m st)) = (new ++ reported st)%list
      /\ descending lo hi new.

(** ** Readings of the extractor used by the further properties *)

(** The table [extract_case_data] settles on: the one with id [caseTable],
    else the one of class [case-table], else the one of class
    [result-table]. *)
Definition results_table (soup : Page) : option Table :=
  match id_caseTable soup with
  | Some t => Some t
  | None =>
      match class_case_table soup with
      | Some t => Some t
      | None => class_result_table soup
      end
  end.

(** A row with fewer than three cells. *)
Definition short_row (cells : Row) : bool := (List.length cells <? 3)%nat.

(** [text] has no white space at either end. *)
Definition trimmed (text : string) : Prop := strip text = text.

(** [s] does not start with white space. *)
Definition head_not_space (s : string) : Prop :=
  match s with
  | EmptyString => True
  | String c _ => isspace c = false
  end.

(** No character of [text] is white space. *)
Definition no_space (text : string) : bool :=
  all_chars (fun c => negb (isspace c)) text.

(** No character of [text] is a slash. *)
Definition no_slash (text : string) : bool :=
  all_chars (fun c => negb (Ascii.eqb c "/"%char)) text.

(** A results page whose table has no [tbody]: a header row, a short row
    and two case rows. *)
Definition results_table_headed : Table :=
  {| t_tbody := None;
     t_trs := [ [ plain "S.No"; plain "Case"; plain "Party" ];
                [ plain "note" ];
                [ plain "1"; plain "W.P.(C) 1/2020 [CLOSED]"; plain "A vs B" ];
                [ plain "2"; plain "W.P.(C) 2/2020"; plain "C vs D" ] ] |}.

Definition results_page_headed : Page :=
  {| id_caseTable := None; class_case_table := None;
     class_result_table := Some results_table_headed;
     class_order_table := None |}.

(** ** [app.py]: the sidebar and the history tab *)

(** [s.split()]: the pieces between runs of white space; [cur] is the
    piece being collected. *)
Fixpoint split_ws_from (cur s : string) : list string :=
  match s with
  | EmptyString =>
      match cur with
      | EmptyString => []
      | _ => [cur]
      end
  | String c s' =>
      if isspace c then
        match cur with
        | EmptyString => split_ws_from EmptyString s'
        | _ => cur :: split_ws_from EmptyString s'
        end
      else split_ws_from (cur ++ String c EmptyString) s'
  end.

Definition split_ws (s : string) : list string :=
  split_ws_from EmptyString s.

(** The case number that "Search Again" of [render_recent_searches] puts
    back into the form: [case_number.split()[-1].split('/')[0]], which
    raises [IndexError] when the stored text has no piece at all. *)
Definition repeat_case_number (stored : string) : outcome string :=
  match split_ws stored with
  | [] => Raised "list index out of range"
  | pieces => Returned (split_first "/" (last pieces EmptyString))
  end.

(** [l[start:stop]] for a Python list: a negative index counts from the
    end, and both indexes are brought into the bounds of the list. *)
Definition slice_index (len i : Z) : Z :=
  if (i <? 0)%Z then Z.max (i + len) 0 else Z.min i len.

Definition py_slice {A} (l : list A) (start stop : Z) : list A :=
  let len := Z.of_nat (List.length l) in
  let a := slice_index len start in
  let b := slice_index len stop in
  firstn (Z.to_nat (b - a)) (skipn (Z.to_nat a) l).

(** The pagination of [render_history_tab]: three cases per page.
    [math.ceil(total_items / items_per_page)] goes through a float
    quotient, which is exact enough for the ceiling on every list length
    below 2^52, so it is taken as the integer ceiling. *)
Definition items_per_page : Z := 3.

Definition total_pages (total_items : nat) : Z :=
  ((Z.of_nat total_items + items_per_page - 1) / items_per_page)%Z.

(** [all_searches[start_idx:end_idx]] for the page [current_page]. *)
Definition current_page_searches {A} (all_searches : list A)
    (current_page : Z) : list A :=
  let start_idx := ((current_page - 1) * items_per_page)%Z in
  let end_idx := (start_idx + items_per_page)%Z in
  py_slice all_searches start_idx end_idx.

(** ** [FormHandler] over the calls of Selenium

    The browser is a state of an arbitrary type that every Selenium call
    may read and change; a call returns or raises.  [time.sleep] and the
    logger have no part in the results and are left out. *)

Inductive By : Type := By_NAME | By_ID | By_XPATH | By_CLASS_NAME.

Definition Locator : Type := (By * string)%type.

(** [str.isalnum] on one code point below 256: letters, digits and the
    numeric signs, as Python classifies them. *)
Definition isalnum_char (c : ascii) : bool :=
  let n := nat_of_ascii c in
  (((48 <=? n) && (n <=? 57)) || ((65 <=? n) && (n <=? 90))
   || ((97 <=? n) && (n <=? 122))
   || (n =? 170) || (n =? 178) || (n =? 179) || (n =? 181) || (n =? 185)
   || (n =? 186) || ((188 <=? n) && (n <=? 190))
   || ((192 <=? n) && (n <=? 214)) || ((216 <=? n) && (n <=? 246))
   || ((248 <=? n) && (n <=? 255)))%nat.

(** [s.isalnum()] *)
Definition isalnum (s : string) : bool :=
  match s with
  | EmptyString => false
  | _ => all_chars isalnum_char s
  end.

(** The test of [solve_captcha] on a stripped text:
    [text and len(text) >= 3 and (text.isdigit() or text.isalnum())]. *)
Definition looks_like_code (text : string) : bool :=
  negb (String.eqb text "") && (3 <=? String.length text)%nat
  && (isdigit text || isalnum text).

Section FormHandler.

Variable Browser : Type.
Variable Element : Type.

(** A computation in the browser. *)
Definition Br (A : Type) : Type := Browser -> outcome A * Browser.

Definition bret {A} (a : A) : Br A := fun s => (Returned a, s).

Definition bbind {A B} (m : Br A) (k : A -> Br B) : Br B :=
  fun s =>
    match m s with
    | (Returned a, s1) => k a s1
    | (Raised e, s1) => (Raised e, s1)
    end.

(** [try: body except Exception: handler] *)
Definition btry {A} (body : Br A) (handler : Br A) : Br A :=
  fun s =>
    match body s with
    | (Returned a, s1) => (Returned a, s1)
    | (Raised _, s1) => handler s1
    end.

(** The calls of Selenium that [FormHandler] makes. *)
Record Selenium : Type := {
  wait_clickable : Locator -> Br Element;
  (* [self.wait.until(EC.element_to_be_clickable(locator))] *)
  wait_ready : Br unit;
  (* [self.wait.until(... document.readyState == "complete")] *)
  find_elements : Locator -> Br (list Element);
  new_select : Element -> Br unit;          (* [Select(element)] *)
  select_by_visible_text : Element -> string -> Br unit;
  select_by_value : Element -> string -> Br unit;
  select_options : Element -> Br (list Element);   (* [select_obj.options] *)
  element_text : Element -> Br string;             (* [element.text] *)
  element_clear : Element -> Br unit;
  send_keys : Element -> string -> Br unit;
  get_value : Element -> Br (option string);  (* [get_attribute('value')] *)
  is_enabled : Element -> Br bool;
  is_displayed : Element -> Br bool;
  scroll_into_view : Element -> Br unit;           (* [execute_script] *)
  click : Element -> Br unit
}.

Variable web : Selenium.

(** [for locator in selectors: try: <attempt> except Exception: continue]
    followed by [return False]: an attempt that returns [true] ends the
    method with [True]; one that returns [false] or raises passes on to the
    next locator. *)
Fixpoint try_selectors (attempt : Locator -> Br bool)
    (selectors : list Locator) : Br bool :=
  match selectors with
  | [] => bret false
  | locator :: rest =>
      fun s =>
        match attempt locator s with
        | (Returned true, s1) => (Returned true, s1)
        | (_, s1) => try_selectors attempt rest s1
        end
  end.

(** [wait_for_page_load]: a time-out is logged. *)
Definition fh_wait_for_page_load : Br unit :=
  btry (wait_ready web) (bret tt).

Definition case_type_selectors : list Locator :=
  [ (By_NAME, "case_type"); (By_ID, "case_type");
    (By_XPATH, "//select[contains(@name, 'case') and contains(@name, 'type')]");
    (By_XPATH, "//select[contains(@id, 'case_type')]") ].

(** The loop over [select_obj.options] of [fill_case_type]: the first
    option whose text holds the case type is selected by its text. *)
Fixpoint select_partial (element : Element) (case_type0 : string)
    (options : list Element) : Br bool :=
  match options with
  | [] => bret false
  | option :: rest =>
      bbind (element_text web option) (fun text =>
      if str_in case_type0 text then
        bbind (element_text web option) (fun text' =>
        bbind (select_by_visible_text web element text') (fun _ =>
        bret true))
      else select_partial element case_type0 rest)
  end.

(** The body of the [try] of [fill_case_type] for one locator. *)
Definition case_type_attempt (case_type0 : string) (locator : Locator)
  : Br bool :=
  bbind (wait_clickable web locator) (fun element =>
  bbind (new_select web element) (fun _ =>
  btry (bbind (select_by_visible_text web element case_type0) (fun _ =>
        bret true))
       (bbind (select_options web element) (fun options =>
        select_partial element case_type0 options)))).

Definition fh_fill_case_type (case_type0 : string) : Br bool :=
  try_selectors (case_type_attempt case_type0) case_type_selectors.

Definition case_number_selectors : list Locator :=
  [ (By_NAME, "case_no"); (By_NAME, "case_number"); (By_ID, "case_no");
    (By_ID, "case_number");
    (By_XPATH, "//input[contains(@name, 'case') and contains(@name, 'no')]");
    (By_XPATH, "//input[contains(@placeholder, 'case')]") ].

(** Clear a field, type [text] and read the field back: [true] when the
    value read is the text typed. *)
Definition type_and_check (text : string) (locator : Locator) : Br bool :=
  bbind (wait_clickable web locator) (fun element =>
  bbind (element_clear web element) (fun _ =>
  bbind (send_keys web element text) (fun _ =>
  bbind (get_value web element) (fun value =>
  bret (match value with
        | Some v => String.eqb v text
        | None => false
        end))))).

Definition fh_fill_case_number (case_number0 : string) : Br bool :=
  try_selectors (type_and_check case_number0) case_number_selectors.

Definition filing_year_selectors : list Locator :=
  [ (By_NAME, "case_year"); (By_NAME, "year"); (By_NAME, "filing_year");
    (By_ID, "case_year"); (By_ID, "year");
    (By_XPATH, "//select[contains(@name, 'year')]") ].

(** The body of the [try] of [fill_filing_year] for one locator: by value,
    and by visible text when that raises. *)
Definition filing_year_attempt (year : Z) (locator : Locator) : Br bool :=
  bbind (wait_clickable web locator) (fun element =>
  bbind (new_select web element) (fun _ =>
  btry (bbind (select_by_value web element (str_of_Z year)) (fun _ =>
        bret true))
       (bbind (select_by_visible_text web element (str_of_Z year)) (fun _ =>
        bret true)))).

Definition fh_fill_filing_year (year : Z) : Br bool :=
  try_selectors (filing_year_attempt year) filing_year_selectors.

Definition captcha_selectors : list Locator :=
  [ (By_ID, "captcha-code"); (By_CLASS_NAME, "captcha-code");
    (By_XPATH, "//span[contains(@class, 'captcha')]");
    (By_XPATH, "//div[contains(@class, 'captcha')]//span");
    (By_XPATH, "//*[contains(text(), 'CAPTCHA') or contains(@id, 'captcha')]") ].

Definition captcha_input_selectors : list Locator :=
  [ (By_NAME, "captchaInput"); (By_NAME, "captcha"); (By_ID, "captchaInput");
    (By_ID, "captcha"); (By_XPATH, "//input[contains(@name, 'captcha')]");
    (By_XPATH, "//input[contains(@placeholder, 'captcha')]") ].

(** The loop over the elements of one locator: the stripped text of the
    first element that looks like a code. *)
Fixpoint first_code (elements : list Element) : Br (option string) :=
  match elements with
  | [] => bret None
  | element :: rest =>
      bbind (element_text web element) (fun text =>
      if looks_like_code (strip text) then bret (Some (strip text))
      else first_code rest)
  end.

(** The search for the code over the locators: a locator whose elements
    cannot be read is passed over. *)
Fixpoint find_code (selectors : list Locator) : Br (option string) :=
  match selectors with
  | [] => bret None
  | locator :: rest =>
      fun s =>
        match bbind (find_elements web locator) first_code s with
        | (Returned (Some code), s1) => (Returned (Some code), s1)
        | (_, s1) => find_code rest s1
        end
  end.

(** [solve_captcha] *)
Definition fh_solve_captcha : Br bool :=
  btry
    (bbind (find_code captcha_selectors) (fun captcha_code =>
     match captcha_code with
     | None => bret false
     | Some code =>
         try_selectors (type_and_check code) captcha_input_selectors
     end))
    (bret false).

Definition submit_selectors : list Locator :=
  map (fun xpath => (By_XPATH, xpath))
    [ "//button[@id='search']"; "//button[contains(@class, 'yellow-btn')]";
      "//button[contains(@class, 'search-btn')]"; "//input[@type='submit']";
      "//button[@type='submit']"; "//button[contains(text(), 'Search')]";
      "//button[contains(text(), 'Submit')]";
      "//input[contains(@value, 'Search')]" ].

(** The body of the [try] of [submit_form] for one locator. *)
Definition submit_attempt (locator : Locator) : Br bool :=
  bbind (wait_clickable web locator) (fun button =>
  bbind (is_enabled web button) (fun enabled =>
  if enabled then
    bbind (is_displayed web button) (fun displayed =>
    if displayed then
      bbind (scroll_into_view web button) (fun _ =>
      bbind (click web button) (fun _ =>
      bret true))
    else bret false)
  else bret false)).

Definition fh_submit_form : Br bool :=
  try_selectors submit_attempt submit_selectors.

(** An attempt that never ends the method with [True]. *)
Definition never_succeeds (attempt : Locator -> Br bool) (locator : Locator)
  : Prop :=
  forall s, fst (attempt locator s) <> Returned true.

(** [m] returns and never raises. *)
Definition breturns {A} (m : Br A) : Prop :=
  forall s, exists a, fst (m s) = Returned a.

End FormHandler.

Arguments bret {Browser A} a.
Arguments bbind {Browser A B} m k.
Arguments btry {Browser A} body handler.
Arguments try_selectors {Browser} attempt selectors.
Arguments never_succeeds {Browser} attempt locator.
Arguments breturns {Browser A} m.
Arguments wait_clickable {Browser Element} s.
Arguments wait_ready {Browser Element} s.
Arguments find_elements {Browser Element} s.
Arguments new_select {Browser Element} s.
Arguments select_by_visible_text {Browser Element} s.
Arguments select_by_value {Browser Element} s.
Arguments select_options {Browser Element} s.
Arguments element_text {Browser Element} s.
Arguments element_clear {Browser Element} s.
Arguments send_keys {Browser Element} s.
Arguments get_value {Browser Element} s.
Arguments is_enabled {Browser Element} s.
Arguments is_displayed {Browser Element} s.
Arguments scroll_into_view {Browser Element} s.
Arguments click {Browser Element} s.

(** A sample page for the examples: the browser state is the value last
    typed; only the locator by name [case_number] finds a field, and the
    field keeps what is typed into it. *)
Definition web_sample : Selenium (option string) nat :=
  {| wait_clickable := fun locator s =>
       match locator with
       | (By_NAME, name) =>
           if String.eqb name "case_number" then (Returned 7, s)
           else (Raised "TimeoutException", s)
       | _ => (Raised "TimeoutException", s)
       end;
     wait_ready := fun s => (Raised "TimeoutException", s);
     find_elements := fun _ s => (Returned [], s);
     new_select := fun _ s => (Raised "UnexpectedTagNameException", s);
     select_by_visible_text := fun _ _ s =>
       (Raised "NoSuchElementException", s);
     select_by_value := fun _ _ s => (Raised "NoSuchElementException", s);
     select_options := fun _ s => (Returned [], s);
     element_text := fun _ s => (Returned "", s);
     element_clear := fun _ _ => (Returned tt, None);
     send_keys := fun _ text _ => (Returned tt, Some text);
     get_value := fun _ s => (Returned s, s);
     is_enabled := fun _ s => (Returned true, s);
     is_displayed := fun _ s => (Returned true, s);
     scroll_into_view := fun _ s => (Returned tt, s);
     click := fun _ s => (Returned tt, s) |}.

(** A second sample page, with a form: the browser state is the list of
    the actions done, newest first.  The case type is the select found by
    id, with the options [CRL.A.] and [W.P.(C)]; the year is the select
    found by the name [year], which knows no values, only texts; the
    button is found by its type. *)
Definition web_form_sample : Selenium (list string) nat :=
  {| wait_clickable := fun locator s =>
       match locator with
       | (By_ID, name) =>
           if String.eqb name "case_type" then (Returned 3, s)
           else (Raised "TimeoutException", s)
       | (By_NAME, name) =>
           if String.eqb name "year" then (Returned 4, s)
           else (Raised "TimeoutException", s)
       | (By_XPATH, path) =>
           if String.eqb path "//button[@type='submit']" then (Returned 9, s)
           else (Raised "TimeoutException", s)
       | _ => (Raised "TimeoutException", s)
       end;
     wait_ready := fun s => (Returned tt, s);
     find_elements := fun locator s =>
       match locator with
       | (By_CLASS_NAME, _) => (Returned [51; 52], s)
       | _ => (Returned [], s)
       end;
     new_select := fun element s =>
       if ((element =? 3) || (element =? 4))%nat then (Returned tt, s)
       else (Raised "UnexpectedTagNameException", s);
     select_by_visible_text := fun element text s =>
       if (element =? 3)%nat
       then if String.eqb text "CRL.A." || String.eqb text "W.P.(C)"
            then (Returned tt, ("text " ++ text) :: s)
            else (Raised "NoSuchElementException", s)
       else if (element =? 4)%nat
            then (Returned tt, ("text " ++ text) :: s)
            else (Raised "NoSuchElementException", s);
     select_by_value := fun _ _ s => (Raised "NoSuchElementException", s);
     select_options := fun element s =>
       if (element =? 3)%nat then (Returned [31; 32], s)
       else (Returned [], s);
     element_text := fun element s =>
       (Returned (if (element =? 31)%nat then "CRL.A."
                  else if (element =? 32)%nat then "W.P.(C)"
                  else if (element =? 51)%nat then "Enter the code"
                  else if (element =? 52)%nat then " 7H2K "
                  else ""), s);
     element_clear := fun _ s => (Returned tt, s);
     send_keys := fun _ text s => (Returned tt, ("keys " ++ text) :: s);
     get_value := fun _ s => (Returned None, s);
     is_enabled := fun _ s => (Returned true, s);
     is_displayed := fun _ s => (Returned true, s);
     scroll_into_view := fun _ s => (Returned tt, s);
     click := fun _ s => (Returned tt, "click" :: s) |}.

(** * Properties *)

(** ** Strings *)

Lemma append_assoc (a b c : string) : (a ++ b) ++ c = a ++ (b ++ c).
Proof. induction a as [|x a IH]; simpl; [reflexivity | now rewrite IH]. Qed.

Lemma append_nil_r (a : string) : a ++ "" = a.
Proof. induction a as [|x a IH]; simpl; [reflexivity | now rewrite IH]. Qed.

Lemma length_append (a b : string) :
  String.length (a ++ b) = String.length a + String.length b.
Proof. induction a as [|x a IH]; simpl; [reflexivity | now rewrite IH]. Qed.

Lemma startswith_iff (p s : string) :
  startswith p s = true <-> exists r, s = p ++ r.
Proof.
  revert s; induction p as [|a p IH]; intros s; simpl.
  - split; [intros _; now exists s | reflexivity].
  - destruct s as [|b s].
    + split; [discriminate | intros [r Hr]; discriminate].
    + destruct (Ascii.eqb_spec a b) as [->|Hab].
      * rewrite IH. split; intros [r Hr]; exists r.
        -- now rewrite Hr.
        -- now injection Hr.
      * split; [discriminate | intros [r Hr]; injection Hr; congruence].
Qed.

Lemma startswith_append (p r : string) : startswith p (p ++ r) = true.
Proof. apply startswith_iff. now exists r. Qed.

Lemma str_in_unfold (n s : string) :
  str_in n s =
  if startswith n s then true
  else match s with
       | EmptyString => false
       | String _ s' => str_in n s'
       end.
Proof. destruct s; reflexivity. Qed.

Lemma str_in_intro (n a b : string) : str_in n (a ++ n ++ b) = true.
Proof.
  induction a as [|c a IH].
  - rewrite str_in_unfold. simpl. now rewrite startswith_append.
  - change (String c a ++ n ++ b) with (String c (a ++ n ++ b)).
    rewrite str_in_unfold, IH.
    now destruct (startswith n (String c (a ++ n ++ b))).
Qed.

Lemma str_in_iff (n s : string) :
  str_in n s = true <-> exists a b, s = a ++ n ++ b.
Proof.
  split.
  - induction s as [|c s IH]; simpl.
    + destruct (startswith n "") eqn:E; [|discriminate].
      intros _. apply startswith_iff in E. destruct E as [r Hr].
      exists "", r. exact Hr.
    + destruct (startswith n (String c s)) eqn:E.
      * intros _. apply startswith_iff in E. destruct E as [r Hr].
        exists "", r. exact Hr.
      * intros H. destruct (IH H) as (a & b & Hab).
        exists (String c a), b. simpl. now rewrite Hab.
  - intros (a & b & ->). apply str_in_intro.
Qed.

(** A needle that occurs brings along every piece of itself. *)
Lemma str_in_part (u v w s : string) :
  str_in (u ++ v ++ w) s = true -> str_in v s = true.
Proof.
  rewrite !str_in_iff. intros (a & b & ->).
  exists (a ++ u), (w ++ b). now rewrite !append_assoc.
Qed.

Lemma str_in_char_false (c : ascii) (s : string) :
  str_in (String c "") s = false <->
  all_chars (fun x => negb (Ascii.eqb c x)) s = true.
Proof.
  induction s as [|x s IH]; simpl.
  - split; reflexivity.
  - destruct (Ascii.eqb c x); simpl; [split; discriminate | exact IH].
Qed.

Lemma append_inj_length (a b a' b' : string) :
  a ++ b = a' ++ b' -> String.length a = String.length a' ->
  a = a' /\ b = b'.
Proof.
  revert a'; induction a as [|x a IH]; intros [|y a']; simpl;
    try discriminate; intros E L.
  - now split.
  - injection E as -> E. injection L as L.
    destruct (IH _ E L) as [-> ->]. now split.
Qed.

(** ** White space *)

Lemma rstrip_empty (s : string) :
  rstrip s = "" <-> all_chars isspace s = true.
Proof.
  induction s as [|c s IH]; simpl; [split; reflexivity|].
  destruct (rstrip s) eqn:E.
  - destruct (isspace c); simpl; [|split; discriminate].
    split; intros _; [now apply IH | reflexivity].
  - split; [discriminate|]. intros H.
    apply andb_true_iff in H as [_ H]. apply IH in H. discriminate.
Qed.

Lemma lstrip_all_space (s : string) :
  all_chars isspace (lstrip s) = all_chars isspace s.
Proof.
  induction s as [|c s IH]; simpl; [reflexivity|].
  destruct (isspace c) eqn:E; simpl; [exact IH | now rewrite E].
Qed.

Lemma strip_empty (s : string) :
  strip s = "" <-> all_chars isspace s = true.
Proof. unfold strip. now rewrite rstrip_empty, lstrip_all_space. Qed.

(** ** The bracket pattern *)

Lemma until_close_some (s g : string) :
  until_close s = Some g <->
  no_close g = true /\ exists post, s = g ++ String "]"%char post.
Proof.
  split.
  - revert g; induction s as [|c s IH]; intros g; simpl; [discriminate|].
    destruct (Ascii.eqb_spec c "]"%char) as [->|Hc].
    + intros [= <-]. split; [reflexivity | now exists s].
    + destruct (until_close s) as [g'|]; [|discriminate].
      intros [= <-]. destruct (IH g' eq_refl) as (Hg & post & ->).
      split; [|now exists post].
      unfold no_close in *. simpl. rewrite Hg.
      destruct (Ascii.eqb_spec c "]"%char); [contradiction | reflexivity].
  - intros (Hg & post & ->). revert Hg.
    induction g as [|c g IH]; unfold no_close; simpl; [reflexivity|].
    intros H. apply andb_true_iff in H as [Hc Hg].
    destruct (Ascii.eqb c "]"%char); [discriminate|].
    now rewrite (IH Hg).
Qed.

Lemma is_group_cons (c : ascii) (s pre g post : string) :
  is_group (String c s) (String c pre) g post <-> is_group s pre g post.
Proof.
  unfold is_group; simpl. split; intros (E & Hne & Hg); repeat split; trivial.
  - now injection E.
  - now rewrite E.
Qed.

Lemma is_group_head (c : ascii) (s g post : string) :
  is_group (String c s) "" g post ->
  c = "["%char /\ exists a g', g = String a g' /\ until_close s = Some g.
Proof.
  intros (E & Hne & Hg). simpl in E. injection E as -> ->.
  split; [reflexivity|]. destruct g as [|a g']; [contradiction|].
  exists a, g'. split; [reflexivity|].
  apply until_close_some. split; [exact Hg | now exists post].
Qed.

Lemma re_search_sound (s g : string) :
  re_search_bracket s = Some g -> exists pre post, first_group s pre g post.
Proof.
  revert g; induction s as [|c s IH]; intros g; simpl; [discriminate|].
  assert (Hrec : re_search_bracket s = Some g ->
                 (forall g0 post0, ~ is_group (String c s) "" g0 post0) ->
                 exists pre post, first_group (String c s) pre g post).
  { intros H Hno. destruct (IH g H) as (pre & post & Hgrp & Hmin).
    exists (String c pre), post. split; [now apply is_group_cons|].
    intros [|c' pre'] g' post' H'.
    - now apply Hno in H'.
    - assert (c' = c) as -> by (destruct H' as (E & _); now injection E).
      apply (proj1 (is_group_cons _ _ _ _ _)) in H'.
      apply Hmin in H'. simpl; lia. }
  destruct (Ascii.eqb_spec c "["%char) as [->|Hc].
  - destruct (until_close s) as [[|a g0]|] eqn:Eu.
    + intros H. apply Hrec; [exact H|].
      intros g0 post0 H0. apply is_group_head in H0.
      destruct H0 as (_ & a & g' & -> & H0). congruence.
    + intros [= <-]. apply until_close_some in Eu.
      destruct Eu as (Hg & post & ->).
      exists "", post. split.
      * repeat split; [discriminate | exact Hg].
      * intros; simpl; lia.
    + intros H. apply Hrec; [exact H|].
      intros g0 post0 H0. apply is_group_head in H0.
      destruct H0 as (_ & a & g' & -> & H0). congruence.
  - intros H. apply Hrec; [exact H|].
    intros g0 post0 H0. apply is_group_head in H0. now destruct H0.
Qed.

Lemma re_search_exists (s pre g post : string) :
  is_group s pre g post -> exists g0, re_search_bracket s = Some g0.
Proof.
  revert s; induction pre as [|c pre IH]; intros s H.
  - destruct s as [|c s]; [destruct H as (E & _); discriminate|].
    apply is_group_head in H. destruct H as (-> & a & g' & -> & Hu).
    simpl. rewrite Hu. now exists (String a g').
  - destruct s as [|c' s]; [destruct H as (E & _); discriminate|].
    assert (c' = c) as -> by (destruct H as (E & _); now injection E).
    apply (proj1 (is_group_cons _ _ _ _ _)) in H.
    destruct (IH _ H) as [g0 Hg0].
    simpl. rewrite Hg0.
    destruct (Ascii.eqb c "["%char); [|now exists g0].
    destruct (until_close s) as [[|a g1]|]; eauto.
Qed.

Lemma first_group_unique (s pre g post pre' g' post' : string) :
  first_group s pre g post -> first_group s pre' g' post' -> g = g'.
Proof.
  intros [H Hmin] [H' Hmin'].
  assert (L : String.length pre = String.length pre').
  { apply Nat.le_antisymm; [eapply Hmin | eapply Hmin']; eassumption. }
  destruct H as (E & _ & Hg), H' as (E' & _ & Hg').
  rewrite E in E'. destruct (append_inj_length _ _ _ _ E' L) as [_ E2].
  injection E2 as E2.
  assert (U : until_close (g ++ String "]"%char post) = Some g)
    by (apply until_close_some; split; [exact Hg | now exists post]).
  assert (U' : until_close (g' ++ String "]"%char post') = Some g')
    by (apply until_close_some; split; [exact Hg' | now exists post']).
  congruence.
Qed.

(** [re.search] returns exactly the first bracketed group. *)
Lemma re_search_first (s pre g post : string) :
  first_group s pre g post -> re_search_bracket s = Some g.
Proof.
  intros H. destruct (re_search_exists _ _ _ _ (proj1 H)) as [g0 H0].
  destruct (re_search_sound _ _ H0) as (pre0 & post0 & Hf).
  now rewrite H0, (first_group_unique _ _ _ _ _ _ _ Hf H).
Qed.

(** ** [_extract_status] *)

Lemma is_group_brackets (text pre g post : string) :
  is_group text pre g post ->
  str_in "[" text = true /\ str_in "]" text = true.
Proof.
  intros (-> & _ & _). split; apply str_in_iff.
  - now exists pre, (g ++ String "]"%char post).
  - exists (pre ++ String "["%char g), post.
    rewrite append_assoc. reflexivity.
Qed.

Lemma special_label_group (label text : string) :
  label <> "" -> no_close label = true ->
  str_in (String "["%char (label ++ "]")) text = true ->
  exists pre post, is_group text pre label post.
Proof.
  intros Hne Hg H. apply str_in_iff in H. destruct H as (a & b & ->).
  exists a, b. repeat split; trivial.
  simpl. now rewrite append_assoc.
Qed.

Lemma extract_status_group (text pre g post : string) :
  no_special_label text -> first_group text pre g post ->
  _extract_status text = strip g.
Proof.
  unfold _extract_status. intros (-> & -> & ->) H.
  destruct (is_group_brackets _ _ _ _ (proj1 H)) as [-> ->]. simpl.
  now rewrite (re_search_first _ _ _ _ H).
Qed.

(** C3: [_extract_status] answers DISPOSED, CLOSED and PENDING for texts
    holding the label in brackets, in this order of priority; failing those
    it answers the stripped content of the first bracketed group when there
    is one; and it answers ACTIVE for a text that lacks an opening or a
    closing bracket. *)
Theorem extract_status_cases (text : string) :
  (str_in "[DISPOSED]" text = true -> _extract_status text = "DISPOSED")
  /\ (str_in "[DISPOSED]" text = false -> str_in "[CLOSED]" text = true ->
      _extract_status text = "CLOSED")
  /\ (str_in "[DISPOSED]" text = false -> str_in "[CLOSED]" text = false ->
      str_in "[PENDING]" text = true -> _extract_status text = "PENDING")
  /\ (no_special_label text ->
      forall pre g post, first_group text pre g post ->
                         _extract_status text = strip g)
  /\ (str_in "[" text = false \/ str_in "]" text = false ->
      _extract_status text = "ACTIVE").
Proof.
  unfold _extract_status. repeat split.
  - now intros ->.
  - now intros -> ->.
  - now intros -> -> ->.
  - intros N pre g post H. fold (_extract_status text).
    now apply extract_status_group with pre post.
  - intros H.
    assert (B : forall label,
               str_in (String "["%char (label ++ "]")) text = false).
    { intros label.
      destruct (str_in (String "["%char (label ++ "]")) text) eqn:E;
        trivial.
      assert (E1 := str_in_part "" "[" (label ++ "]") text E).
      assert (E2 := str_in_part (String "["%char label) "]" "" text).
      simpl in E2. specialize (E2 E).
      destruct H; congruence. }
    assert (B1 := B "DISPOSED"). assert (B2 := B "CLOSED").
    assert (B3 := B "PENDING"). simpl in B1, B2, B3.
    rewrite B1, B2, B3.
    destruct H as [-> | ->]; [reflexivity | now rewrite andb_false_r].
Qed.

(** Witness of C3 on one text per case. *)
Lemma extract_status_cases_witness :
  _extract_status "CRL.A. 7/2019 [DISPOSED]" = "DISPOSED"
  /\ _extract_status "[CLOSED] then [PENDING]" = "CLOSED"
  /\ _extract_status "[FOO] and [PENDING]" = "PENDING"
  /\ _extract_status "W.P.(C) 3 [ ADMITTED ] [x]" = "ADMITTED"
  /\ _extract_status "W.P.(C) 3 ] open" = "ACTIVE".
Proof.
  split; [|split; [|split; [|split]]].
  - apply (proj1 (extract_status_cases _)). reflexivity.
  - apply (proj1 (proj2 (extract_status_cases _))); reflexivity.
  - apply (proj1 (proj2 (proj2 (extract_status_cases _)))); reflexivity.
  - assert (N : no_special_label "W.P.(C) 3 [ ADMITTED ] [x]")
      by (repeat split).
    apply (proj1 (proj2 (proj2 (proj2 (extract_status_cases _)))) N
             "W.P.(C) 3 " " ADMITTED " " [x]").
    split.
    + repeat split. discriminate.
    + intros pre' g' post' (E & _ & _).
      do 10 (destruct pre' as [|? pre']; [discriminate E|]).
      simpl. lia.
  - apply (proj2 (proj2 (proj2 (proj2 (extract_status_cases _))))).
    left. reflexivity.
Defined.


(** C10 as stated does not hold: a bracketed group of white space alone
    is matched by the pattern and stripped to the empty string, so the
    status is empty. *)
Lemma extract_status_blank_group :
  _extract_status "[ ]" = ""
  /\ ~ (forall text : string, _extract_status text <> "").
Proof.
  split; [reflexivity|]. intros H. now apply (H "[ ]").
Qed.

(** C10, amended: [_extract_status] is a total function whose result is
    empty exactly when no special label occurs and the first bracketed
    group is white space only (every other input gets a non-empty status);
    and a text without any complete bracketed group gets ACTIVE. *)
Theorem extract_status_empty_iff (text : string) :
  (_extract_status text = "" <->
   no_special_label text
   /\ exists pre g post,
       first_group text pre g post /\ all_chars isspace g = true)
  /\ ((forall pre g post, ~ is_group text pre g post) ->
      _extract_status text = "ACTIVE").
Proof.
  split.
  - split.
    + unfold _extract_status, no_special_label.
      destruct (str_in "[DISPOSED]" text); [discriminate|].
      destruct (str_in "[CLOSED]" text); [discriminate|].
      destruct (str_in "[PENDING]" text); [discriminate|].
      destruct (str_in "[" text && str_in "]" text); [|discriminate].
      destruct (re_search_bracket text) as [g|] eqn:E; [|discriminate].
      intros Hs. split; [now repeat split|].
      destruct (re_search_sound _ _ E) as (pre & post & Hf).
      exists pre, g, post. split; [exact Hf | now apply strip_empty].
    + intros (N & pre & g & post & Hf & Hsp).
      rewrite (extract_status_group _ _ _ _ N Hf).
      now apply strip_empty.
  - intros Hno. unfold _extract_status.
    assert (B : forall label, label <> "" -> no_close label = true ->
                str_in (String "["%char (label ++ "]")) text = false).
    { intros label Hne Hg.
      destruct (str_in (String "["%char (label ++ "]")) text) eqn:E;
        trivial.
      destruct (special_label_group _ _ Hne Hg E) as (pre & post & H).
      now apply Hno in H. }
    assert (B1 := B "DISPOSED"). assert (B2 := B "CLOSED").
    assert (B3 := B "PENDING"). simpl in B1, B2, B3.
    rewrite B1, B2, B3 by (discriminate || reflexivity).
    destruct (re_search_bracket text) as [g|] eqn:E.
    + destruct (re_search_sound _ _ E) as (pre & post & H & _).
      now apply Hno in H.
    + now destruct (str_in "[" text && str_in "]" text).
Qed.

(** Witness of the amended C10: the blank group gives the empty status,
    and brackets in the wrong order give ACTIVE. *)
Lemma extract_status_empty_iff_witness :
  _extract_status "12/2020 [  ] x" = ""
  /\ _extract_status "] 12/2020 [" = "ACTIVE".
Proof.
  split.
  - apply (proj2 (proj1 (extract_status_empty_iff "12/2020 [  ] x"))).
    split; [repeat split|].
    exists "12/2020 ", "  ", " x". split; [|reflexivity].
    split.
    + repeat split. discriminate.
    + intros pre' g' post' (E & _ & _).
      do 8 (destruct pre' as [|? pre']; [discriminate E|]).
      simpl. lia.
  - apply (proj2 (extract_status_empty_iff "] 12/2020 [")).
    intros pre g post (E & Hne & _).
    do 10 (destruct pre as [|? pre]; [discriminate E|]).
    destruct pre as [|? pre]; simpl in E.
    + injection E as E. destruct g; [contradiction | discriminate].
    + injection E as E. destruct pre; discriminate.
Defined.

(** ** [split] *)

Lemma split_from_skip (sep u cur s : string) :
  split_from sep (String.length u) cur (u ++ s) = split_from sep 0 cur s.
Proof. induction u as [|c u IH]; simpl; [reflexivity | exact IH]. Qed.

Lemma split_from_absent (sep cur s : string) :
  str_in sep s = false -> split_from sep 0 cur s = [cur ++ s].
Proof.
  revert cur; induction s as [|c s IH]; intros cur; simpl.
  - now rewrite append_nil_r.
  - destruct (startswith sep (String c s)); [discriminate|].
    intros H. rewrite (IH _ H), append_assoc. reflexivity.
Qed.

Lemma split_from_scan (sep t rest cur : string) :
  no_start sep t rest = true ->
  split_from sep 0 cur (t ++ rest) = split_from sep 0 (cur ++ t) rest.
Proof.
  revert cur; induction t as [|c t IH]; intros cur; simpl.
  - now rewrite append_nil_r.
  - destruct (startswith sep (String c (t ++ rest))); [discriminate|].
    simpl. intros H. rewrite (IH _ H), append_assoc. reflexivity.
Qed.

(** The text up to the first occurrence of the separator is the first
    piece, and splitting resumes after the separator. *)
Lemma split_at (sep t tail : string) :
  sep <> "" -> no_start sep t (sep ++ tail) = true ->
  split sep (t ++ sep ++ tail) = t :: split sep tail.
Proof.
  intros Hne H. unfold split. rewrite (split_from_scan _ _ _ _ H).
  destruct sep as [|a sep]; [contradiction|].
  assert (S : startswith (String a sep) (String a (sep ++ tail)) = true)
    by apply (startswith_append (String a sep) tail).
  change (split_from (String a sep) 0 ("" ++ t) (String a sep ++ tail))
    with (if startswith (String a sep) (String a (sep ++ tail))
          then t :: split_from (String a sep)
                      (String.length (String a sep) - 1) "" (sep ++ tail)
          else split_from (String a sep) 0 (t ++ String a "") (sep ++ tail)).
  rewrite S. cbn [String.length]. rewrite Nat.sub_succ, Nat.sub_0_r.
  now rewrite split_from_skip.
Qed.

Lemma split_first_at (sep t tail : string) :
  sep <> "" -> no_start sep t (sep ++ tail) = true ->
  split_first sep (t ++ sep ++ tail) = t.
Proof.
  intros Hne H. unfold split_first. now rewrite split_at.
Qed.

Lemma split_last_at (sep t tail : string) :
  sep <> "" -> no_start sep t (sep ++ tail) = true ->
  str_in sep tail = false ->
  split_last sep (t ++ sep ++ tail) = tail.
Proof.
  intros Hne H Habs. unfold split_last. rewrite split_at by assumption.
  unfold split. now rewrite (split_from_absent _ _ _ Habs).
Qed.

Lemma split_absent (sep s : string) :
  str_in sep s = false -> split sep s = [s].
Proof. intros H. unfold split. now rewrite split_from_absent. Qed.

Lemma str_in_append_false (sep t rest : string) :
  no_start sep t rest = true -> str_in sep rest = false ->
  str_in sep (t ++ rest) = false.
Proof.
  intros H Hr. induction t as [|c t IH]; simpl in *; [exact Hr|].
  apply andb_true_iff in H as [H1 H2].
  destruct (startswith sep (String c (t ++ rest))); [discriminate|].
  now apply IH.
Qed.

Lemma no_start_append (sep t1 t2 rest : string) :
  no_start sep t1 (t2 ++ rest) = true -> no_start sep t2 rest = true ->
  no_start sep (t1 ++ t2) rest = true.
Proof.
  intros H1 H2. induction t1 as [|c t1 IH]; simpl in *; [exact H2|].
  apply andb_true_iff in H1 as [Ha Hb].
  rewrite append_assoc, Ha. simpl. now apply IH.
Qed.

(** ** Texts cut by colons *)

Lemma no_colon_append (a b : string) :
  no_colon (a ++ b) = no_colon a && no_colon b.
Proof.
  unfold no_colon. induction a as [|c a IH]; simpl; [reflexivity|].
  now rewrite IH, andb_assoc.
Qed.

Lemma colon_cut_unique (u v r r' : string) :
  no_colon u = true -> no_colon v = true ->
  u ++ String ":"%char r = v ++ String ":"%char r' -> u = v.
Proof.
  unfold no_colon. revert v; induction u as [|x u IH]; intros [|y v];
    simpl; intros Hu Hv E; trivial.
  - injection E as <- _. discriminate.
  - injection E as -> _. discriminate.
  - injection E as -> E.
    apply andb_true_iff in Hu as [_ Hu].
    apply andb_true_iff in Hv as [_ Hv].
    now rewrite (IH _ Hu Hv E).
Qed.

Lemma longer_suffix_false (M m t : string) :
  longer_suffix M m = false -> t <> "" -> m <> t ++ M.
Proof.
  revert t; induction m as [|c m IH]; intros t H Ht E.
  - destruct t; [contradiction | discriminate].
  - simpl in H. apply orb_false_iff in H as [H1 H2].
    destruct t as [|x t]; [contradiction|]. simpl in E.
    injection E as -> E. destruct t as [|y t].
    + simpl in E. subst. now rewrite String.eqb_refl in H1.
    + apply (IH (String y t)); [exact H2 | discriminate | exact E].
Qed.

(** A marker [m ++ ":"] does not start inside a colon-free stretch that is
    followed by the marker [M ++ ":"], unless [m] ends with a longer
    version of [M]. *)
Lemma no_start_free (m t M r : string) :
  no_colon m = true -> no_colon t = true -> no_colon M = true ->
  longer_suffix M m = false ->
  no_start (m ++ ":") t (M ++ String ":"%char r) = true.
Proof.
  intros Hm Ht HM Hs. induction t as [|c t IH]; [reflexivity|].
  cbn [no_start]. rewrite IH.
  2:{ unfold no_colon in *. simpl in Ht.
      now apply andb_true_iff in Ht as [_ Ht]. }
  rewrite andb_true_r.
  destruct (startswith (m ++ ":") (String c t ++ M ++ String ":"%char r))
    eqn:E; [|reflexivity].
  apply startswith_iff in E. destruct E as [r' E].
  assert (E' : m ++ String ":"%char r' = (String c t ++ M) ++ String ":"%char r).
  { rewrite (append_assoc (String c t) M), E, append_assoc. reflexivity. }
  apply colon_cut_unique in E'; trivial.
  - now apply longer_suffix_false in E'.
  - now rewrite no_colon_append, Ht, HM.
Qed.

(** A marker ending in a colon does not occur in a colon-free text. *)
Lemma str_in_free (m t : string) :
  no_colon t = true -> str_in (m ++ ":") t = false.
Proof.
  intros Ht. destruct (str_in (m ++ ":") t) eqn:E; [|reflexivity].
  apply str_in_iff in E. destruct E as (a & b & ->).
  rewrite !no_colon_append in Ht.
  apply andb_true_iff in Ht as [_ Ht].
  apply andb_true_iff in Ht as [Ht _].
  apply andb_true_iff in Ht as [_ Ht]. discriminate.
Qed.

(** ** [_extract_court_details] *)

(** [no_start] goals over a colon-free stretch before the marker [M]. *)
Ltac free_stretch m M :=
  rewrite ?append_assoc;
  match goal with
  | |- no_start _ ?t (_ ++ ?r) = true =>
      apply (no_start_free m t M r); (assumption || reflexivity)
  end.

(** The text after the next-date marker holds no upper-case next-date
    marker. *)
Lemma tail_without_marker (m a b c : string) :
  no_colon a = true -> no_colon b = true -> no_colon c = true ->
  longer_suffix "Last Date" m = false ->
  longer_suffix "COURT NO" m = false ->
  no_colon m = true ->
  no_start (m ++ ":") "Last Date:" (b ++ "COURT NO:" ++ c) = true ->
  no_start (m ++ ":") "COURT NO:" c = true ->
  str_in (m ++ ":") (a ++ "Last Date:" ++ b ++ "COURT NO:" ++ c) = false.
Proof.
  intros Ha Hb Hc H1 H2 Hm N1 N2.
  apply str_in_append_false.
  { apply (no_start_free m a "Last Date" (b ++ "COURT NO:" ++ c));
      assumption || reflexivity. }
  apply str_in_append_false; [exact N1|].
  apply str_in_append_false.
  { apply (no_start_free m b "COURT NO" c); assumption || reflexivity. }
  apply str_in_append_false; [exact N2|].
  now apply str_in_free.
Qed.

Lemma court_details_shape (nd pre a b c : string) :
  nd = "NEXT DATE:" \/ nd = "Next Date:" ->
  no_colon pre = true -> no_colon a = true ->
  no_colon b = true -> no_colon c = true ->
  _extract_court_details
    (pre ++ nd ++ a ++ "Last Date:" ++ b ++ "COURT NO:" ++ c)
  = (strip a, strip b, strip c).
Proof.
  intros Hnd Hp Ha Hb Hc.
  set (T2 := b ++ "COURT NO:" ++ c).
  set (T1 := a ++ "Last Date:" ++ T2).
  assert (A1 : split_first "Last Date:" T1 = a).
  { apply split_first_at; [discriminate|]. free_stretch "Last Date" "Last Date". }
  assert (A2 : split_first "COURT NO:" T2 = b).
  { apply split_first_at; [discriminate|]. free_stretch "COURT NO" "COURT NO". }
  assert (L1 : str_in "Last Date:" T2 = false).
  { unfold T2. apply str_in_append_false; [free_stretch "Last Date" "COURT NO"|].
    apply str_in_append_false; [reflexivity|].
    now apply (str_in_free "Last Date"). }
  assert (C1 : str_in "COURT NO:" c = false)
    by now apply (str_in_free "COURT NO").
  assert (E2 : forall nd0, pre ++ nd0 ++ T1 = (pre ++ nd0 ++ a) ++ "Last Date:" ++ T2).
  { intros nd0. unfold T1. now rewrite !append_assoc. }
  assert (E3 : forall nd0, pre ++ nd0 ++ T1
                           = (pre ++ nd0 ++ a ++ "Last Date:" ++ b)
                               ++ "COURT NO:" ++ c).
  { intros nd0. unfold T1, T2. now rewrite !append_assoc. }
  unfold _extract_court_details. fold T2. fold T1.
  destruct Hnd as [-> | ->].
  - assert (N : str_in "NEXT DATE:" (pre ++ "NEXT DATE:" ++ T1) = true)
      by apply str_in_intro.
    assert (S1 : split_last "NEXT DATE:" (pre ++ "NEXT DATE:" ++ T1) = T1).
    { apply split_last_at; [discriminate | free_stretch "NEXT DATE" "NEXT DATE" |].
      apply (tail_without_marker "NEXT DATE"); trivial. }
    assert (L : str_in "Last Date:" (pre ++ "NEXT DATE:" ++ T1) = true).
    { rewrite E2. apply str_in_intro. }
    assert (S2 : split_last "Last Date:" (pre ++ "NEXT DATE:" ++ T1) = T2).
    { rewrite E2. apply split_last_at; [discriminate | | exact L1].
      apply no_start_append; [free_stretch "Last Date" "NEXT DATE"|].
      apply no_start_append; [reflexivity|].
      free_stretch "Last Date" "Last Date". }
    assert (C : str_in "COURT NO:" (pre ++ "NEXT DATE:" ++ T1) = true).
    { rewrite E3. apply str_in_intro. }
    assert (S3 : split_last "COURT NO:" (pre ++ "NEXT DATE:" ++ T1) = c).
    { rewrite E3. apply split_last_at; [discriminate | | exact C1].
      apply no_start_append; [free_stretch "COURT NO" "NEXT DATE"|].
      apply no_start_append; [reflexivity|].
      apply no_start_append; [free_stretch "COURT NO" "Last Date"|].
      apply no_start_append; [reflexivity|].
      free_stretch "COURT NO" "COURT NO". }
    now rewrite N, S1, A1, L, S2, A2, C, S3.
  - assert (N0 : str_in "NEXT DATE:" (pre ++ "Next Date:" ++ T1) = false).
    { apply str_in_append_false; [free_stretch "NEXT DATE" "Next Date"|].
      apply str_in_append_false; [reflexivity|].
      apply (tail_without_marker "NEXT DATE"); trivial. }
    assert (N : str_in "Next Date:" (pre ++ "Next Date:" ++ T1) = true)
      by apply str_in_intro.
    assert (S1 : split_last "Next Date:" (pre ++ "Next Date:" ++ T1) = T1).
    { apply split_last_at; [discriminate | free_stretch "Next Date" "Next Date" |].
      apply (tail_without_marker "Next Date"); trivial. }
    assert (L : str_in "Last Date:" (pre ++ "Next Date:" ++ T1) = true).
    { rewrite E2. apply str_in_intro. }
    assert (S2 : split_last "Last Date:" (pre ++ "Next Date:" ++ T1) = T2).
    { rewrite E2. apply split_last_at; [discriminate | | exact L1].
      apply no_start_append; [free_stretch "Last Date" "Next Date"|].
      apply no_start_append; [reflexivity|].
      free_stretch "Last Date" "Last Date". }
    assert (C : str_in "COURT NO:" (pre ++ "Next Date:" ++ T1) = true).
    { rewrite E3. apply str_in_intro. }
    assert (S3 : split_last "COURT NO:" (pre ++ "Next Date:" ++ T1) = c).
    { rewrite E3. apply split_last_at; [discriminate | | exact C1].
      apply no_start_append; [free_stretch "COURT NO" "Next Date"|].
      apply no_start_append; [reflexivity|].
      apply no_start_append; [free_stretch "COURT NO" "Last Date"|].
      apply no_start_append; [reflexivity|].
      free_stretch "COURT NO" "COURT NO". }
    now rewrite N0, N, S1, A1, L, S2, A2, C, S3.
Qed.

(** C4 as stated does not hold: the markers are matched in two fixed
    spellings each, not case-insensitively, so lower-case labels are not
    markers; and on the all-upper-case text the next date runs on to the
    end of the text instead of stopping at the following marker. *)
Lemma court_details_case_sensitive :
  _extract_court_details
    "next date: 12.05.2024last date: 01.03.2024court no: 5"
  = ("Not Scheduled", "Not Available", "Not Assigned")
  /\ _extract_court_details
       "NEXT DATE: 12.05.2024LAST DATE: 01.03.2024COURT NO: 5"
     = ("12.05.2024LAST DATE: 01.03.2024COURT NO: 5", "01.03.2024", "5").
Proof. split; reflexivity. Qed.

(** C4, amended: each field whose marker occurs in neither of its two
    spellings ("NEXT DATE:" / "Next Date:", "Last Date:" / "LAST DATE:",
    "COURT NO:" / "Court No:") gets its placeholder, without any error; and
    on a text made of the next-date marker in either spelling, "Last Date:"
    and "COURT NO:" in this order, with colon-free stretches before, between
    and after them, the three fields are the stripped stretches that follow
    their markers. *)
Theorem extract_court_details_fields (court_text : string) :
  (str_in "NEXT DATE:" court_text = false ->
   str_in "Next Date:" court_text = false ->
   fst (fst (_extract_court_details court_text)) = "Not Scheduled")
  /\ (str_in "Last Date:" court_text = false ->
      str_in "LAST DATE:" court_text = false ->
      snd (fst (_extract_court_details court_text)) = "Not Available")
  /\ (str_in "COURT NO:" court_text = false ->
      str_in "Court No:" court_text = false ->
      snd (_extract_court_details court_text) = "Not Assigned")
  /\ (forall nd pre a b c,
        nd = "NEXT DATE:" \/ nd = "Next Date:" ->
        no_colon pre = true -> no_colon a = true ->
        no_colon b = true -> no_colon c = true ->
        court_text = pre ++ nd ++ a ++ "Last Date:" ++ b ++ "COURT NO:" ++ c ->
        _extract_court_details court_text = (strip a, strip b, strip c)).
Proof.
  repeat split.
  - unfold _extract_court_details. now intros -> ->.
  - unfold _extract_court_details. now intros -> ->.
  - unfold _extract_court_details. now intros -> ->.
  - intros nd pre a b c Hnd Hp Ha Hb Hc ->. now apply court_details_shape.
Qed.

(** Witness of the amended C4: the documented example and a text without
    markers. *)
Lemma extract_court_details_fields_witness :
  _extract_court_details
    "NEXT DATE: 12.05.2024Last Date: 01.03.2024COURT NO: 5"
  = ("12.05.2024", "01.03.2024", "5")
  /\ fst (fst (_extract_court_details "Court 5 on 12.05.2024"))
     = "Not Scheduled"
  /\ snd (fst (_extract_court_details "Court 5 on 12.05.2024"))
     = "Not Available"
  /\ snd (_extract_court_details "Court 5 on 12.05.2024") = "Not Assigned".
Proof.
  split; [|split; [|split]].
  - apply (proj2 (proj2 (proj2 (extract_court_details_fields _)))
             "NEXT DATE:" "" " 12.05.2024" " 01.03.2024" " 5");
      solve [reflexivity | now left].
  - apply (proj1 (extract_court_details_fields _)); reflexivity.
  - apply (proj1 (proj2 (extract_court_details_fields _))); reflexivity.
  - apply (proj1 (proj2 (proj2 (extract_court_details_fields _))));
      reflexivity.
Defined.

(** ** Links *)

Lemma orders_link_loop_none (urljoin : string -> string -> outcome string)
    (base_url : string) (links : list (string * string)) :
  first_keyword_href links = None ->
  orders_link_loop urljoin base_url links = Returned None.
Proof.
  unfold first_keyword_href.
  induction links as [|[href text] links IH]; simpl; [reflexivity|].
  destruct (has_keyword href); [discriminate | exact IH].
Qed.

Lemma orders_link_loop_some (urljoin : string -> string -> outcome string)
    (base_url : string) (links : list (string * string)) (href : string) :
  first_keyword_href links = Some href ->
  has_keyword href = true
  /\ orders_link_loop urljoin base_url links
     = if startswith "http" href then Returned (Some href)
       else match urljoin base_url href with
            | Returned u => Returned (Some u)
            | Raised e => Raised e
            end.
Proof.
  unfold first_keyword_href.
  induction links as [|[h text] links IH]; simpl; [discriminate|].
  destruct (has_keyword h) eqn:E; [|exact IH].
  intros [= ->]. now split.
Qed.

(** C8 as stated does not hold for the document link of an order row: an
    empty [href] is taken, does not start with "http", and is kept as it is
    instead of being joined to the base URL (joining would give the base
    URL itself). *)
Lemma empty_href_not_joined :
  option_map pdf_link
    (_parse_order_row urljoin_sample BASE_URL
       [ {| c_text := "1"; c_links := [] |};
         {| c_text := "Order";
            c_links := [ {| a_href := Some ""; a_text := "Order" |} ] |};
         {| c_text := "01.03.2024"; c_links := [] |} ] 0)
  = Some (Some "")
  /\ joined (urljoin_sample BASE_URL "") = Some BASE_URL.
Proof. split; reflexivity. Qed.

(** C8, amended: in the case-info cell the link comes from the first
    anchor whose [href] holds one of the keywords order, status, detail
    after lower-casing, and there is no link without such an anchor; in an
    order row it comes from the first anchor with an [href].  In both, an
    [href] that starts with "http" is the link unchanged; any other [href]
    of the case-info cell, and any other non-empty [href] of the order row,
    is joined to the base URL, the link (or the row) being dropped when the
    join raises. *)
Theorem link_selection_and_resolution
    (urljoin : string -> string -> outcome string) (base_url : string) :
  (forall cell,
      first_keyword_href (hrefs (c_links cell)) = None ->
      _extract_orders_link urljoin base_url (Some cell) = None)
  /\ (forall cell href,
        first_keyword_href (hrefs (c_links cell)) = Some href ->
        has_keyword href = true
        /\ (startswith "http" href = true ->
            _extract_orders_link urljoin base_url (Some cell) = Some href)
        /\ (startswith "http" href = false ->
            _extract_orders_link urljoin base_url (Some cell)
            = joined (urljoin base_url href)))
  /\ (forall cells index cell href text rest,
        nth_error cells 1 = Some cell ->
        hrefs (c_links cell) = (href, text) :: rest ->
        (startswith "http" href = true ->
         option_map pdf_link (_parse_order_row urljoin base_url cells index)
         = Some (Some href))
        /\ (startswith "http" href = false -> href <> "" ->
            option_map pdf_link
              (_parse_order_row urljoin base_url cells index)
            = option_map Some (joined (urljoin base_url href)))).
Proof.
  split; [|split].
  - intros cell H. unfold _extract_orders_link.
    now rewrite (orders_link_loop_none _ _ _ H).
  - intros cell href H. unfold _extract_orders_link.
    destruct (orders_link_loop_some urljoin base_url _ _ H) as [K ->].
    split; [exact K|]. split; intros ->; [reflexivity|].
    now destruct (urljoin base_url href).
  - intros cells index cell href text rest Hc Hl.
    assert (L : (1 <? List.length cells)%nat = true).
    { apply Nat.ltb_lt. apply nth_error_Some. congruence. }
    unfold _parse_order_row, parse_order_row_body.
    rewrite L, Hc, Hl. split.
    + intros ->. rewrite andb_false_r. reflexivity.
    + intros -> Hne. apply String.eqb_neq in Hne. rewrite Hne. simpl.
      now destruct (urljoin base_url href).
Qed.

(** Witness of the amended C8 with the stand-in join: an absolute and a
    relative orders link of a case-info cell, and a relative document link
    of an order row. *)
Lemma link_selection_and_resolution_witness :
  _extract_orders_link urljoin_sample BASE_URL
    (Some {| c_text := "W.P.(C) 12/2020";
             c_links :=
               [ {| a_href := Some "/app/help"; a_text := "Help" |};
                 {| a_href := Some "https://x.example/Case-Status?id=3";
                    a_text := "Orders" |} ] |})
  = Some "https://x.example/Case-Status?id=3"
  /\ _extract_orders_link urljoin_sample BASE_URL
       (Some {| c_text := "W.P.(C) 12/2020";
                c_links :=
                  [ {| a_href := None; a_text := "anchor" |};
                    {| a_href := Some "app/case-Details/12";
                       a_text := "Orders" |} ] |})
     = Some "https://delhihighcourt.nic.in/app/case-Details/12"
  /\ option_map pdf_link
       (_parse_order_row urljoin_sample BASE_URL
          [ {| c_text := "1"; c_links := [] |};
            {| c_text := "Order";
               c_links := [ {| a_href := Some "/files/o1.pdf";
                               a_text := "Order" |} ] |} ] 0)
     = Some (Some "https://delhihighcourt.nic.in/files/o1.pdf").
Proof.
  split; [|split].
  - refine (proj1 (proj2 (proj1 (proj2
              (link_selection_and_resolution urljoin_sample BASE_URL))
              _ "https://x.example/Case-Status?id=3" _)) _); reflexivity.
  - refine (proj2 (proj2 (proj1 (proj2
              (link_selection_and_resolution urljoin_sample BASE_URL))
              _ "app/case-Details/12" _)) _); reflexivity.
  - refine (proj2 (proj2 (proj2
              (link_selection_and_resolution urljoin_sample BASE_URL))
              _ 0 _ "/files/o1.pdf" "Order" [] _ _) _ _);
      solve [reflexivity | discriminate].
Defined.

(** ** Events of the monad's combinators *)

Section Emission.

Context {A B : Type}.
Variable p : Event -> bool.

Lemma silent_ret (a : A) : silent p (ret a).
Proof. intros st. reflexivity. Qed.

Lemma silent_raise (e : string) : silent p (@raise A e).
Proof. intros st. reflexivity. Qed.

Lemma silent_of_outcome (o : outcome A) : silent p (of_outcome o).
Proof. intros st. reflexivity. Qed.

Lemma silent_emit (e : Event) : p e = false -> silent p (emit e).
Proof. intros H st. simpl. now rewrite H. Qed.

Lemma emits_bind (m : M A) (k : A -> M B) (f : outcome B -> list Event) :
  silent p m -> (forall a, emits p (k a) f) ->
  (forall e, f (Raised e) = []) -> emits p (bind m k) f.
Proof.
  intros Hm Hk Hf st. unfold bind. specialize (Hm st).
  destruct (m st) as [[a|e] st1]; simpl in *.
  - now rewrite Hk, Hm.
  - now rewrite Hf.
Qed.

Lemma silent_bind (m : M A) (k : A -> M B) :
  silent p m -> (forall a, silent p (k a)) -> silent p (bind m k).
Proof. intros Hm Hk. now apply emits_bind. Qed.

Lemma silent_try_except (body : M A) (handler : string -> M A) :
  silent p body -> (forall e, silent p (handler e)) ->
  silent p (try_except body handler).
Proof.
  intros Hb Hh st. unfold try_except. specialize (Hb st).
  destruct (body st) as [[a|e] st1]; simpl in *; [exact Hb|].
  now rewrite Hh.
Qed.

Lemma silent_guard (b : State -> bool) (m1 m2 : M A) :
  silent p m1 -> silent p m2 ->
  silent p (fun st => if b st then m1 st else m2 st).
Proof. intros H1 H2 st. simpl. destruct (b st); [apply H1 | apply H2]. Qed.

(** A [finally] block that returns adds its events after those of the
    body and leaves the result of the body. *)
Lemma emits_try_finally (body : M A) (fin : M unit)
    (f : outcome A -> list Event) (l : list Event) :
  emits p body f -> emits p fin (fun _ => l) -> returns fin ->
  emits p (try_finally body fin) (fun r => (l ++ f r)%list)
  /\ forall st, fst (try_finally body fin st) = fst (body st).
Proof.
  intros Hb Hf Hr. split; intros st; unfold try_finally;
    specialize (Hb st); destruct (body st) as [r st1]; simpl in *;
    specialize (Hf st1); destruct (Hr st1) as [u Hu];
    destruct (fin st1) as [[v|e] st2]; simpl in *; try discriminate.
  - now rewrite Hf, Hb, app_assoc.
  - reflexivity.
Qed.

End Emission.

Lemma silent_set_references (p : Event -> bool) (b : bool) :
  silent p (set_references b).
Proof. intros st. reflexivity. Qed.

Lemma silent_get_driver (p : Event -> bool) : silent p get_driver.
Proof. intros st. reflexivity. Qed.

Lemma silent_save (p : Event -> bool) (W : World) (d : SearchData)
    (ok : bool) (e : option string) :
  p (ESaveSearchRecord d ok e) = false ->
  silent p (save_search_record W d ok e).
Proof. intros H st. simpl. now rewrite H. Qed.

Lemma silent_report (p : Event -> bool) (cb : option Callback)
    (label : string) (pct : Z) :
  p (EProgress label pct) = false -> silent p (report cb label pct).
Proof.
  intros H. destruct cb as [f|]; simpl; [|apply silent_ret].
  apply silent_bind; [now apply silent_emit|]. intros _.
  apply silent_bind; [apply silent_of_outcome | intros; apply silent_ret].
Qed.

Lemma silent_form_call {A} (p : Event -> bool) (name : string)
    (e : Event) (o : outcome A) :
  p e = false -> silent p (form_call name e o).
Proof.
  intros H. unfold form_call. apply silent_guard.
  - apply silent_bind; [now apply silent_emit|].
    intros _. apply silent_of_outcome.
  - apply silent_raise.
Qed.

(** Discharge [silent] goals along the structure of a method. *)
Ltac silence :=
  repeat first
    [ apply silent_ret | apply silent_raise | apply silent_of_outcome
    | apply silent_set_references | apply silent_get_driver
    | apply silent_emit; reflexivity
    | apply silent_save; reflexivity
    | apply silent_report; reflexivity
    | apply silent_form_call; reflexivity
    | apply silent_try_except
    | apply silent_guard
    | apply silent_bind
    | match goal with
      | |- forall _, _ => intro
      | |- silent _ (if ?b then _ else _) => destruct b
      | |- silent _ (match ?x with _ => _ end) => destruct x
      end ].

Section Pipeline.

Variable urljoin : string -> string -> outcome string.
Variable W : World.

Lemma silent_setup_browser (p : Event -> bool) :
  p ECreateDriver = false -> silent p (_setup_browser W).
Proof.
  intros H. unfold _setup_browser. apply silent_try_except; [|silence].
  apply silent_bind; [now apply silent_emit | silence].
Qed.

Lemma silent_driver_get (p : Event -> bool) (url : string) :
  p (EGet url) = false -> silent p (driver_get W url).
Proof.
  intros H. unfold driver_get. apply silent_guard; [|silence].
  apply silent_bind; [now apply silent_emit | silence].
Qed.

Lemma silent_fill_search_form (p : Event -> bool) (ct cn : string) (fy : Z) :
  p (EFillCaseType ct) = false -> p (EFillCaseNumber cn) = false ->
  p (EFillFilingYear fy) = false ->
  silent p (_fill_search_form W ct cn fy).
Proof.
  intros H1 H2 H3.
  unfold _fill_search_form, fill_case_type, fill_case_number,
    fill_filing_year.
  apply silent_try_except; [|silence].
  apply silent_bind; [now apply silent_form_call|]. intros [|]; [|silence].
  apply silent_bind; [now apply silent_form_call|]. intros [|]; [|silence].
  apply silent_bind; [now apply silent_form_call|]. intros [|]; silence.
Qed.

Lemma silent_extract_case_data (p : Event -> bool) (ct cn : string) (fy : Z) :
  p EExtractCaseData = false -> silent p (extract_case_data urljoin W ct cn fy).
Proof.
  intros H. unfold extract_case_data. apply silent_guard; [|silence].
  apply silent_bind; [now apply silent_emit | silence].
Qed.

Lemma silent_extract_orders_data (p : Event -> bool) (url : string) :
  p (EExtractOrdersData url) = false ->
  silent p (extract_orders_data urljoin W url).
Proof.
  intros H. unfold extract_orders_data. apply silent_guard; [|silence].
  apply silent_bind; [now apply silent_emit | silence].
Qed.

Lemma stage_free_save : stage_free is_save.
Proof. repeat split. Qed.

Lemma stage_free_cleanup : stage_free is_cleanup.
Proof. repeat split. Qed.

Lemma stage_free_quit : stage_free is_quit.
Proof. repeat split. Qed.

(** What the [try] block adds: one success record when it returns a case
    record, nothing of kind [p] otherwise. *)
Lemma attempt_emits (p : Event -> bool) (ct cn : string) (fy : Z)
    (cb : option Callback) :
  stage_free p ->
  emits p (search_attempt urljoin W ct cn fy cb)
    (fun r => match r with
              | Returned (Some cd) =>
                  filter p [ESaveSearchRecord (FoundData cd) true None]
              | _ => []
              end).
Proof.
  intros (Hp & Hc & Hg & Hw & H1 & H2 & H3 & Hs & Hb & He & Ho).
  unfold search_attempt, wait_for_page_load, solve_captcha, submit_form.
  apply emits_bind; [now apply silent_report | intros _ | reflexivity].
  apply emits_bind; [now apply silent_setup_browser | intros _ | reflexivity].
  apply emits_bind; [now apply silent_report | intros _ | reflexivity].
  apply emits_bind; [now apply silent_driver_get | intros _ | reflexivity].
  apply emits_bind; [now apply silent_form_call | intros _ | reflexivity].
  apply emits_bind; [now apply silent_report | intros _ | reflexivity].
  apply emits_bind;
    [now apply silent_fill_search_form | intros [|] | reflexivity];
    [|apply silent_raise].
  apply emits_bind; [now apply silent_report | intros _ | reflexivity].
  apply emits_bind; [now apply silent_form_call | intros [|] | reflexivity];
    [|apply silent_raise].
  apply emits_bind; [now apply silent_report | intros _ | reflexivity].
  apply emits_bind; [now apply silent_form_call | intros [|] | reflexivity];
    [|apply silent_raise].
  apply emits_bind; [now apply silent_report | intros _ | reflexivity].
  apply emits_bind;
    [now apply silent_extract_case_data | intros [cd|] | reflexivity];
    [|apply silent_ret].
  apply emits_bind; [| intros cd1 | reflexivity].
  { destruct (truthy_link (orders_link cd)); [|apply silent_ret].
    apply silent_bind; [now apply silent_report | intros _].
    apply silent_bind; [now apply silent_extract_orders_data | silence]. }
  apply emits_bind; [now apply silent_report | intros _ | reflexivity].
  intros st. simpl.
  destruct (p (ESaveSearchRecord (FoundData cd1) true None)); reflexivity.
Qed.

Lemma failed_run (ct cn : string) (fy : Z) (e : string) (st : State) :
  search_failed W ct cn fy e st
  = (Raised (error_text e),
     snd (save_search_record W (failed_data ct cn fy) false
            (Some (error_text e)) st)).
Proof. reflexivity. Qed.

Lemma attempt_or_failed_emits (p : Event -> bool) (ct cn : string) (fy : Z)
    (cb : option Callback) :
  stage_free p ->
  emits p
    (try_except (search_attempt urljoin W ct cn fy cb)
       (search_failed W ct cn fy))
    (attempt_events p ct cn fy).
Proof.
  intros Hp st. unfold try_except.
  assert (Ha := attempt_emits p ct cn fy cb Hp st).
  destruct (search_attempt urljoin W ct cn fy cb st) as [[[cd|]|e] st1];
    simpl in Ha; simpl; trivial.
  rewrite Ha.
  destruct (p (ESaveSearchRecord (failed_data ct cn fy) false
                 (Some (error_text e)))); reflexivity.
Qed.

Lemma cleanup_run (st : State) :
  exists evs,
    (evs = [ECleanup] \/ evs = [EQuit; ECleanup])
    /\ _cleanup W st
       = (Returned tt,
          {| driver := false;
             form_handler := if driver st then false else form_handler st;
             data_extractor :=
               if driver st then false else data_extractor st;
             trace := evs ++ trace st; db := db st |}).
Proof.
  unfold _cleanup, bind, emit, get_driver; simpl.
  destruct st as [[|] fh de tr rows]; simpl.
  - exists [EQuit; ECleanup]. split; [now right|].
    unfold try_finally, try_except, bind, of_outcome, emit; simpl.
    destruct (env_quit W) as [[]|]; reflexivity.
  - exists [ECleanup]. split; [now left | reflexivity].
Qed.

Lemma cleanup_returns : returns (_cleanup W).
Proof.
  intros st. destruct (cleanup_run st) as (evs & _ & ->). now exists tt.
Qed.

Lemma cleanup_emits (p : Event -> bool) :
  p EQuit = false ->
  emits p (_cleanup W) (fun _ => filter p [ECleanup]).
Proof.
  intros Hq st. destruct (cleanup_run st) as (evs & [-> | ->] & ->); simpl.
  - now destruct (p ECleanup).
  - rewrite Hq. now destruct (p ECleanup).
Qed.

(** What an invocation adds of a kind [p] that is neither a stage step
    nor the quitting of the driver, and what it returns. *)
Lemma search_emits (p : Event -> bool) (ct cn : string) (fy : Z)
    (cb : option Callback) :
  stage_free p -> p EQuit = false ->
  emits p (search_case_details urljoin W ct cn fy cb)
    (fun r => (filter p [ECleanup] ++ attempt_events p ct cn fy r)%list).
Proof.
  intros Hp Hq. unfold search_case_details.
  apply emits_try_finally.
  - now apply attempt_or_failed_emits.
  - now apply cleanup_emits.
  - apply cleanup_returns.
Qed.

End Pipeline.


(** ** Persistence and cleanup of [search_case_details] *)

(** The calls of [save_search_record] of one invocation, by its result:
    one success record for a returned case record, one failure record
    carrying the message for a raised error, and none when [None] is
    returned. *)
Lemma persistence_calls (urljoin : string -> string -> outcome string)
    (W : World) (ct cn : string) (fy : Z) (cb : option Callback)
    (st : State) :
  let run := search_case_details urljoin W ct cn fy cb st in
  filter is_save (trace (snd run))
  = (match fst run with
     | Returned (Some cd) => [ESaveSearchRecord (FoundData cd) true None]
     | Returned None => []
     | Raised msg =>
         [ESaveSearchRecord (failed_data ct cn fy) false (Some msg)]
     end ++ filter is_save (trace st))%list.
Proof.
  intros run. unfold run.
  rewrite (search_emits urljoin W is_save ct cn fy cb stage_free_save
             eq_refl st).
  simpl. now destruct (fst _) as [[cd|]|msg].
Qed.

(** C1 fails on the path where no case is found: in a world where every
    step succeeds and the results page holds no table, the invocation
    returns [None], calls [save_search_record] not once, leaves the store
    empty, and still cleans up.  Every other result is persisted exactly
    once ([persistence_calls]). *)
Theorem not_found_is_not_persisted :
  let run :=
    search_case_details urljoin_sample (world_showing empty_page)
      "W.P.(C)" "12345" 2020 None (new_scraper []) in
  fst run = Returned None
  /\ filter is_save (trace (snd run)) = []
  /\ db (snd run) = []
  /\ events (snd run)
     = [ ECreateDriver; EGet SEARCH_URL; EWaitForPageLoad;
         EFillCaseType "W.P.(C)"; EFillCaseNumber "12345";
         EFillFilingYear 2020; ESolveCaptcha; ESubmitForm;
         EExtractCaseData; ECleanup; EQuit ].
Proof. repeat split. Qed.

(** C2: on every exit of [search_case_details], whatever it returns or
    raises, [_cleanup] has been called exactly once and the driver
    reference is reset; [_cleanup] never raises, also when quitting the
    driver fails; and a second [_cleanup] returns without touching the
    references, the store or the driver. *)
Theorem cleanup_exactly_once (urljoin : string -> string -> outcome string)
    (W : World) (ct cn : string) (fy : Z) (cb : option Callback)
    (st : State) :
  let run := search_case_details urljoin W ct cn fy cb st in
  filter is_cleanup (trace (snd run))
  = ECleanup :: filter is_cleanup (trace st)
  /\ driver (snd run) = false
  /\ returns (_cleanup W)
  /\ (forall st0,
        let once := snd (_cleanup W st0) in
        _cleanup W once
        = (Returned tt,
           {| driver := false; form_handler := form_handler once;
              data_extractor := data_extractor once;
              trace := ECleanup :: trace once; db := db once |})).
Proof.
  intros run. unfold run. split; [|split; [|split]].
  - rewrite (search_emits urljoin W is_cleanup ct cn fy cb
               stage_free_cleanup eq_refl st).
    simpl. now destruct (fst _) as [[cd|]|msg].
  - unfold search_case_details, try_finally.
    destruct (try_except _ _ st) as [r st1].
    now destruct (cleanup_run W st1) as (evs & _ & ->).
  - apply cleanup_returns.
  - intros st0.
    destruct (cleanup_run W st0) as (evs & _ & ->). reflexivity.
Qed.

(** ** Runs with and without a progress callback *)

Section Alike.

Context {A B : Type}.

Lemma alike_ret (a : A) : alike (ret a) (ret a).
Proof. intros s1 s2 H. now split. Qed.

Lemma alike_raise (e : string) : alike (@raise A e) (raise e).
Proof. intros s1 s2 H. now split. Qed.

Lemma alike_of_outcome (o : outcome A) : alike (of_outcome o) (of_outcome o).
Proof. intros s1 s2 H. now split. Qed.

Lemma alike_bind (m1 m2 : M A) (k1 k2 : A -> M B) :
  alike m1 m2 -> (forall a, alike (k1 a) (k2 a)) ->
  alike (bind m1 k1) (bind m2 k2).
Proof.
  intros Hm Hk s1 s2 H. unfold bind. specialize (Hm s1 s2 H).
  destruct (m1 s1) as [r1 t1], (m2 s2) as [r2 t2]. simpl in Hm.
  destruct Hm as [<- Ht]. destruct r1 as [a|e]; [now apply Hk | now split].
Qed.

Lemma alike_try_except (b1 b2 : M A) (h1 h2 : string -> M A) :
  alike b1 b2 -> (forall e, alike (h1 e) (h2 e)) ->
  alike (try_except b1 h1) (try_except b2 h2).
Proof.
  intros Hb Hh s1 s2 H. unfold try_except. specialize (Hb s1 s2 H).
  destruct (b1 s1) as [r1 t1], (b2 s2) as [r2 t2]. simpl in Hb.
  destruct Hb as [<- Ht]. destruct r1 as [a|e]; [now split | now apply Hh].
Qed.

Lemma alike_try_finally (b1 b2 : M A) (f1 f2 : M unit) :
  alike b1 b2 -> alike f1 f2 ->
  alike (try_finally b1 f1) (try_finally b2 f2).
Proof.
  intros Hb Hf s1 s2 H. unfold try_finally. specialize (Hb s1 s2 H).
  destruct (b1 s1) as [r1 t1], (b2 s2) as [r2 t2]. simpl in Hb.
  destruct Hb as [<- Ht]. specialize (Hf t1 t2 Ht).
  destruct (f1 t1) as [q1 u1], (f2 t2) as [q2 u2]. simpl in Hf.
  destruct Hf as [<- Hu]. now destruct q1.
Qed.

Lemma alike_guard (b : State -> bool) (m1 m2 n1 n2 : M A) :
  (forall s1 s2, same_but_progress s1 s2 -> b s1 = b s2) ->
  alike m1 m2 -> alike n1 n2 ->
  alike (fun st => if b st then m1 st else n1 st)
        (fun st => if b st then m2 st else n2 st).
Proof.
  intros Hb Hm Hn s1 s2 H. simpl. rewrite <- (Hb s1 s2 H).
  destruct (b s1); [now apply Hm | now apply Hn].
Qed.

End Alike.

Lemma alike_emit (e : Event) : alike (emit e) (emit e).
Proof.
  intros s1 s2 (Hd & Hf & Hx & Hb & Ht). split; [reflexivity|].
  repeat split; simpl; trivial. now rewrite Ht.
Qed.

Lemma alike_set_references (b : bool) :
  alike (set_references b) (set_references b).
Proof. intros s1 s2 (Hd & Hf & Hx & Hb & Ht). now repeat split. Qed.

Lemma alike_get_driver : alike get_driver get_driver.
Proof.
  intros s1 s2 H. split; [|exact H]. simpl. now destruct H as [-> _].
Qed.

Lemma alike_save (W : World) (d : SearchData) (ok : bool)
    (e : option string) :
  alike (save_search_record W d ok e) (save_search_record W d ok e).
Proof.
  intros s1 s2 (Hd & Hf & Hx & Hb & Ht). split; [reflexivity|].
  repeat split; simpl; trivial; now rewrite ?Hb, ?Ht.
Qed.

Lemma alike_report_same (cb : option Callback) (label : string) (pct : Z) :
  alike (report cb label pct) (report cb label pct).
Proof.
  destruct cb as [f|]; simpl; [|apply alike_ret].
  apply alike_bind; [apply alike_emit | intros _].
  apply alike_bind; [apply alike_of_outcome | intros; apply alike_ret].
Qed.

(** Reporting to a callback that returns is like not reporting. *)
Lemma alike_report (f : Callback) (label : string) (pct : Z) :
  callback_returns f ->
  alike (report (Some f) label pct) (report None label pct).
Proof.
  intros Hf s1 s2 (Hd & Hh & Hx & Hb & Ht).
  unfold report, bind, emit, of_outcome, ret. simpl.
  destruct (Hf label pct) as [v ->]. simpl. now repeat split.
Qed.

Lemma same_driver (s1 s2 : State) :
  same_but_progress s1 s2 -> driver s1 = driver s2.
Proof. now intros (H & _). Qed.

Lemma same_form_handler (s1 s2 : State) :
  same_but_progress s1 s2 -> form_handler s1 = form_handler s2.
Proof. now intros (_ & H & _). Qed.

Lemma same_data_extractor (s1 s2 : State) :
  same_but_progress s1 s2 -> data_extractor s1 = data_extractor s2.
Proof. now intros (_ & _ & H & _). Qed.

Lemma same_but_progress_refl (st : State) : same_but_progress st st.
Proof. now repeat split. Qed.

(** Discharge [alike] goals along the structure of a method. *)
Ltac relate :=
  repeat match goal with
    | |- forall _, _ => intro
    | |- alike (ret _) _ => apply alike_ret
    | |- alike (raise _) _ => apply alike_raise
    | |- alike (attribute_error _) _ => apply alike_raise
    | |- alike (of_outcome _) _ => apply alike_of_outcome
    | |- alike (emit _) _ => apply alike_emit
    | |- alike (set_references _) _ => apply alike_set_references
    | |- alike get_driver _ => apply alike_get_driver
    | |- alike (save_search_record _ _ _ _) _ => apply alike_save
    | |- alike (report ?cb _ _) (report ?cb _ _) => apply alike_report_same
    | |- alike (bind _ _) _ => apply alike_bind
    | |- alike (try_except _ _) _ => apply alike_try_except
    | |- alike (try_finally _ _) _ => apply alike_try_finally
    | |- alike (fun st => if _ then _ else _) _ =>
        apply alike_guard;
        [ first [ exact same_driver | exact same_form_handler
                | exact same_data_extractor ] | | ]
    | |- alike (if ?b then _ else _) _ => destruct b
    | |- alike (match ?x with _ => _ end) _ => destruct x
    end.

Lemma alike_attempt (urljoin : string -> string -> outcome string)
    (W : World) (ct cn : string) (fy : Z) (f : Callback) :
  callback_returns f ->
  alike (search_attempt urljoin W ct cn fy (Some f))
        (search_attempt urljoin W ct cn fy None).
Proof.
  intros Hf.
  unfold search_attempt, _setup_browser, driver_get, wait_for_page_load,
    _fill_search_form, fill_case_type, fill_case_number, fill_filing_year,
    solve_captcha, submit_form, extract_case_data, extract_orders_data,
    form_call.
  repeat first [ apply alike_report; exact Hf | progress relate ].
Qed.

Lemma alike_cleanup (W : World) : alike (_cleanup W) (_cleanup W).
Proof. unfold _cleanup. relate. Qed.

(** ** Stepping through a run *)

Lemma bind_returned {A B} (m : M A) (k : A -> M B) (st st1 : State) (a : A) :
  m st = (Returned a, st1) -> bind m k st = k a st1.
Proof. intros H. unfold bind. now rewrite H. Qed.

Lemma bind_raised {A B} (m : M A) (k : A -> M B) (st st1 : State)
    (e : string) :
  m st = (Raised e, st1) -> bind m k st = (Raised e, st1).
Proof. intros H. unfold bind. now rewrite H. Qed.

Section Steps.

Variable urljoin : string -> string -> outcome string.
Variable W : World.

Lemma report_run (cb : option Callback) (label : string) (pct : Z)
    (st : State) :
  callback_ok cb ->
  report cb label pct st
  = (Returned tt, logged (progress_events cb label pct) st).
Proof.
  destruct cb as [f|]; simpl; intros H; [|destruct st; reflexivity].
  unfold bind, emit, of_outcome, ret. simpl.
  destruct (H label pct) as [v ->]. reflexivity.
Qed.

Lemma setup_run (st : State) :
  env_create_driver W = Returned tt ->
  _setup_browser W st
  = (Returned tt,
     {| driver := true; form_handler := true; data_extractor := true;
        trace := ECreateDriver :: trace st; db := db st |}).
Proof.
  intros H. unfold _setup_browser, try_except, bind, emit, of_outcome.
  simpl. rewrite H. reflexivity.
Qed.

Lemma get_run (url : string) (st : State) :
  driver st = true -> env_get W url = Returned tt ->
  driver_get W url st = (Returned tt, logged [EGet url] st).
Proof.
  destruct st as [d fh de tr rows]. simpl. intros -> H.
  unfold driver_get, bind, emit, of_outcome. simpl. rewrite H. reflexivity.
Qed.

Lemma form_call_run {A} (name : string) (e : Event) (a : A) (st : State) :
  form_handler st = true ->
  form_call name e (Returned a) st = (Returned a, logged [e] st).
Proof. destruct st as [d fh de tr rows]. simpl. now intros ->. Qed.

Lemma fill_run (ct cn : string) (fy : Z) (st : State) :
  form_handler st = true ->
  _fill_search_form W ct cn fy st
  = (Returned (form_filled W ct cn fy), logged (fill_events W ct cn fy) st).
Proof.
  destruct st as [d fh de tr rows]. simpl. intros ->.
  unfold _fill_search_form, fill_case_type, fill_case_number,
    fill_filing_year, form_call, form_filled, fill_events, try_except,
    bind, emit, of_outcome, ret, logged.
  simpl.
  destruct (env_fill_case_type W ct) as [[|]|]; simpl; trivial.
  destruct (env_fill_case_number W cn) as [[|]|]; simpl; trivial.
  destruct (env_fill_filing_year W fy) as [[|]|]; reflexivity.
Qed.

Lemma extract_case_run (ct cn : string) (fy : Z) (st : State) :
  data_extractor st = true ->
  extract_case_data urljoin W ct cn fy st
  = (Returned (case_found urljoin W ct cn fy), logged [EExtractCaseData] st).
Proof.
  destruct st as [d fh de tr rows]. simpl. intros ->.
  unfold extract_case_data, case_found, try_except, bind, emit, of_outcome,
    ret, logged. simpl.
  destruct (env_results_page W); reflexivity.
Qed.

End Steps.

(** One step of a run whose answer is known. *)
Ltac step :=
  first
    [ erewrite bind_returned by (apply report_run; assumption)
    | erewrite bind_returned by (apply setup_run; assumption)
    | erewrite bind_returned by (apply get_run; [reflexivity | assumption])
    | erewrite bind_returned by (apply form_call_run; reflexivity)
    | erewrite bind_returned by (apply fill_run; reflexivity)
    | erewrite bind_returned by (apply extract_case_run; reflexivity) ].

Lemma filter_fill_events (p : Event -> bool) (W : World) (ct cn : string)
    (fy : Z) :
  (forall v, p (EFillCaseType v) = false) ->
  (forall v, p (EFillCaseNumber v) = false) ->
  (forall y, p (EFillFilingYear y) = false) ->
  filter p (fill_events W ct cn fy) = [].
Proof.
  intros H1 H2 H3. unfold fill_events.
  destruct (env_fill_case_type W ct) as [[|]|]; simpl; rewrite ?H1; trivial.
  destruct (env_fill_case_number W cn) as [[|]|]; simpl;
    now rewrite ?H1, ?H2, ?H3.
Qed.

Lemma filter_progress_events (p : Event -> bool) (cb : option Callback)
    (label : string) (pct : Z) :
  (forall l n, p (EProgress l n) = false) ->
  filter p (progress_events cb label pct) = [].
Proof. intros H. destruct cb; simpl; now rewrite ?H. Qed.

Lemma trace_logged (evs : list Event) (st : State) :
  trace (logged evs st) = (evs ++ trace st)%list.
Proof. reflexivity. Qed.

Lemma trace_saved (W : World) (d : SearchData) (ok : bool)
    (e : option string) (st : State) :
  trace (snd (save_search_record W d ok e st))
  = ESaveSearchRecord d ok e :: trace st.
Proof. reflexivity. Qed.

(** Clear the events of the early stages out of a filtered log. *)
Ltac settle_log :=
  cbn [fst snd];
  repeat first [ rewrite trace_logged | rewrite trace_saved
               | progress cbn [trace] ];
  repeat first
    [ rewrite filter_app
    | rewrite filter_fill_events by reflexivity
    | rewrite filter_progress_events by reflexivity
    | progress cbn [filter app is_verification is_submission
                    is_extraction] ];
  try reflexivity.

(** Where a run stops when a stage fails, and what it leaves undone. *)
Lemma stage_results
    (urljoin : string -> string -> outcome string) (W : World)
    (ct cn : string) (fy : Z) (cb : option Callback) (st : State) :
  callback_ok cb -> form_reached W ->
  let run := search_case_details urljoin W ct cn fy cb st in
  let untouched p := filter p (trace (snd run)) = filter p (trace st) in
  (form_filled W ct cn fy = false ->
   fst run = Raised "Unable to fill search form"
   /\ untouched is_verification /\ untouched is_submission
   /\ untouched is_extraction)
  /\ (form_filled W ct cn fy = true ->
      env_solve_captcha W = Returned false ->
      fst run = Raised "Security verification failed - please try again"
      /\ untouched is_submission /\ untouched is_extraction)
  /\ (form_filled W ct cn fy = true ->
      env_solve_captcha W = Returned true ->
      env_submit_form W = Returned false ->
      fst run = Raised "Search submission failed"
      /\ untouched is_extraction)
  /\ (form_filled W ct cn fy = true ->
      env_solve_captcha W = Returned true ->
      env_submit_form W = Returned true ->
      case_found urljoin W ct cn fy = None ->
      fst run = Returned None).
Proof.
  intros Hcb [Hc Hg] run untouched. unfold untouched, run.
  unfold search_case_details, try_finally, try_except, search_attempt,
    wait_for_page_load, solve_captcha, submit_form.
  do 7 step.
  split; [|split; [|split]].
  - intros ->. cbn [negb]. unfold raise. rewrite failed_run.
    match goal with
    | |- context [_cleanup W ?s] =>
        destruct (cleanup_run W s) as (evs & [-> | ->] & ->)
    end.
    all: repeat split; settle_log.
  - intros -> Hs. cbn [negb]. rewrite Hs. do 2 step. cbn [negb].
    unfold raise. rewrite failed_run.
    match goal with
    | |- context [_cleanup W ?s] =>
        destruct (cleanup_run W s) as (evs & [-> | ->] & ->)
    end.
    all: repeat split; settle_log.
  - intros -> Hs Hb. cbn [negb]. rewrite Hs, Hb. do 2 step. cbn [negb].
    do 2 step. cbn [negb].
    unfold raise. rewrite failed_run.
    match goal with
    | |- context [_cleanup W ?s] =>
        destruct (cleanup_run W s) as (evs & [-> | ->] & ->)
    end.
    all: repeat split; settle_log.
  - intros -> Hs Hb Hn. cbn [negb]. rewrite Hs, Hb. do 2 step. cbn [negb].
    do 2 step. cbn [negb]. do 2 step. rewrite Hn. unfold ret.
    match goal with
    | |- context [_cleanup W ?s] =>
        destruct (cleanup_run W s) as (evs & _ & ->)
    end.
    reflexivity.
Qed.

Lemma update_progress_returns : callback_ok (Some update_progress).
Proof. intros label pct. now exists PyNone. Qed.

(** C7: once the session exists and the search page is loaded, a failing
    fill/select call raises the form-fill error and no verification,
    submission or extraction step runs; a failing verification raises the
    verification error and no submission or extraction step runs; a
    failing submit click raises the submission error and no extraction
    step runs.  On the page, the three outcomes are told apart: "no case
    found" has its own message, the verification failure shows its message
    with the advice to try again later, and the form-fill and submission
    failures show their message without advice. *)
Theorem stage_failures_abort
    (urljoin : string -> string -> outcome string) (W : World)
    (ct cn : string) (fy : Z) (cb : option Callback) (st : State) :
  callback_ok cb -> form_reached W ->
  let run := search_case_details urljoin W ct cn fy cb st in
  let untouched p := filter p (trace (snd run)) = filter p (trace st) in
  (form_filled W ct cn fy = false ->
   fst run = Raised "Unable to fill search form"
   /\ untouched is_verification /\ untouched is_submission
   /\ untouched is_extraction)
  /\ (form_filled W ct cn fy = true ->
      env_solve_captcha W = Returned false ->
      fst run = Raised "Security verification failed - please try again"
      /\ untouched is_submission /\ untouched is_extraction)
  /\ (form_filled W ct cn fy = true ->
      env_solve_captcha W = Returned true ->
      env_submit_form W = Returned false ->
      fst run = Raised "Search submission failed"
      /\ untouched is_extraction)
  /\ (forall db0,
        let page := shown (perform_case_search urljoin W ct cn fy db0) in
        (form_filled W ct cn fy = false ->
         page = [status_text "**Search failed**";
                 st_error "Search failed: Unable to fill search form"])
        /\ (form_filled W ct cn fy = true ->
            env_solve_captcha W = Returned false ->
            page = [status_text "**Search failed**";
                    st_error "Search failed: Security verification failed - please try again";
                    st_info "**Tip:** The court website's security verification failed. Please try again in a few moments."])
        /\ (form_filled W ct cn fy = true ->
            env_solve_captcha W = Returned true ->
            env_submit_form W = Returned false ->
            page = [status_text "**Search failed**";
                    st_error "Search failed: Search submission failed"])
        /\ (form_filled W ct cn fy = true ->
            env_solve_captcha W = Returned true ->
            env_submit_form W = Returned true ->
            case_found urljoin W ct cn fy = None ->
            page = [status_text "**No case found**";
                    st_error "No case found with the provided details. Please verify case number, type, and filing year."])).
Proof.
  intros Hcb Hr run untouched.
  destruct (stage_results urljoin W ct cn fy cb st Hcb Hr)
    as (S1 & S2 & S3 & _).
  split; [exact S1 | split; [exact S2 | split; [exact S3|]]].
  intros db0 page. unfold page, perform_case_search.
  destruct (stage_results urljoin W ct cn fy (Some update_progress)
              (new_scraper db0) update_progress_returns Hr)
    as (A1 & A2 & A3 & A4).
  destruct (search_case_details urljoin W ct cn fy (Some update_progress)
              (new_scraper db0)) as [r st1].
  simpl in A1, A2, A3, A4.
  split; [|split; [|split]].
  - intros H. destruct (A1 H) as [-> _]. reflexivity.
  - intros H Hs. destruct (A2 H Hs) as [-> _]. reflexivity.
  - intros H Hs Hb. destruct (A3 H Hs Hb) as [-> _]. reflexivity.
  - intros H Hs Hb Hn. rewrite (A4 H Hs Hb Hn). reflexivity.
Qed.

(** Witness of C7: the world whose verification code cannot be read. *)
Lemma stage_failures_abort_witness :
  fst (search_case_details urljoin_sample world_captcha_fails
         "W.P.(C)" "12345" 2020 None (new_scraper []))
  = Raised "Security verification failed - please try again"
  /\ filter is_submission
       (trace (snd (search_case_details urljoin_sample world_captcha_fails
                      "W.P.(C)" "12345" 2020 None (new_scraper []))))
     = []
  /\ shown (perform_case_search urljoin_sample world_captcha_fails
              "W.P.(C)" "12345" 2020 [])
     = [status_text "**Search failed**";
        st_error "Search failed: Security verification failed - please try again";
        st_info "**Tip:** The court website's security verification failed. Please try again in a few moments."].
Proof.
  assert (R : form_reached world_captcha_fails) by (split; reflexivity).
  destruct (stage_failures_abort urljoin_sample world_captcha_fails
              "W.P.(C)" "12345" 2020 None (new_scraper []) I R)
    as (_ & S2 & _ & S4).
  destruct (S2 eq_refl eq_refl) as (E1 & E2 & _).
  split; [exact E1 | split; [exact E2|]].
  exact (proj1 (proj2 (S4 [])) eq_refl eq_refl).
Defined.

(** ** The progress callback does not interfere *)

Lemma same_but_progress_sym (s1 s2 : State) :
  same_but_progress s1 s2 -> same_but_progress s2 s1.
Proof. intros (H1 & H2 & H3 & H4 & H5). now repeat split. Qed.

Lemma same_but_progress_trans (s1 s2 s3 : State) :
  same_but_progress s1 s2 -> same_but_progress s2 s3 ->
  same_but_progress s1 s3.
Proof.
  intros (H1 & H2 & H3 & H4 & H5) (K1 & K2 & K3 & K4 & K5).
  repeat split; congruence.
Qed.

Lemma alike_search (urljoin : string -> string -> outcome string)
    (W : World) (ct cn : string) (fy : Z) (cb : option Callback) :
  callback_ok cb ->
  alike (search_case_details urljoin W ct cn fy cb)
        (search_case_details urljoin W ct cn fy None).
Proof.
  intros Hcb. unfold search_case_details.
  apply alike_try_finally; [|apply alike_cleanup].
  apply alike_try_except.
  - destruct cb as [f|]; [now apply alike_attempt|].
    unfold search_attempt, _setup_browser, driver_get, wait_for_page_load,
      _fill_search_form, fill_case_type, fill_case_number, fill_filing_year,
      solve_captcha, submit_form, extract_case_data, extract_orders_data,
      form_call.
    relate.
  - intros e. unfold search_failed. relate.
Qed.

Lemma filter_save_progress (tr : list Event) :
  filter is_save (filter (fun e => negb (is_progress e)) tr)
  = filter is_save tr.
Proof.
  induction tr as [|e tr IH]; simpl; [reflexivity|].
  destruct e; simpl; now rewrite ?IH.
Qed.

(** C9: two invocations from the same state and in the same world, one
    with a progress callback that returns (whatever it returns) and one
    with another such callback or with none, return the same case data or
    raise the same error, leave the same store and the same records handed
    to [save_search_record], and differ at most in their progress
    events. *)
Theorem callback_does_not_interfere
    (urljoin : string -> string -> outcome string) (W : World)
    (ct cn : string) (fy : Z) (cb1 cb2 : option Callback) (st : State) :
  callback_ok cb1 -> callback_ok cb2 ->
  let run1 := search_case_details urljoin W ct cn fy cb1 st in
  let run2 := search_case_details urljoin W ct cn fy cb2 st in
  fst run1 = fst run2
  /\ db (snd run1) = db (snd run2)
  /\ filter is_save (trace (snd run1)) = filter is_save (trace (snd run2))
  /\ same_but_progress (snd run1) (snd run2).
Proof.
  intros H1 H2 run1 run2.
  destruct (alike_search urljoin W ct cn fy cb1 H1 st st
              (same_but_progress_refl st)) as [E1 S1].
  destruct (alike_search urljoin W ct cn fy cb2 H2 st st
              (same_but_progress_refl st)) as [E2 S2].
  assert (S : same_but_progress (snd run1) (snd run2)).
  { eapply same_but_progress_trans; [exact S1|].
    now apply same_but_progress_sym. }
  split; [unfold run1, run2; congruence|].
  split; [now destruct S as (_ & _ & _ & S & _)|].
  split; [|exact S].
  destruct S as (_ & _ & _ & _ & S).
  rewrite <- (filter_save_progress (trace (snd run1))), S.
  apply filter_save_progress.
Qed.

(** Witness of C9: the callback of the page against no callback, on a
    search that finds a case with orders. *)
Lemma callback_does_not_interfere_witness :
  fst (search_case_details urljoin_sample (world_showing results_page_sample)
         "W.P.(C)" "12345" 2020 (Some update_progress) (new_scraper []))
  = fst (search_case_details urljoin_sample
           (world_showing results_page_sample)
           "W.P.(C)" "12345" 2020 None (new_scraper []))
  /\ db (snd (search_case_details urljoin_sample
                (world_showing results_page_sample)
                "W.P.(C)" "12345" 2020 (Some update_progress)
                (new_scraper [])))
     = db (snd (search_case_details urljoin_sample
                  (world_showing results_page_sample)
                  "W.P.(C)" "12345" 2020 None (new_scraper []))).
Proof.
  destruct (callback_does_not_interfere urljoin_sample
              (world_showing results_page_sample) "W.P.(C)" "12345" 2020
              (Some update_progress) None (new_scraper [])
              update_progress_returns I) as (E & D & _).
  split; [exact E | exact D].
Defined.

(** ** The entry point of the page *)

Lemma all_chars_isdigit (s : string) :
  isdigit s = true -> all_chars isdigit_char s = true.
Proof. destruct s; [discriminate | trivial]. Qed.

(** C6: a case number that is empty, or holds a character that is not a
    digit for [str.isdigit], is rejected by the submit handler with an
    error message: the scraper does nothing (no session, no stage, no
    call of [save_search_record]) and the store is as it was. *)
Theorem invalid_case_number_rejected
    (urljoin : string -> string -> outcome string) (W : World)
    (ct cn : string) (fy : Z) (db0 : list SearchRow) :
  cn = "" \/ all_chars isdigit_char cn = false ->
  let app := render_search_tab urljoin W ct cn fy db0 in
  did app = [] /\ store app = db0
  /\ (shown app = [st_error "Please enter a case number"]
      \/ shown app = [st_error "Case number should contain only digits"]).
Proof.
  intros H app. unfold app, render_search_tab.
  destruct (String.eqb (strip cn) "").
  - repeat split. now left.
  - assert (D : isdigit cn = false).
    { destruct H as [-> | H]; [reflexivity|].
      destruct (isdigit cn) eqn:E; [|reflexivity].
      apply all_chars_isdigit in E. congruence. }
    rewrite D. repeat split. now right.
Qed.

(** Witness of C6: a case number with a letter. *)
Lemma invalid_case_number_rejected_witness :
  did (render_search_tab urljoin_sample (world_showing results_page_sample)
         "W.P.(C)" "12a45" 2020 []) = []
  /\ store (render_search_tab urljoin_sample
              (world_showing results_page_sample) "W.P.(C)" "12a45" 2020 [])
     = [].
Proof.
  destruct (invalid_case_number_rejected urljoin_sample
              (world_showing results_page_sample) "W.P.(C)" "12a45" 2020 []
              (or_intror eq_refl)) as (D & S & _).
  split; [exact D | exact S].
Defined.

(** ** Orders *)

Section Orders.

Variable urljoin : string -> string -> outcome string.
Variable base_url : string.

Lemma order_rows_loop_app (xs ys : list Row) (i : nat) :
  order_rows_loop urljoin base_url (xs ++ ys)%list i
  = (order_rows_loop urljoin base_url xs i
     ++ order_rows_loop urljoin base_url ys (i + List.length xs))%list.
Proof.
  revert i; induction xs as [|cells xs IH]; intros i.
  - simpl. now rewrite Nat.add_0_r.
  - cbn [order_rows_loop app List.length].
    rewrite IH, <- Nat.add_succ_comm.
    destruct (2 <=? List.length cells)%nat; [|reflexivity].
    now destruct (_parse_order_row urljoin base_url cells i).
Qed.

Lemma order_rows_loop_member (rows : list Row) (i k : nat) (cells : Row)
    (o : OrderRecord) :
  nth_error rows k = Some cells -> 2 <= List.length cells ->
  _parse_order_row urljoin base_url cells (i + k) = Some o ->
  In o (order_rows_loop urljoin base_url rows i).
Proof.
  revert i k; induction rows as [|r rows IH]; intros i [|k];
    cbn [nth_error order_rows_loop]; try discriminate.
  - intros [= ->] L P. apply Nat.leb_le in L. rewrite L.
    rewrite Nat.add_0_r in P. rewrite P. now left.
  - intros N L P. rewrite <- Nat.add_succ_comm in P.
    assert (T := IH (S i) k N L P).
    destruct (2 <=? List.length r)%nat; [|exact T].
    destruct (_parse_order_row urljoin base_url r i); [now right | exact T].
Qed.

End Orders.

(** C5 as stated does not hold for a row whose link is malformed: when
    the join of the reference raises, the row gives no record at all, and
    any other text of the [href] is kept, joined to the base URL, as the
    document link; in neither case is there a record without link. *)
Lemma malformed_link_not_none :
  _parse_order_row urljoin_sample BASE_URL
    [ plain "3"; linked "Order 3" "//[o3.pdf"; plain "03.01.2024" ] 2
  = None
  /\ _parse_order_row urljoin_sample BASE_URL
       [ plain "3"; linked "Order 3" "n/a"; plain "03.01.2024" ] 2
     = Some {| order_index := 3; date := "03.01.2024";
               case_info := "Order 3";
               pdf_link := Some "https://delhihighcourt.nic.in/n/a" |}.
Proof. split; reflexivity. Qed.

(** C5, amended: the rows of the orders table are parsed one by one: a row
    that fails to parse (or has fewer than two cells) is left out and the
    rows before and after it give the records they would give without it,
    so every row that parses has its record in the result; a row whose link
    cell has no anchor carrying an [href] gives a record without document
    link, with the date of its third cell (or the date placeholder) and the
    description "Not Available"; [extract_orders_data] returns a list, the
    empty one when the orders page cannot be fetched, and never raises out
    of an existing extractor; the record of a row is without document link
    exactly when its link cell has no anchor carrying an [href]; a row
    whose [href] the join rejects fails to parse and is left out; and the
    record of a row with an [href] has the date of the row, the text of the
    anchor as description and, as document link, the [href] itself or its
    join with the base URL. *)
Theorem orders_rows_independent
    (urljoin : string -> string -> outcome string) (base_url : string) :
  (forall before bad after i,
      (List.length bad < 2
       \/ _parse_order_row urljoin base_url bad (i + List.length before)
          = None) ->
      order_rows_loop urljoin base_url (before ++ bad :: after)%list i
      = (order_rows_loop urljoin base_url before i
         ++ order_rows_loop urljoin base_url after
              (i + List.length before + 1))%list)
  /\ (forall rows i k cells o,
        nth_error rows k = Some cells -> 2 <= List.length cells ->
        _parse_order_row urljoin base_url cells (i + k) = Some o ->
        In o (order_rows_loop urljoin base_url rows i))
  /\ (forall cells index cell,
        nth_error cells 1 = Some cell -> hrefs (c_links cell) = [] ->
        _parse_order_row urljoin base_url cells index
        = Some {| order_index := index + 1;
                  date := match nth_error cells 2 with
                          | Some c => c_text c
                          | None => "Date not available"
                          end;
                  case_info := "Not Available";
                  pdf_link := None |})
  /\ (forall W url st,
        data_extractor st = true ->
        exists found,
          fst (extract_orders_data urljoin W url st) = Returned found)
  /\ (forall W url st e,
        data_extractor st = true -> env_orders_page W url = Raised e ->
        fst (extract_orders_data urljoin W url st) = Returned [])
  /\ (forall cells index cell o,
        nth_error cells 1 = Some cell ->
        _parse_order_row urljoin base_url cells index = Some o ->
        (pdf_link o = None <-> hrefs (c_links cell) = []))
  /\ (forall cells index cell href text rest e,
        nth_error cells 1 = Some cell ->
        hrefs (c_links cell) = (href, text) :: rest ->
        href <> "" -> startswith "http" href = false ->
        urljoin base_url href = Raised e ->
        _parse_order_row urljoin base_url cells index = None)
  /\ (forall cells index cell href text rest o,
        nth_error cells 1 = Some cell ->
        hrefs (c_links cell) = (href, text) :: rest ->
        _parse_order_row urljoin base_url cells index = Some o ->
        order_index o = index + 1
        /\ date o = match nth_error cells 2 with
                    | Some c => c_text c
                    | None => "Date not available"
                    end
        /\ case_info o = text
        /\ exists link,
             pdf_link o = Some link
             /\ (link = href \/ urljoin base_url href = Returned link)).
Proof.
  assert (L : forall (cells : Row) cell,
             nth_error cells 1 = Some cell ->
             (1 <? List.length cells)%nat = true).
  { intros cells cell Hc. apply Nat.ltb_lt. apply nth_error_Some.
    congruence. }
  split; [|split; [|split; [|split; [|split; [|split; [|split]]]]]].
  - intros before bad after i H. rewrite order_rows_loop_app. f_equal.
    cbn [order_rows_loop].
    replace (i + List.length before + 1) with (S (i + List.length before))
      by lia.
    unfold Row in *. destruct H as [H | H].
    + apply Nat.leb_gt in H. now rewrite H.
    + rewrite H. now destruct (2 <=? List.length bad)%nat.
  - apply order_rows_loop_member.
  - intros cells index cell Hc Hl.
    unfold _parse_order_row, parse_order_row_body.
    now rewrite (L cells cell Hc), Hc, Hl.
  - intros W url st Hd. unfold extract_orders_data. rewrite Hd.
    unfold bind, emit, try_except, of_outcome, ret. simpl.
    destruct (env_orders_page W url); eexists; reflexivity.
  - intros W url st e Hd He. unfold extract_orders_data. rewrite Hd.
    unfold bind, emit, try_except, of_outcome, ret. simpl.
    now rewrite He.
  - intros cells index cell o Hc.
    unfold _parse_order_row, parse_order_row_body.
    rewrite (L cells cell Hc), Hc.
    destruct (hrefs (c_links cell)) as [|[href text] rest].
    + intros [= <-]. now split.
    + destruct (negb (String.eqb href "") && negb (startswith "http" href)).
      * destruct (urljoin base_url href); [|discriminate].
        intros [= <-]. split; discriminate.
      * intros [= <-]. split; discriminate.
  - intros cells index cell href text rest e Hc Hl Hne Hh Hj.
    unfold _parse_order_row, parse_order_row_body.
    rewrite (L cells cell Hc), Hc, Hl, Hh, Hj.
    apply String.eqb_neq in Hne. now rewrite Hne.
  - intros cells index cell href text rest o Hc Hl.
    unfold _parse_order_row, parse_order_row_body.
    rewrite (L cells cell Hc), Hc, Hl.
    destruct (negb (String.eqb href "") && negb (startswith "http" href)).
    + destruct (urljoin base_url href) as [u|e]; [|discriminate].
      intros [= <-]. repeat split. exists u. split; [reflexivity|].
      now right.
    + intros [= <-]. repeat split. exists href. split; [reflexivity|].
      now left.
Qed.

(** Witness of C5: of five rows, the third holds a reference the join
    rejects and the fourth no link; the third row fails to parse, four
    records come back, the fourth row without document link. *)
Lemma orders_rows_independent_witness :
  order_rows_loop urljoin_sample BASE_URL order_rows_sample 0
  = (order_rows_loop urljoin_sample BASE_URL (firstn 2 order_rows_sample) 0
     ++ order_rows_loop urljoin_sample BASE_URL (skipn 3 order_rows_sample)
          3)%list
  /\ map order_index
       (order_rows_loop urljoin_sample BASE_URL order_rows_sample 0)
     = [1; 2; 4; 5]
  /\ _parse_order_row urljoin_sample BASE_URL
       [ plain "4"; plain "Order 4"; plain "04.01.2024" ] 3
     = Some {| order_index := 4; date := "04.01.2024";
               case_info := "Not Available"; pdf_link := None |}
  /\ _parse_order_row urljoin_sample BASE_URL
       [ plain "3"; linked "Order 3" "//[o3.pdf"; plain "03.01.2024" ] 2
     = None.
Proof.
  destruct (orders_rows_independent urljoin_sample BASE_URL)
    as (H1 & _ & H3 & _ & _ & _ & H7 & _).
  split; [|split; [|split]].
  - exact (H1 (firstn 2 order_rows_sample)
              [ plain "3"; linked "Order 3" "//[o3.pdf"; plain "03.01.2024" ]
              (skipn 3 order_rows_sample) 0 (or_intror eq_refl)).
  - reflexivity.
  - exact (H3 [ plain "4"; plain "Order 4"; plain "04.01.2024" ] 3
              (plain "Order 4") eq_refl eq_refl).
  - apply (H7 [ plain "3"; linked "Order 3" "//[o3.pdf"; plain "03.01.2024" ]
              2 (linked "Order 3" "//[o3.pdf") "//[o3.pdf" "Order 3" []
              "Invalid IPv6 URL");
      solve [reflexivity | discriminate].
Defined.

Example status_disposed :
  _extract_status "W.P.(C) 12/2020 [DISPOSED]" = "DISPOSED".
Proof. reflexivity. Qed.

Example status_foo : _extract_status "x [FOO] y [BAR]" = "FOO".
Proof. reflexivity. Qed.

Example status_none : _extract_status "W.P.(C) 12/2020" = "ACTIVE".
Proof. reflexivity. Qed.

Example status_reversed : _extract_status "a ] b [ c" = "ACTIVE".
Proof. reflexivity. Qed.

Example status_blank : _extract_status "[ ]" = "".
Proof. reflexivity. Qed.

Example split_ex : split "ab" "xabyabab" = ["x"; "y"; ""; ""].
Proof. reflexivity. Qed.

Example split_overlap : split "aa" "aaa" = [""; "a"].
Proof. reflexivity. Qed.

Example str_of_Z_ex : str_of_Z 2024 = "2024".
Proof. reflexivity. Qed.

(** * Further properties of the pipeline *)

(** ** The store follows the calls of [save_search_record] *)

Section KeepsStore.

Context {A B : Type}.
Variable W : World.

Lemma keeps_ret (a : A) : keeps_store W (ret a).
Proof. intros st0 st H. exact H. Qed.

Lemma keeps_raise (e : string) : keeps_store W (@raise A e).
Proof. intros st0 st H. exact H. Qed.

Lemma keeps_of_outcome (o : outcome A) : keeps_store W (of_outcome o).
Proof. intros st0 st H. exact H. Qed.

Lemma keeps_bind (m : M A) (k : A -> M B) :
  keeps_store W m -> (forall a, keeps_store W (k a)) ->
  keeps_store W (bind m k).
Proof.
  intros Hm Hk st0 st H. unfold bind. specialize (Hm st0 st H).
  destruct (m st) as [[a|e] st1]; simpl in *; [now apply Hk | exact Hm].
Qed.

Lemma keeps_try_except (body : M A) (handler : string -> M A) :
  keeps_store W body -> (forall e, keeps_store W (handler e)) ->
  keeps_store W (try_except body handler).
Proof.
  intros Hb Hh st0 st H. unfold try_except. specialize (Hb st0 st H).
  destruct (body st) as [[a|e] st1]; simpl in *; [exact Hb | now apply Hh].
Qed.

Lemma keeps_try_finally (body : M A) (fin : M unit) :
  keeps_store W body -> keeps_store W fin ->
  keeps_store W (try_finally body fin).
Proof.
  intros Hb Hf st0 st H. unfold try_finally. specialize (Hb st0 st H).
  destruct (body st) as [r st1]; simpl in *. specialize (Hf st0 st1 Hb).
  now destruct (fin st1) as [[u|e] st2].
Qed.

Lemma keeps_guard (b : State -> bool) (m1 m2 : M A) :
  keeps_store W m1 -> keeps_store W m2 ->
  keeps_store W (fun st => if b st then m1 st else m2 st).
Proof.
  intros H1 H2 st0 st H. simpl. destruct (b st); [now apply H1 | now apply H2].
Qed.

End KeepsStore.

Lemma keeps_emit (W : World) (e : Event) :
  is_save e = false -> keeps_store W (emit e).
Proof.
  intros He st0 st (evs & Ht & Hd). exists (e :: evs). simpl.
  rewrite Ht, Hd. split; [reflexivity|].
  now destruct e.
Qed.

Lemma keeps_save (W : World) (d : SearchData) (ok : bool)
    (msg : option string) :
  keeps_store W (save_search_record W d ok msg).
Proof.
  intros st0 st (evs & Ht & Hd).
  exists (ESaveSearchRecord d ok msg :: evs). simpl.
  rewrite Ht, Hd. split; [reflexivity|].
  unfold search_row. now destruct (env_sqlite_ok W).
Qed.

Lemma keeps_set_references (W : World) (b : bool) :
  keeps_store W (set_references b).
Proof. intros st0 st H. exact H. Qed.

Lemma keeps_get_driver (W : World) : keeps_store W get_driver.
Proof. intros st0 st H. exact H. Qed.

Lemma keeps_report (W : World) (cb : option Callback) (label : string)
    (pct : Z) :
  keeps_store W (report cb label pct).
Proof.
  destruct cb as [f|]; simpl; [|apply keeps_ret].
  apply keeps_bind; [now apply keeps_emit | intros _].
  apply keeps_bind; [apply keeps_of_outcome | intros; apply keeps_ret].
Qed.

(** Discharge [keeps_store] goals along the structure of a method. *)
Ltac storing :=
  repeat match goal with
    | |- forall _, _ => intro
    | |- keeps_store _ (ret _) => apply keeps_ret
    | |- keeps_store _ (raise _) => apply keeps_raise
    | |- keeps_store _ (attribute_error _) => apply keeps_raise
    | |- keeps_store _ (of_outcome _) => apply keeps_of_outcome
    | |- keeps_store _ (emit _) => apply keeps_emit; reflexivity
    | |- keeps_store _ (set_references _) => apply keeps_set_references
    | |- keeps_store _ get_driver => apply keeps_get_driver
    | |- keeps_store _ (save_search_record _ _ _ _) => apply keeps_save
    | |- keeps_store _ (report _ _ _) => apply keeps_report
    | |- keeps_store _ (bind _ _) => apply keeps_bind
    | |- keeps_store _ (try_except _ _) => apply keeps_try_except
    | |- keeps_store _ (try_finally _ _) => apply keeps_try_finally
    | |- keeps_store _ (fun st => if _ then _ else _) => apply keeps_guard
    | |- keeps_store _ (if ?b then _ else _) => destruct b
    | |- keeps_store _ (match ?x with _ => _ end) => destruct x
    end.

Lemma keeps_search (urljoin : string -> string -> outcome string)
    (W : World) (ct cn : string) (fy : Z) (cb : option Callback) :
  keeps_store W (search_case_details urljoin W ct cn fy cb).
Proof.
  unfold search_case_details, search_attempt, search_failed, _cleanup,
    _setup_browser, driver_get, wait_for_page_load, _fill_search_form,
    fill_case_type, fill_case_number, fill_filing_year, solve_captcha,
    submit_form, extract_case_data, extract_orders_data, form_call.
  storing.
Qed.

Lemma rows_saved_filter (W : World) (evs : list Event) :
  rows_saved W (filter is_save evs) = rows_saved W evs.
Proof.
  induction evs as [|e evs IH]; simpl; [reflexivity|].
  destruct e; simpl; now rewrite ?IH.
Qed.

(** The store after an invocation is the store before it with one row
    more: the success row of the returned case record, or the failure row
    with the raised message; it is the store before it when [None] is
    returned, and whenever SQLite fails. *)
Lemma store_after_search (urljoin : string -> string -> outcome string)
    (W : World) (ct cn : string) (fy : Z) (cb : option Callback)
    (st : State) :
  let run := search_case_details urljoin W ct cn fy cb st in
  db (snd run)
  = ((if env_sqlite_ok W then
        match fst run with
        | Returned (Some cd) => [search_row W (FoundData cd) true None]
        | Returned None => []
        | Raised msg =>
            [search_row W (failed_data ct cn fy) false (Some msg)]
        end
      else []) ++ db st)%list.
Proof.
  intros run.
  destruct (keeps_search urljoin W ct cn fy cb st st) as (evs & Ht & Hd).
  { exists []. now split. }
  fold run in Ht, Hd. rewrite Hd. f_equal.
  assert (P := persistence_calls urljoin W ct cn fy cb st).
  cbv zeta in P. fold run in P.
  rewrite Ht, filter_app in P. apply app_inv_tail in P.
  rewrite <- rows_saved_filter, P.
  destruct (fst run) as [[cd|]|msg]; simpl;
    destruct (env_sqlite_ok W); reflexivity.
Qed.

(** ** What is persisted, and when *)

Lemma finally_result {A} (body : M A) (fin : M unit) (st : State) :
  returns fin -> fst (try_finally body fin st) = fst (body st).
Proof.
  intros Hr. unfold try_finally. destruct (body st) as [r st1].
  destruct (Hr st1) as [u Hu]. destruct (fin st1) as [[v|e] st2];
    [reflexivity | discriminate].
Qed.

(** The calls of [save_search_record] of an invocation and the rows they
    leave in the store: for a returned case record, one success record
    holding that very record; for a raised error, one failure record
    holding the raised message and no case data; for [None], nothing.  With
    SQLite failing the calls are the same and the store is unchanged. *)
Theorem persisted_record_matches_result
    (urljoin : string -> string -> outcome string) (W : World)
    (ct cn : string) (fy : Z) (cb : option Callback) (st : State) :
  let run := search_case_details urljoin W ct cn fy cb st in
  let saved :=
    match fst run with
    | Returned (Some cd) => [ESaveSearchRecord (FoundData cd) true None]
    | Returned None => []
    | Raised msg =>
        [ESaveSearchRecord (failed_data ct cn fy) false (Some msg)]
    end in
  filter is_save (trace (snd run)) = (saved ++ filter is_save (trace st))%list
  /\ db (snd run) = (rows_saved W saved ++ db st)%list.
Proof.
  intros run saved. split.
  - apply persistence_calls.
  - unfold run, saved. rewrite store_after_search.
    destruct (fst _) as [[cd|]|msg]; simpl;
      destruct (env_sqlite_ok W); reflexivity.
Qed.

Lemma error_text_nonempty (e : string) : error_text e <> "".
Proof.
  unfold error_text. destruct (String.eqb e "") eqn:E; [discriminate|].
  now apply String.eqb_neq.
Qed.

Lemma search_result (urljoin : string -> string -> outcome string)
    (W : World) (ct cn : string) (fy : Z) (cb : option Callback)
    (st : State) :
  fst (search_case_details urljoin W ct cn fy cb st)
  = match fst (search_attempt urljoin W ct cn fy cb st) with
    | Returned r => Returned r
    | Raised e => Raised (error_text e)
    end.
Proof.
  unfold search_case_details.
  rewrite finally_result by apply cleanup_returns.
  unfold try_except.
  destruct (search_attempt urljoin W ct cn fy cb st) as [[r|e] st1];
    reflexivity.
Qed.

(** The error raised by [search_case_details] never has an empty message:
    an exception whose text is empty is raised again as "Unknown error
    occurred during search". *)
Theorem raised_message_not_empty
    (urljoin : string -> string -> outcome string) (W : World)
    (ct cn : string) (fy : Z) (cb : option Callback) (st : State)
    (msg : string) :
  fst (search_case_details urljoin W ct cn fy cb st) = Raised msg ->
  msg <> "".
Proof.
  rewrite search_result.
  destruct (fst (search_attempt urljoin W ct cn fy cb st)) as [r|e];
    [discriminate|].
  intros [= <-]. apply error_text_nonempty.
Qed.

(** Witness: the failed verification. *)
Lemma raised_message_not_empty_witness :
  "Security verification failed - please try again" <> "".
Proof.
  apply (raised_message_not_empty urljoin_sample world_captcha_fails
           "W.P.(C)" "12345" 2020 None (new_scraper [])).
  reflexivity.
Defined.

Lemma stage_free_save_or_cleanup : stage_free is_save_or_cleanup.
Proof. repeat split. Qed.

(** Persistence comes before cleanup: among the calls of
    [save_search_record] and [_cleanup] of an invocation, in the order they
    happen, the call of [_cleanup] is the last one. *)
Theorem cleanup_after_persistence
    (urljoin : string -> string -> outcome string) (W : World)
    (ct cn : string) (fy : Z) (cb : option Callback) (st : State) :
  let run := search_case_details urljoin W ct cn fy cb st in
  filter is_save_or_cleanup (events (snd run))
  = (filter is_save_or_cleanup (events st)
     ++ match fst run with
        | Returned (Some cd) => [ESaveSearchRecord (FoundData cd) true None]
        | Returned None => []
        | Raised msg =>
            [ESaveSearchRecord (failed_data ct cn fy) false (Some msg)]
        end
     ++ [ECleanup])%list.
Proof.
  intros run. unfold events, run. rewrite !filter_rev.
  rewrite (search_emits urljoin W is_save_or_cleanup ct cn fy cb
             stage_free_save_or_cleanup eq_refl st).
  rewrite rev_app_distr. f_equal.
  destruct (fst _) as [[cd|]|msg]; reflexivity.
Qed.

(** The counts of the dashboard after an invocation with a working
    SQLite: a returned case record adds one search and one success, a
    raised error adds one search and one failure, and a search that finds
    no case ([None]) leaves all three counts as they were. *)
Theorem statistics_after_search
    (urljoin : string -> string -> outcome string) (W : World)
    (ct cn : string) (fy : Z) (cb : option Callback) (st : State) :
  env_sqlite_ok W = true ->
  let run := search_case_details urljoin W ct cn fy cb st in
  let '(total, successful, failed) := count_searches (db st) in
  count_searches (db (snd run))
  = match fst run with
    | Returned (Some _) => (S total, S successful, failed)
    | Returned None => (total, successful, failed)
    | Raised _ => (S total, successful, S failed)
    end.
Proof.
  intros Hok run. unfold run. rewrite store_after_search, Hok.
  unfold count_searches.
  destruct (fst _) as [[cd|]|msg]; reflexivity.
Qed.

(** Witness: the search that finds no case leaves the counts at zero, the
    failed verification adds a failure. *)
Lemma statistics_after_search_witness :
  count_searches
    (db (snd (search_case_details urljoin_sample (world_showing empty_page)
                "W.P.(C)" "12345" 2020 None (new_scraper []))))
  = (0, 0, 0)
  /\ count_searches
       (db (snd (search_case_details urljoin_sample world_captcha_fails
                   "W.P.(C)" "12345" 2020 None (new_scraper []))))
     = (1, 0, 1).
Proof.
  split.
  - exact (statistics_after_search urljoin_sample (world_showing empty_page)
             "W.P.(C)" "12345" 2020 None (new_scraper []) eq_refl).
  - exact (statistics_after_search urljoin_sample world_captcha_fails
             "W.P.(C)" "12345" 2020 None (new_scraper []) eq_refl).
Defined.

(** ** The record of a successful search *)

Lemma bind_bind {A B C} (m : M A) (k : A -> M B) (h : B -> M C)
    (st : State) :
  bind (bind m k) h st = bind m (fun a => bind (k a) h) st.
Proof. unfold bind. now destruct (m st) as [[a|e] st1]. Qed.

Lemma bind_ret {A B} (a : A) (k : A -> M B) (st : State) :
  bind (ret a) k st = k a st.
Proof. reflexivity. Qed.

Lemma extract_orders_run (urljoin : string -> string -> outcome string)
    (W : World) (url : string) (st : State) :
  data_extractor st = true ->
  extract_orders_data urljoin W url st
  = (Returned (orders_found urljoin W url),
     logged [EExtractOrdersData url] st).
Proof.
  destruct st as [d fh de tr rows]. simpl. intros ->.
  unfold extract_orders_data, orders_found, try_except, bind, emit,
    of_outcome, ret, logged. simpl.
  destruct (env_orders_page W url); reflexivity.
Qed.

Lemma save_run (W : World) (d : SearchData) (ok : bool)
    (msg : option string) (st : State) :
  save_search_record W d ok msg st
  = (Returned tt, snd (save_search_record W d ok msg st)).
Proof. reflexivity. Qed.

(** When the session, the form, the verification and the submission
    succeed and the results page holds a case row, the search returns the
    extracted record; it carries the orders of its orders page exactly when
    it has a non-empty orders link, and an orders page that cannot be
    fetched leaves the search successful with an empty list of orders. *)
Theorem successful_search_record
    (urljoin : string -> string -> outcome string) (W : World)
    (ct cn : string) (fy : Z) (cb : option Callback) (st : State)
    (cd : CaseData) :
  callback_ok cb -> form_reached W ->
  form_filled W ct cn fy = true ->
  env_solve_captcha W = Returned true ->
  env_submit_form W = Returned true ->
  case_found urljoin W ct cn fy = Some cd ->
  fst (search_case_details urljoin W ct cn fy cb st)
  = Returned (Some (with_orders_found urljoin W cd))
  /\ (forall link e,
        truthy_link (orders_link cd) = Some link ->
        env_orders_page W link = Raised e ->
        orders (with_orders_found urljoin W cd) = Some [])
  /\ (truthy_link (orders_link cd) = None ->
      with_orders_found urljoin W cd = cd).
Proof.
  intros Hcb [Hc Hg] Hf Hs Hb Hn. split; [|split].
  - rewrite search_result.
    unfold search_attempt, wait_for_page_load, solve_captcha, submit_form.
    do 7 step. rewrite Hf, Hs, Hb. cbn [negb]. do 2 step. cbn [negb].
    do 2 step. cbn [negb]. do 2 step. rewrite Hn. cbv beta iota.
    unfold with_orders_found.
    destruct (truthy_link (orders_link cd)) as [link|].
    + rewrite bind_bind. step. rewrite bind_bind.
      erewrite bind_returned by (apply extract_orders_run; reflexivity).
      rewrite bind_ret. step.
      erewrite bind_returned by apply save_run. reflexivity.
    + rewrite bind_ret. step.
      erewrite bind_returned by apply save_run. reflexivity.
  - intros link e Hl He. unfold with_orders_found, orders_found.
    now rewrite Hl, He.
  - intros Hl. unfold with_orders_found. now rewrite Hl.
Qed.

(** Witness: the sample results page, whose case row links to the sample
    orders page of five rows. *)
Lemma successful_search_record_witness :
  option_map (fun cd => (status cd, court_no cd,
                         option_map (map order_index) (orders cd)))
    match fst (search_case_details urljoin_sample
                 (world_showing results_page_sample)
                 "W.P.(C)" "12345" 2020 None (new_scraper [])) with
    | Returned r => r
    | Raised _ => None
    end
  = Some ("PENDING", "5", Some [1; 2; 4; 5]).
Proof.
  assert (R : form_reached (world_showing results_page_sample))
    by (split; reflexivity).
  rewrite (proj1 (successful_search_record urljoin_sample
                    (world_showing results_page_sample)
                    "W.P.(C)" "12345" 2020 None (new_scraper []) _
                    I R eq_refl eq_refl eq_refl eq_refl)).
  reflexivity.
Defined.

(** ** The driver is quit once when it was created *)

Section KeepsDriver.

Context {A B : Type}.

Lemma keeps_driver_ret (a : A) : keeps_driver (ret a).
Proof. intros st. reflexivity. Qed.

Lemma keeps_driver_raise (e : string) : keeps_driver (@raise A e).
Proof. intros st. reflexivity. Qed.

Lemma keeps_driver_of_outcome (o : outcome A) : keeps_driver (of_outcome o).
Proof. intros st. reflexivity. Qed.

Lemma keeps_driver_bind (m : M A) (k : A -> M B) :
  keeps_driver m -> (forall a, keeps_driver (k a)) -> keeps_driver (bind m k).
Proof.
  intros Hm Hk st. unfold bind. specialize (Hm st).
  destruct (m st) as [[a|e] st1]; simpl in *; [now rewrite Hk | exact Hm].
Qed.

Lemma keeps_driver_try_except (body : M A) (handler : string -> M A) :
  keeps_driver body -> (forall e, keeps_driver (handler e)) ->
  keeps_driver (try_except body handler).
Proof.
  intros Hb Hh st. unfold try_except. specialize (Hb st).
  destruct (body st) as [[a|e] st1]; simpl in *; [exact Hb | now rewrite Hh].
Qed.

Lemma keeps_driver_guard (b : State -> bool) (m1 m2 : M A) :
  keeps_driver m1 -> keeps_driver m2 ->
  keeps_driver (fun st => if b st then m1 st else m2 st).
Proof. intros H1 H2 st. simpl. destruct (b st); [apply H1 | apply H2]. Qed.

End KeepsDriver.

Lemma keeps_driver_emit (e : Event) : keeps_driver (emit e).
Proof. intros st. reflexivity. Qed.

Lemma keeps_driver_save (W : World) (d : SearchData) (ok : bool)
    (msg : option string) :
  keeps_driver (save_search_record W d ok msg).
Proof. intros st. reflexivity. Qed.

Lemma keeps_driver_report (cb : option Callback) (label : string) (pct : Z) :
  keeps_driver (report cb label pct).
Proof.
  destruct cb as [f|]; simpl; [|apply keeps_driver_ret].
  apply keeps_driver_bind; [apply keeps_driver_emit | intros _].
  apply keeps_driver_bind;
    [apply keeps_driver_of_outcome | intros; apply keeps_driver_ret].
Qed.

(** Discharge [keeps_driver] goals along the structure of a method. *)
Ltac keeping :=
  repeat match goal with
    | |- forall _, _ => intro
    | |- keeps_driver (ret _) => apply keeps_driver_ret
    | |- keeps_driver (raise _) => apply keeps_driver_raise
    | |- keeps_driver (attribute_error _) => apply keeps_driver_raise
    | |- keeps_driver (of_outcome _) => apply keeps_driver_of_outcome
    | |- keeps_driver (emit _) => apply keeps_driver_emit
    | |- keeps_driver (save_search_record _ _ _ _) => apply keeps_driver_save
    | |- keeps_driver (report _ _ _) => apply keeps_driver_report
    | |- keeps_driver (bind _ _) => apply keeps_driver_bind
    | |- keeps_driver (try_except _ _) => apply keeps_driver_try_except
    | |- keeps_driver (fun st => if _ then _ else _) =>
        apply keeps_driver_guard
    | |- keeps_driver (if ?b then _ else _) => destruct b
    | |- keeps_driver (match ?x with _ => _ end) => destruct x
    end.

Lemma setup_raises (W : World) (e : string) (st : State) :
  env_create_driver W = Raised e ->
  _setup_browser W st = (Raised e, logged [ECreateDriver] st).
Proof.
  intros H. unfold _setup_browser, try_except, bind, emit, of_outcome.
  simpl. rewrite H. reflexivity.
Qed.

Lemma cleanup_quits (W : World) (st : State) :
  filter is_quit (trace (snd (_cleanup W st)))
  = ((if driver st then [EQuit] else []) ++ filter is_quit (trace st))%list.
Proof.
  unfold _cleanup, bind, emit, get_driver; simpl.
  destruct st as [[|] fh de tr rows]; simpl; [|reflexivity].
  unfold try_finally, try_except, bind, of_outcome, emit; simpl.
  destruct (env_quit W) as [[]|]; reflexivity.
Qed.

(** The driver reference at the end of the [try] and [except] blocks. *)
Lemma driver_before_cleanup
    (urljoin : string -> string -> outcome string) (W : World)
    (ct cn : string) (fy : Z) (cb : option Callback) (st : State) :
  callback_ok cb ->
  driver (snd (try_except (search_attempt urljoin W ct cn fy cb)
                 (search_failed W ct cn fy) st))
  = match env_create_driver W with
    | Returned _ => true
    | Raised _ => driver st
    end.
Proof.
  intros Hcb.
  assert (Hfail : forall e, keeps_driver (search_failed W ct cn fy e))
    by (intros e; unfold search_failed; keeping).
  unfold search_attempt.
  match goal with
  | |- context [bind (_setup_browser W) ?k] => set (rest := k)
  end.
  assert (Hrest : forall u, keeps_driver (rest u)).
  { intros u. unfold rest, driver_get, wait_for_page_load,
      _fill_search_form, fill_case_type, fill_case_number, fill_filing_year,
      solve_captcha, submit_form, extract_case_data, extract_orders_data,
      form_call.
    keeping. }
  unfold try_except. step.
  destruct (env_create_driver W) as [[]|e] eqn:Hc.
  - step.
    match goal with
    | |- context [rest tt ?s] =>
        assert (Hd := Hrest tt s); destruct (rest tt s) as [[r|e] st1]
    end; simpl in Hd; cbv beta iota; cbn [snd];
      [exact Hd | rewrite Hfail; exact Hd].
  - erewrite bind_raised by (apply setup_raises; exact Hc).
    cbv beta iota. rewrite Hfail. reflexivity.
Qed.

(** From a scraper without driver and with a callback that returns: when
    the driver is created, the invocation quits it exactly once, however
    the search ends; when its creation fails, nothing is quit. *)
Theorem driver_quit_once_if_created
    (urljoin : string -> string -> outcome string) (W : World)
    (ct cn : string) (fy : Z) (cb : option Callback) (st : State) :
  callback_ok cb -> driver st = false ->
  filter is_quit (trace (snd (search_case_details urljoin W ct cn fy cb st)))
  = (match env_create_driver W with
     | Returned _ => [EQuit]
     | Raised _ => []
     end ++ filter is_quit (trace st))%list.
Proof.
  intros Hcb Hd. unfold search_case_details, try_finally.
  assert (D := driver_before_cleanup urljoin W ct cn fy cb st Hcb).
  assert (E := attempt_or_failed_emits urljoin W is_quit ct cn fy cb
                 stage_free_quit st).
  destruct (try_except _ _ st) as [r st1]. simpl in D, E.
  assert (Q := cleanup_quits W st1).
  destruct (cleanup_run W st1) as (evs & _ & Hrun).
  rewrite Hrun in Q |- *. simpl in Q |- *. rewrite Q, E, D.
  replace (attempt_events is_quit ct cn fy r) with (@nil Event)
    by (now destruct r as [[cd|]|msg]).
  rewrite Hd. now destruct (env_create_driver W).
Qed.

(** Witness: the failed verification, in a world where quitting fails. *)
Lemma driver_quit_once_if_created_witness :
  filter is_quit
    (trace (snd (search_case_details urljoin_sample world_captcha_fails
                   "W.P.(C)" "12345" 2020 (Some update_progress)
                   (new_scraper []))))
  = [EQuit].
Proof.
  exact (driver_quit_once_if_created urljoin_sample world_captcha_fails
           "W.P.(C)" "12345" 2020 (Some update_progress) (new_scraper [])
           update_progress_returns eq_refl).
Defined.

(** ** The reported percentages rise *)

Lemma descending_le (lo hi : Z) (l : list Z) :
  descending lo hi l -> (lo <= hi)%Z.
Proof. destruct l as [|x l]; simpl; [trivial | lia]. Qed.

Lemma descending_weaken (lo hi hi' : Z) (l : list Z) :
  (hi <= hi')%Z -> descending lo hi l -> descending lo hi' l.
Proof. destruct l as [|x l]; simpl; [lia | intuition lia]. Qed.

Lemma descending_app (lo mid hi : Z) (l2 l1 : list Z) :
  descending mid hi l2 -> descending lo mid l1 ->
  descending lo hi (l2 ++ l1).
Proof.
  revert hi; induction l2 as [|x l2 IH]; intros hi; simpl.
  - intros H. now apply descending_weaken.
  - intros [Hx H2] H1. assert (L := descending_le _ _ _ H1).
    split; [lia | now apply IH].
Qed.

Lemma descending_sorted (lo hi : Z) (l : list Z) :
  descending lo hi l ->
  StronglySorted Z.gt l /\ Forall (fun x => lo < x <= hi)%Z l.
Proof.
  revert hi; induction l as [|x l IH]; intros hi; simpl.
  - intros _. split; constructor.
  - intros [Hx H]. destruct (IH _ H) as [S F]. split.
    + constructor; [exact S|].
      eapply Forall_impl; [|exact F]. simpl. intros; lia.
    + constructor; [exact Hx|].
      eapply Forall_impl; [|exact F]. simpl. intros; lia.
Qed.

Lemma reported_silent {A} (m : M A) (st : State) :
  silent is_progress m -> reported (snd (m st)) = reported st.
Proof. intros H. unfold reported. now rewrite (H st). Qed.

Section Reports.

Context {A B : Type}.

Lemma within_silent (lo hi : Z) (m : M A) :
  silent is_progress m -> (lo <= hi)%Z -> reports_within lo hi m.
Proof.
  intros H L st. exists []. split; [|exact L].
  now rewrite reported_silent.
Qed.

Lemma within_bind (lo mid hi : Z) (m : M A) (k : A -> M B) :
  reports_within lo mid m -> (mid <= hi)%Z ->
  (forall a, reports_within mid hi (k a)) ->
  reports_within lo hi (bind m k).
Proof.
  intros Hm L Hk st. unfold bind. destruct (Hm st) as (n1 & E1 & D1).
  destruct (m st) as [[a|e] st1]; simpl in *.
  - destruct (Hk a st1) as (n2 & E2 & D2). exists (n2 ++ n1)%list.
    split; [now rewrite E2, E1, app_assoc | now apply descending_app with mid].
  - exists n1. split; [exact E1 | now apply descending_weaken with mid].
Qed.

Lemma within_try_except (lo hi : Z) (body : M A) (handler : string -> M A) :
  reports_within lo hi body ->
  (forall e, silent is_progress (handler e)) ->
  reports_within lo hi (try_except body handler).
Proof.
  intros Hb Hh st. unfold try_except. destruct (Hb st) as (n & E & D).
  destruct (body st) as [[a|e] st1]; simpl in *; exists n; split; trivial.
  now rewrite reported_silent.
Qed.

Lemma within_try_finally (lo hi : Z) (body : M A) (fin : M unit) :
  reports_within lo hi body -> silent is_progress fin ->
  reports_within lo hi (try_finally body fin).
Proof.
  intros Hb Hf st. unfold try_finally. destruct (Hb st) as (n & E & D).
  destruct (body st) as [r st1]; simpl in *.
  assert (R := reported_silent fin st1 Hf).
  destruct (fin st1) as [[u|e] st2]; simpl in *; exists n; split; trivial;
    now rewrite R.
Qed.

End Reports.

Lemma within_report (lo hi : Z) (cb : option Callback) (label : string)
    (pct : Z) :
  (lo < pct <= hi)%Z -> reports_within lo hi (report cb label pct).
Proof.
  intros H st. destruct cb as [f|].
  - exists [pct]. split; [|simpl; lia].
    unfold report, bind, emit, of_outcome, ret, reported. simpl.
    now destruct (f label pct).
  - exists []. split; [reflexivity | simpl; lia].
Qed.

(** One silent step, or one report, followed by the rest. *)
Ltac reporting :=
  repeat match goal with
    | |- reports_within ?lo ?hi (bind (report _ _ ?n) _) =>
        apply (within_bind lo n hi);
        [apply within_report; lia | lia | intro]
    | |- reports_within ?lo ?hi (bind (match ?x with _ => _ end) _) =>
        apply (within_bind lo 95 hi); [destruct x | lia | intro]
    | |- reports_within ?lo ?hi (bind _ _) =>
        apply (within_bind lo lo hi);
        [ apply within_silent; [|lia] | lia | intro ]
    | |- reports_within _ _ (if ?b then _ else _) => destruct b
    | |- reports_within _ _ (match ?x with _ => _ end) => destruct x
    | |- reports_within _ _ (ret _) =>
        apply within_silent; [apply silent_ret | lia]
    | |- reports_within _ _ (raise _) =>
        apply within_silent; [apply silent_raise | lia]
    | |- silent is_progress (_setup_browser _) =>
        apply silent_setup_browser; reflexivity
    | |- silent is_progress (driver_get _ _) =>
        apply silent_driver_get; reflexivity
    | |- silent is_progress (form_call _ _ _) =>
        apply silent_form_call; reflexivity
    | |- silent is_progress (_fill_search_form _ _ _ _) =>
        apply silent_fill_search_form; reflexivity
    | |- silent is_progress (extract_case_data _ _ _ _ _) =>
        apply silent_extract_case_data; reflexivity
    | |- silent is_progress (extract_orders_data _ _ _) =>
        apply silent_extract_orders_data; reflexivity
    | |- silent is_progress (save_search_record _ _ _ _) =>
        apply silent_save; reflexivity
    end.

Lemma attempt_reports (urljoin : string -> string -> outcome string)
    (W : World) (ct cn : string) (fy : Z) (cb : option Callback) :
  reports_within 9 100 (search_attempt urljoin W ct cn fy cb).
Proof.
  unfold search_attempt, wait_for_page_load, solve_captcha, submit_form.
  reporting.
Qed.

(** The percentages handed to the progress callback during an invocation
    rise strictly, whatever the world and the callback do, and lie between
    10 and 100 (newest first, the list is strictly decreasing). *)
Theorem progress_rises (urljoin : string -> string -> outcome string)
    (W : World) (ct cn : string) (fy : Z) (cb : option Callback)
    (st : State) :
  exists new,
    reported (snd (search_case_details urljoin W ct cn fy cb st))
    = (new ++ reported st)%list
    /\ StronglySorted Z.gt new
    /\ Forall (fun pct => 10 <= pct <= 100)%Z new.
Proof.
  assert (H : reports_within 9 100
                (search_case_details urljoin W ct cn fy cb)).
  { unfold search_case_details. apply within_try_finally.
    - apply within_try_except; [apply attempt_reports|].
      intros e. unfold search_failed. silence.
    - apply cleanup_emits. reflexivity. }
  destruct (H st) as (new & E & D). exists new. split; [exact E|].
  destruct (descending_sorted _ _ _ D) as [S F]. split; [exact S|].
  eapply Forall_impl; [|exact F]. simpl. intros; lia.
Qed.

(** ** The case row *)

Section CaseRow.

Variable urljoin : string -> string -> outcome string.
Variable base_url : string.

Lemma parse_case_row_some (cells : Row) (ct cn : string) (fy : Z)
    (now : string) :
  exists cd,
    _parse_case_row urljoin base_url cells ct cn fy now = Some cd
    /\ case_number cd = ct ++ " " ++ cn ++ "/" ++ str_of_Z fy
    /\ case_type cd = ct
    /\ filing_year cd = str_of_Z fy
    /\ orders cd = None.
Proof.
  unfold _parse_case_row.
  destruct (_extract_court_details _) as [[next last] court].
  eexists. split; [reflexivity|]. now repeat split.
Qed.

Lemma case_rows_loop_skip (short : list Row) (rows : list Row)
    (ct cn : string) (fy : Z) (now : string) :
  forallb short_row short = true ->
  case_rows_loop urljoin base_url (short ++ rows) ct cn fy now
  = case_rows_loop urljoin base_url rows ct cn fy now.
Proof.
  induction short as [|r short IH]; [reflexivity|].
  cbn [forallb app case_rows_loop]. unfold short_row at 1.
  intros H. apply andb_true_iff in H as [Hr Hs].
  apply Nat.ltb_lt in Hr.
  destruct (Nat.leb_spec 3 (List.length r)); [lia | now apply IH].
Qed.

Lemma case_rows_loop_none (rows : list Row) (ct cn : string) (fy : Z)
    (now : string) :
  case_rows_loop urljoin base_url rows ct cn fy now = None
  <-> forallb short_row rows = true.
Proof.
  induction rows as [|r rows IH]; [split; reflexivity|].
  cbn [forallb case_rows_loop]. unfold short_row at 1.
  destruct (Nat.leb_spec 3 (List.length r)) as [L | L].
  - destruct (parse_case_row_some r ct cn fy now) as (cd & -> & _).
    apply Nat.ltb_ge in L. rewrite L. split; discriminate.
  - apply Nat.ltb_lt in L. rewrite L. exact IH.
Qed.

End CaseRow.

(** The lookup of the case on the results page: rows with fewer than three
    cells are passed over and the first row with at least three cells is
    the result, whatever the rows after it hold; nothing is found exactly
    when the page has none of the three tables or every body row of the
    table has fewer than three cells; and the record found is named after
    the query (type, number and year), not after what the page shows. *)
Theorem first_wide_row_is_the_case
    (urljoin : string -> string -> outcome string) (soup : Page)
    (ct cn : string) (fy : Z) (now : string) :
  (forall table short row rest,
      results_table soup = Some table ->
      body_rows table = (short ++ row :: rest)%list ->
      forallb short_row short = true -> 3 <= List.length row ->
      case_of_page urljoin BASE_URL soup ct cn fy now
      = _parse_case_row urljoin BASE_URL row ct cn fy now)
  /\ (case_of_page urljoin BASE_URL soup ct cn fy now = None <->
      match results_table soup with
      | None => True
      | Some table => forallb short_row (body_rows table) = true
      end)
  /\ (forall cd,
        case_of_page urljoin BASE_URL soup ct cn fy now = Some cd ->
        case_number cd = ct ++ " " ++ cn ++ "/" ++ str_of_Z fy
        /\ case_type cd = ct /\ filing_year cd = str_of_Z fy).
Proof.
  assert (E : case_of_page urljoin BASE_URL soup ct cn fy now
              = match results_table soup with
                | None => None
                | Some table =>
                    case_rows_loop urljoin BASE_URL (body_rows table)
                      ct cn fy now
                end) by reflexivity.
  rewrite E. split; [|split].
  - intros table short row rest -> -> Hs Hl.
    rewrite case_rows_loop_skip by exact Hs.
    cbn [case_rows_loop]. apply Nat.leb_le in Hl. rewrite Hl.
    now destruct (parse_case_row_some urljoin BASE_URL row ct cn fy now)
      as (cd & -> & _).
  - destruct (results_table soup) as [table|]; [|now split].
    apply case_rows_loop_none.
  - intros cd. clear E.
    destruct (results_table soup) as [table|]; [|discriminate].
    induction (body_rows table) as [|r rows IH]; [discriminate|].
    cbn [case_rows_loop].
    destruct (3 <=? List.length r)%nat; [|exact IH].
    destruct (parse_case_row_some urljoin BASE_URL r ct cn fy now)
      as (cd' & -> & H1 & H2 & H3 & _).
    now intros [= <-].
Qed.

(** Witness: a header row without [tbody], a short row and two case rows;
    the first case row is the result. *)
Lemma first_wide_row_is_the_case_witness :
  option_map status
    (case_of_page urljoin_sample BASE_URL results_page_headed
       "W.P.(C)" "1" 2020 "2024-03-05T10:00:00")
  = Some "CLOSED".
Proof.
  assert (L : 3 <= List.length
                   [ plain "1"; plain "W.P.(C) 1/2020 [CLOSED]";
                     plain "A vs B" ]) by (simpl; lia).
  rewrite (proj1 (first_wide_row_is_the_case urljoin_sample
                    results_page_headed "W.P.(C)" "1" 2020
                    "2024-03-05T10:00:00")
             results_table_headed [ [ plain "note" ] ]
             [ plain "1"; plain "W.P.(C) 1/2020 [CLOSED]"; plain "A vs B" ]
             [ [ plain "2"; plain "W.P.(C) 2/2020"; plain "C vs D" ] ]
             eq_refl eq_refl eq_refl L).
  reflexivity.
Defined.

(** ** Order records *)

Section OrderIndexes.

Variable urljoin : string -> string -> outcome string.
Variable base_url : string.

Lemma parse_order_row_index (cells : Row) (i : nat) (o : OrderRecord) :
  _parse_order_row urljoin base_url cells i = Some o ->
  order_index o = i + 1.
Proof.
  unfold _parse_order_row, parse_order_row_body.
  destruct (if (1 <? List.length cells)%nat then nth_error cells 1
            else nth_error cells 0) as [cell|]; [|discriminate].
  destruct (hrefs (c_links cell)) as [|[href text] rest].
  - now intros [= <-].
  - destruct (negb (String.eqb href "") && negb (startswith "http" href)).
    + destruct (urljoin base_url href); [|discriminate]. now intros [= <-].
    + now intros [= <-].
Qed.

Lemma order_rows_loop_inv (rows : list Row) (i : nat) (o : OrderRecord) :
  In o (order_rows_loop urljoin base_url rows i) ->
  exists k cells,
    nth_error rows k = Some cells /\ 2 <= List.length cells
    /\ _parse_order_row urljoin base_url cells (i + k) = Some o.
Proof.
  revert i; induction rows as [|r rows IH]; intros i; [intros []|].
  cbn [order_rows_loop].
  assert (T : In o (order_rows_loop urljoin base_url rows (S i)) ->
              exists k cells,
                nth_error (r :: rows) k = Some cells
                /\ 2 <= List.length cells
                /\ _parse_order_row urljoin base_url cells (i + k) = Some o).
  { intros H. destruct (IH _ H) as (k & cells & N & L & P).
    exists (S k), cells. rewrite <- Nat.add_succ_comm. now repeat split. }
  destruct (Nat.leb_spec 2 (List.length r)) as [L | L]; [|exact T].
  destruct (_parse_order_row urljoin base_url r i) as [o'|] eqn:P;
    [|exact T].
  intros [<- | H]; [|now apply T].
  exists 0, r. rewrite Nat.add_0_r. now repeat split.
Qed.

Lemma order_rows_loop_sorted (rows : list Row) (i : nat) :
  StronglySorted lt (map order_index (order_rows_loop urljoin base_url rows i))
  /\ Forall (fun n => i < n <= i + List.length rows)
       (map order_index (order_rows_loop urljoin base_url rows i)).
Proof.
  revert i; induction rows as [|r rows IH]; intros i.
  - split; constructor.
  - cbn [order_rows_loop List.length]. destruct (IH (S i)) as [Hs Hf].
    assert (Hf' : Forall (fun n => i < n <= i + S (List.length rows))
                    (map order_index
                       (order_rows_loop urljoin base_url rows (S i)))).
    { eapply Forall_impl; [|exact Hf]. simpl. intros; lia. }
    destruct (2 <=? List.length r)%nat; [|now split].
    destruct (_parse_order_row urljoin base_url r i) as [o|] eqn:P;
      [|now split].
    apply parse_order_row_index in P. cbn [map]. rewrite P. split.
    + constructor; [exact Hs|].
      eapply Forall_impl; [|exact Hf]. simpl. intros; lia.
    + constructor; [lia | exact Hf'].
Qed.

End OrderIndexes.

(** The order records of a page are exactly the records of its rows that
    have at least two cells and parse, each numbered by the position of its
    row on the page counted from one; so the numbers rise strictly down the
    list and rows that are left out leave gaps in the numbering. *)
Theorem orders_numbered_by_page_position
    (urljoin : string -> string -> outcome string) (base_url : string)
    (rows : list Row) :
  (forall o,
      In o (order_rows_loop urljoin base_url rows 0) <->
      exists k cells,
        nth_error rows k = Some cells /\ 2 <= List.length cells
        /\ _parse_order_row urljoin base_url cells k = Some o
        /\ order_index o = k + 1)
  /\ StronglySorted lt
       (map order_index (order_rows_loop urljoin base_url rows 0))
  /\ Forall (fun n => 1 <= n <= List.length rows)
       (map order_index (order_rows_loop urljoin base_url rows 0)).
Proof.
  split; [|split].
  - intros o. split.
    + intros H. destruct (order_rows_loop_inv _ _ _ _ _ H)
        as (k & cells & N & L & P).
      exists k, cells. repeat split; trivial.
      now apply parse_order_row_index in P.
    + intros (k & cells & N & L & P & _).
      now apply order_rows_loop_member with k cells.
  - apply order_rows_loop_sorted.
  - eapply Forall_impl; [|apply order_rows_loop_sorted]. simpl. intros; lia.
Qed.

Lemma orders_numbered_by_page_position_witness :
  In {| order_index := 4; date := "04.01.2024";
        case_info := "Not Available"; pdf_link := None |}
     (order_rows_loop urljoin_sample BASE_URL order_rows_sample 0).
Proof.
  apply (proj2 (proj1 (orders_numbered_by_page_position urljoin_sample
                         BASE_URL order_rows_sample) _)).
  exists 3, [ plain "4"; plain "Order 4"; plain "04.01.2024" ].
  repeat split. simpl. lia.
Defined.

(** ** Extracted texts are trimmed *)

Lemma lstrip_head (s : string) : head_not_space (lstrip s).
Proof.
  induction s as [|c s IH]; simpl; [exact I|].
  destruct (isspace c) eqn:E; [exact IH | exact E].
Qed.

Lemma lstrip_fixed (s : string) : head_not_space s -> lstrip s = s.
Proof. destruct s as [|c s]; simpl; [reflexivity | now intros ->]. Qed.

Lemma rstrip_head (s : string) : head_not_space s -> head_not_space (rstrip s).
Proof.
  destruct s as [|c s]; simpl; [trivial|]. intros H.
  destruct (rstrip s); [rewrite H|]; exact H.
Qed.

Lemma rstrip_rstrip (s : string) : rstrip (rstrip s) = rstrip s.
Proof.
  induction s as [|c s IH]; simpl; [reflexivity|].
  destruct (rstrip s) as [|x r] eqn:E.
  - destruct (isspace c) eqn:Hc; simpl; [reflexivity | now rewrite Hc].
  - cbn [rstrip]. cbn [rstrip] in IH. rewrite IH. reflexivity.
Qed.

Lemma strip_trimmed (s : string) : trimmed (strip s).
Proof.
  unfold trimmed, strip.
  rewrite (lstrip_fixed (rstrip (lstrip s))).
  - apply rstrip_rstrip.
  - apply rstrip_head, lstrip_head.
Qed.

Lemma all_chars_lstrip (p : ascii -> bool) (s : string) :
  all_chars p s = true -> all_chars p (lstrip s) = true.
Proof.
  induction s as [|c s IH]; simpl; [trivial|]. intros H.
  apply andb_true_iff in H as [Hc Hs].
  destruct (isspace c); [now apply IH | simpl; now rewrite Hc, Hs].
Qed.

Lemma all_chars_rstrip (p : ascii -> bool) (s : string) :
  all_chars p s = true -> all_chars p (rstrip s) = true.
Proof.
  induction s as [|c s IH]; simpl; [trivial|]. intros H.
  apply andb_true_iff in H as [Hc Hs]. specialize (IH Hs).
  destruct (rstrip s) as [|x r].
  - destruct (isspace c); simpl; [reflexivity | now rewrite Hc].
  - simpl. simpl in IH. now rewrite Hc, IH.
Qed.

(** Whatever the cell texts are, the status and the three court details
    that the extractor derives have no white space at either end, and the
    status holds no closing bracket. *)
Theorem extracted_texts_are_trimmed (case_text court_text : string) :
  trimmed (_extract_status case_text)
  /\ no_close (_extract_status case_text) = true
  /\ trimmed (fst (fst (_extract_court_details court_text)))
  /\ trimmed (snd (fst (_extract_court_details court_text)))
  /\ trimmed (snd (_extract_court_details court_text)).
Proof.
  split; [|split; [|split; [|split]]].
  - unfold _extract_status.
    repeat match goal with
           | |- context [if ?b then _ else _] => destruct b
           end; try reflexivity.
    destruct (re_search_bracket case_text); [apply strip_trimmed|reflexivity].
  - unfold _extract_status.
    repeat match goal with
           | |- context [if ?b then _ else _] => destruct b
           end; try reflexivity.
    destruct (re_search_bracket case_text) as [g|] eqn:E; [|reflexivity].
    destruct (re_search_sound _ _ E) as (pre & post & (_ & _ & Hg) & _).
    unfold strip. now apply all_chars_rstrip, all_chars_lstrip.
  - unfold _extract_court_details. cbn [fst snd].
    repeat match goal with
           | |- context [if ?b then _ else _] => destruct b
           end; solve [apply strip_trimmed | reflexivity].
  - unfold _extract_court_details. cbn [fst snd].
    repeat match goal with
           | |- context [if ?b then _ else _] => destruct b
           end; solve [apply strip_trimmed | reflexivity].
  - unfold _extract_court_details. cbn [fst snd].
    repeat match goal with
           | |- context [if ?b then _ else _] => destruct b
           end; solve [apply strip_trimmed | reflexivity].
Qed.

(** ** An accepted case number reaches the pipeline unchanged *)

Lemma digit_not_space (c : ascii) :
  isdigit_char c = true -> isspace c = false.
Proof.
  destruct c as [[] [] [] [] [] [] [] []]; try reflexivity; discriminate.
Qed.

Lemma digits_no_space (s : string) :
  all_chars isdigit_char s = true -> no_space s = true.
Proof.
  unfold no_space. induction s as [|c s IH]; simpl; [trivial|].
  intros H. apply andb_true_iff in H as [Hc Hs].
  now rewrite (digit_not_space c Hc), IH.
Qed.

Lemma rstrip_no_space (s : string) : no_space s = true -> rstrip s = s.
Proof.
  unfold no_space. induction s as [|c s IH]; simpl; [trivial|].
  intros H. apply andb_true_iff in H as [Hc Hs]. rewrite (IH Hs).
  apply negb_true_iff in Hc. rewrite Hc. now destruct s.
Qed.

Lemma strip_no_space (s : string) : no_space s = true -> strip s = s.
Proof.
  intros H. unfold strip. rewrite lstrip_fixed; [now apply rstrip_no_space|].
  destruct s as [|c s]; [exact I|]. unfold no_space in H. simpl in H.
  apply andb_true_iff in H as [Hc _]. now apply negb_true_iff in Hc.
Qed.

(** A case number made of digits passes the validation of the search form
    and is handed to [perform_case_search] as it was typed: stripping it
    changes nothing. *)
Theorem digits_reach_the_search_unchanged
    (urljoin : string -> string -> outcome string) (W : World)
    (ct cn : string) (fy : Z) (db0 : list SearchRow) :
  isdigit cn = true ->
  render_search_tab urljoin W ct cn fy db0
  = perform_case_search urljoin W ct cn fy db0.
Proof.
  intros H. unfold render_search_tab. rewrite H.
  assert (S : strip cn = cn).
  { apply strip_no_space, digits_no_space. now apply all_chars_isdigit. }
  rewrite S. destruct cn as [|c cn]; [discriminate|]. reflexivity.
Qed.

(** Witness: the number 12345 in the world that finds the sample case. *)
Lemma digits_reach_the_search_unchanged_witness :
  shown (render_search_tab urljoin_sample (world_showing empty_page)
           "W.P.(C)" "12345" 2020 [])
  = [status_text "**No case found**";
     st_error "No case found with the provided details. Please verify case number, type, and filing year."].
Proof.
  rewrite (digits_reach_the_search_unchanged urljoin_sample
             (world_showing empty_page) "W.P.(C)" "12345" 2020 [] eq_refl).
  reflexivity.
Defined.

(** ** "Search Again" recovers the case number *)

Lemma split_ws_from_word (cur t : string) :
  no_space t = true -> cur ++ t <> "" ->
  split_ws_from cur t = [cur ++ t].
Proof.
  unfold no_space. revert cur; induction t as [|c t IH]; intros cur; simpl.
  - rewrite append_nil_r. intros _ H. destruct cur; [contradiction|reflexivity].
  - intros H Hne. apply andb_true_iff in H as [Hc Ht].
    apply negb_true_iff in Hc. rewrite Hc.
    rewrite IH; trivial.
    + now rewrite append_assoc.
    + destruct cur; discriminate.
Qed.

Lemma split_ws_from_last (cur pre t : string) (sp : ascii) :
  isspace sp = true -> no_space t = true -> t <> "" ->
  last (split_ws_from cur (pre ++ String sp t)) "" = t.
Proof.
  intros Hsp Ht Hne. revert cur; induction pre as [|c pre IH]; intros cur.
  - cbn [append split_ws_from]. rewrite Hsp.
    rewrite (split_ws_from_word "" t Ht) by exact Hne.
    now destruct cur.
  - change (String c pre ++ String sp t)
      with (String c (pre ++ String sp t)).
    cbn [split_ws_from]. destruct (isspace c).
    + destruct cur as [|x cur]; [apply IH|].
      change (last (String x cur :: split_ws_from "" (pre ++ String sp t)) "")
        with (match split_ws_from "" (pre ++ String sp t) with
              | [] => String x cur
              | _ :: _ => last (split_ws_from "" (pre ++ String sp t)) ""
              end).
      specialize (IH ""). destruct (split_ws_from "" (pre ++ String sp t));
        [simpl in IH; congruence | exact IH].
    + apply IH.
Qed.

Lemma startswith_char (a c : ascii) (s : string) :
  startswith (String a "") (String c s) = Ascii.eqb a c.
Proof. simpl. now destruct (Ascii.eqb a c). Qed.

Lemma no_start_slash (t rest : string) :
  no_slash t = true -> no_start "/" t rest = true.
Proof.
  unfold no_slash. induction t as [|c t IH]; [trivial|].
  cbn [all_chars no_start]. intros H.
  apply andb_true_iff in H as [Hc Ht]. rewrite (IH Ht).
  change (String c t ++ rest) with (String c (t ++ rest)).
  rewrite startswith_char, Ascii.eqb_sym.
  apply negb_true_iff in Hc. now rewrite Hc.
Qed.

Lemma no_space_append (a b : string) :
  no_space (a ++ b) = no_space a && no_space b.
Proof.
  unfold no_space. induction a as [|c a IH]; simpl; [reflexivity|].
  now rewrite IH, andb_assoc.
Qed.

Lemma no_space_uint (d : Decimal.uint) :
  no_space (NilEmpty.string_of_uint d) = true.
Proof. induction d; simpl; trivial. Qed.

Lemma no_space_nilzero (d : Decimal.uint) :
  no_space (NilZero.string_of_uint d) = true.
Proof.
  destruct d; first [reflexivity | exact (no_space_uint _)].
Qed.

Lemma no_space_str_of_Z (z : Z) : no_space (str_of_Z z) = true.
Proof.
  unfold str_of_Z, NilZero.string_of_int.
  destruct (Z.to_int z) as [d|d]; [apply no_space_nilzero|].
  change (no_space (String "-" (NilZero.string_of_uint d)) = true).
  unfold no_space. cbn [all_chars]. apply (no_space_nilzero d).
Qed.

(** The number that "Search Again" takes out of a stored case number
    "<type> <number>/<year>" is the number the case was searched with,
    whenever that number holds no white space and no slash (as every
    validated number does), whatever the case type is. *)
Theorem search_again_recovers_number (ct cn : string) (fy : Z) :
  no_space cn = true -> no_slash cn = true ->
  repeat_case_number (ct ++ " " ++ cn ++ "/" ++ str_of_Z fy) = Returned cn.
Proof.
  intros Hs Hl. unfold repeat_case_number, split_ws.
  assert (Hw : no_space (cn ++ "/" ++ str_of_Z fy) = true).
  { rewrite !no_space_append, Hs, no_space_str_of_Z. reflexivity. }
  assert (Hne : cn ++ "/" ++ str_of_Z fy <> "")
    by (destruct cn; discriminate).
  assert (L := split_ws_from_last "" ct (cn ++ "/" ++ str_of_Z fy) " "
                 eq_refl Hw Hne).
  change (ct ++ String " " (cn ++ "/" ++ str_of_Z fy))
    with (ct ++ " " ++ cn ++ "/" ++ str_of_Z fy) in L.
  destruct (split_ws_from "" (ct ++ " " ++ cn ++ "/" ++ str_of_Z fy))
    as [|p ps] eqn:E.
  - exfalso. apply Hne. symmetry. exact L.
  - rewrite L. f_equal. apply split_first_at; [discriminate|].
    now apply no_start_slash.
Qed.

(** Witness: a case type that itself holds blanks. *)
Lemma search_again_recovers_number_witness :
  repeat_case_number "ARB. A. (COMM.) 12345/2020" = Returned "12345".
Proof.
  exact (search_again_recovers_number "ARB. A. (COMM.)" "12345" 2020
           eq_refl eq_refl).
Defined.

(** ** The pages of the history *)

Lemma firstn_add {A} (a b : nat) (l : list A) :
  firstn (a + b) l = (firstn a l ++ firstn b (skipn a l))%list.
Proof.
  revert l; induction a as [|a IH]; intros l; [reflexivity|].
  destruct l as [|x l]; simpl; [now rewrite firstn_nil | now rewrite IH].
Qed.

Lemma py_slice_forward {A} (l : list A) (a n : nat) :
  py_slice l (Z.of_nat a) (Z.of_nat a + Z.of_nat n)
  = firstn n (skipn a l).
Proof.
  unfold py_slice, slice_index.
  destruct (Z.ltb_spec (Z.of_nat a) 0) as [H|_]; [lia|].
  destruct (Z.ltb_spec (Z.of_nat a + Z.of_nat n) 0) as [H|_]; [lia|].
  destruct (Nat.le_gt_cases (List.length l) a) as [L | L].
  - rewrite (skipn_all2 l) by lia. rewrite (skipn_all2 l L).
    now rewrite !firstn_nil.
  - replace (Z.to_nat (Z.min (Z.of_nat a) (Z.of_nat (List.length l))))
      with a by lia.
    destruct (Nat.le_gt_cases (List.length l) (a + n)) as [M | M].
    + rewrite !firstn_all2; trivial; rewrite length_skipn; lia.
    + f_equal. lia.
Qed.

Lemma page_is_chunk {A} (l : list A) (i : nat) :
  current_page_searches l (Z.of_nat i + 1) = firstn 3 (skipn (3 * i) l).
Proof.
  unfold current_page_searches, items_per_page.
  replace ((Z.of_nat i + 1 - 1) * 3)%Z with (Z.of_nat (3 * i)) by lia.
  apply (py_slice_forward l (3 * i) 3).
Qed.

Lemma chunks_concat {A} (l : list A) (k : nat) :
  concat (map (fun i => firstn 3 (skipn (3 * i) l)) (seq 0 k))
  = firstn (3 * k) l.
Proof.
  induction k as [|k IH]; [reflexivity|].
  rewrite seq_S, map_app, concat_app, IH. simpl concat.
  rewrite app_nil_r. replace (3 * S k) with (3 * k + 3) by lia.
  now rewrite firstn_add.
Qed.

(** The history tab shows every stored case on exactly one page, in the
    stored order: the pages 1 to [total_pages], one after the other, make up
    the whole history; each of them holds at least one and at most three
    cases; and any later page is empty. *)
Theorem history_pages_partition {A} (all_searches : list A) :
  let pages := Z.to_nat (total_pages (List.length all_searches)) in
  concat (map (fun i => current_page_searches all_searches (Z.of_nat i + 1))
            (seq 0 pages))
  = all_searches
  /\ (forall i, i < pages ->
        1 <= List.length
               (current_page_searches all_searches (Z.of_nat i + 1)) <= 3)
  /\ (forall i, pages <= i ->
        current_page_searches all_searches (Z.of_nat i + 1) = []).
Proof.
  intros pages.
  assert (B : 3 * (pages - 1) < List.length all_searches \/ pages = 0).
  { unfold pages, total_pages, items_per_page.
    destruct all_searches as [|x l]; [now right | left].
    cbn [List.length]. apply Nat2Z.inj_lt. zify.
    pose proof (Z.mul_div_le (Z.of_nat (S (List.length l)) + 3 - 1) 3).
    lia. }
  assert (C : List.length all_searches <= 3 * pages).
  { unfold pages, total_pages, items_per_page.
    zify.
    pose proof (Z.mul_succ_div_gt
                  (Z.of_nat (List.length all_searches) + 3 - 1) 3).
    pose proof (Z.div_pos
                  (Z.of_nat (List.length all_searches) + 3 - 1) 3).
    lia. }
  split; [|split].
  - rewrite (map_ext _ (fun i => firstn 3 (skipn (3 * i) all_searches)))
      by (intros i; apply page_is_chunk).
    rewrite chunks_concat. now apply firstn_all2.
  - intros i Hi. rewrite page_is_chunk, length_firstn, length_skipn. lia.
  - intros i Hi. rewrite page_is_chunk.
    rewrite (skipn_all2 all_searches) by lia. apply firstn_nil.
Qed.

(** Witness: seven cases make three pages of three, three and one. *)
Lemma history_pages_partition_witness :
  map (fun i => current_page_searches [1; 2; 3; 4; 5; 6; 7] (Z.of_nat i + 1))
    (seq 0 3)
  = [[1; 2; 3]; [4; 5; 6]; [7]]
  /\ 1 <= List.length (current_page_searches [1; 2; 3; 4; 5; 6; 7] 3) <= 3.
Proof.
  split; [reflexivity|].
  exact (proj1 (proj2 (history_pages_partition [1; 2; 3; 4; 5; 6; 7])) 2
           ltac:(vm_compute; lia)).
Defined.

(** * [FormHandler] *)

Section FormHandlerFacts.

Variable Browser : Type.
Variable Element : Type.
Variable web : Selenium Browser Element.

Lemma try_selectors_returns (attempt : Locator -> Br Browser bool)
    (selectors : list Locator) :
  breturns (try_selectors attempt selectors).
Proof.
  induction selectors as [|l rest IH]; intros s; simpl.
  - now exists false.
  - destruct (attempt l s) as [[[|]|e] s1]; simpl;
      [now exists true | apply IH | apply IH].
Qed.

Lemma try_selectors_app (attempt : Locator -> Br Browser bool)
    (xs ys : list Locator) (s : Browser) :
  try_selectors attempt (xs ++ ys)%list s
  = match try_selectors attempt xs s with
    | (Returned true, s1) => (Returned true, s1)
    | (_, s1) => try_selectors attempt ys s1
    end.
Proof.
  revert s; induction xs as [|l xs IH]; intros s; [reflexivity|].
  cbn [app try_selectors].
  destruct (attempt l s) as [[[|]|e] s1]; [reflexivity | apply IH | apply IH].
Qed.

Lemma try_selectors_all_fail (attempt : Locator -> Br Browser bool)
    (xs : list Locator) (s : Browser) :
  Forall (never_succeeds attempt) xs ->
  fst (try_selectors attempt xs s) = Returned false.
Proof.
  intros H. revert s; induction H as [|l xs Hl _ IH]; intros s;
    [reflexivity|].
  cbn [try_selectors]. specialize (Hl s).
  destruct (attempt l s) as [[[|]|e] s1]; simpl in *;
    [congruence | apply IH | apply IH].
Qed.

Lemma find_code_returns (selectors : list Locator) :
  breturns (find_code Browser Element web selectors).
Proof.
  induction selectors as [|l rest IH]; intros s; simpl.
  - now exists None.
  - destruct (bbind _ _ s) as [[[code|]|e] s1]; simpl;
      [now exists (Some code) | apply IH | apply IH].
Qed.

Lemma first_code_looks (elements : list Element) (s : Browser)
    (code : string) :
  fst (first_code Browser Element web elements s) = Returned (Some code) ->
  looks_like_code code = true /\ trimmed code.
Proof.
  revert s; induction elements as [|el rest IH]; intros s; simpl;
    [discriminate|].
  unfold bbind. destruct (element_text web el s) as [[text|e] s1];
    [|discriminate].
  destruct (looks_like_code (strip text)) eqn:L; [|apply IH].
  simpl. intros [= <-]. split; [exact L | apply strip_trimmed].
Qed.

Lemma find_code_looks (selectors : list Locator) (s : Browser)
    (code : string) :
  fst (find_code Browser Element web selectors s) = Returned (Some code) ->
  looks_like_code code = true /\ trimmed code.
Proof.
  revert s; induction selectors as [|l rest IH]; intros s; simpl;
    [discriminate|].
  destruct (bbind (find_elements web l) (first_code Browser Element web) s)
    as [[[c|]|e] s1] eqn:E; [|apply IH | apply IH].
  simpl. intros [= <-]. unfold bbind in E.
  destruct (find_elements web l s) as [[els|e] s0]; [|discriminate].
  apply (first_code_looks els s0). now rewrite E.
Qed.

End FormHandlerFacts.

(** No method of [FormHandler] raises, whatever the calls of Selenium do:
    waiting for the page, filling the three fields, solving the
    verification code and submitting all return, the five last with a
    boolean. *)
Theorem form_handler_never_raises (Browser Element : Type)
    (web : Selenium Browser Element) (case_type0 case_number0 : string)
    (year : Z) :
  breturns (fh_wait_for_page_load Browser Element web)
  /\ breturns (fh_fill_case_type Browser Element web case_type0)
  /\ breturns (fh_fill_case_number Browser Element web case_number0)
  /\ breturns (fh_fill_filing_year Browser Element web year)
  /\ breturns (fh_solve_captcha Browser Element web)
  /\ breturns (fh_submit_form Browser Element web).
Proof.
  repeat split; try apply try_selectors_returns.
  - intros s. unfold fh_wait_for_page_load, btry.
    destruct (wait_ready web s) as [[[]|e] s1]; now exists tt.
  - intros s. unfold fh_solve_captcha, btry, bbind.
    destruct (find_code_returns Browser Element web captcha_selectors s)
      as [code Hc].
    destruct (find_code Browser Element web captcha_selectors s)
      as [[c|e] s1]; simpl in Hc; [|discriminate].
    destruct c as [code'|]; [|now exists false].
    destruct (try_selectors_returns Browser
                (type_and_check Browser Element web code')
                captcha_input_selectors s1) as [b Hb].
    destruct (try_selectors _ _ s1) as [[b'|e] s2]; simpl in Hb;
      [now exists b' | discriminate].
Qed.

(** The fallback over the locators of a field: the locators are tried in
    the order of the list; as soon as one attempt succeeds the method
    returns [True] and the locators after it are not touched; when every
    earlier locator fails wherever it is tried and the next one succeeds
    in the state then reached, the method returns [True] from that state.
    In particular, when the first locator of the case number finds nothing
    and the second finds a field that keeps the text, [fill_case_number]
    returns [True]. *)
Theorem selector_fallback (Browser Element : Type)
    (web : Selenium Browser Element) :
  (forall (attempt : Locator -> Br Browser bool) xs ys s,
      try_selectors attempt (xs ++ ys)%list s
      = match try_selectors attempt xs s with
        | (Returned true, s1) => (Returned true, s1)
        | (_, s1) => try_selectors attempt ys s1
        end)
  /\ (forall (attempt : Locator -> Br Browser bool) failing locator rest
             s s2,
        Forall (never_succeeds attempt) failing ->
        attempt locator (snd (try_selectors attempt failing s))
        = (Returned true, s2) ->
        try_selectors attempt (failing ++ locator :: rest)%list s
        = (Returned true, s2))
  /\ (forall case_number0 s e s1 s2,
        wait_clickable web (By_NAME, "case_no") s = (Raised e, s1) ->
        type_and_check Browser Element web case_number0
          (By_NAME, "case_number") s1 = (Returned true, s2) ->
        fh_fill_case_number Browser Element web case_number0 s
        = (Returned true, s2)).
Proof.
  split; [|split].
  - apply try_selectors_app.
  - intros attempt failing locator rest s s2 Hf Ha.
    rewrite try_selectors_app.
    assert (F := try_selectors_all_fail Browser attempt failing s Hf).
    destruct (try_selectors attempt failing s) as [[[|]|e] s1];
      simpl in F, Ha; try discriminate.
    cbn [try_selectors]. now rewrite Ha.
  - intros cn s e s1 s2 Hw Ht.
    unfold fh_fill_case_number, case_number_selectors.
    cbn [try_selectors]. unfold type_and_check at 1, bbind at 1.
    rewrite Hw. now rewrite Ht.
Qed.

(** Witness: on the sample page only the second locator of the case
    number finds a field. *)
Lemma selector_fallback_witness :
  fh_fill_case_number (option string) nat web_sample "12345" None
  = (Returned true, Some "12345").
Proof.
  apply (proj2 (proj2 (selector_fallback (option string) nat web_sample))
           "12345" None "TimeoutException" None (Some "12345"));
    reflexivity.
Defined.

Lemma digit_is_alnum (c : ascii) :
  isdigit_char c = true -> isalnum_char c = true.
Proof.
  destruct c as [[] [] [] [] [] [] [] []]; try reflexivity; discriminate.
Qed.

Lemma isdigit_isalnum (s : string) : isdigit s = true -> isalnum s = true.
Proof.
  destruct s as [|c s]; [discriminate|]. unfold isdigit, isalnum.
  generalize (String c s). clear. intros s.
  induction s as [|c s IH]; simpl; [trivial|].
  intros H. apply andb_true_iff in H as [Hc Hs].
  now rewrite (digit_is_alnum c Hc), IH.
Qed.

(** The verification code that [solve_captcha] picks is a stripped text of
    at least three characters, all of them letters or digits; the test
    [isdigit()] of the code adds nothing to [isalnum()]; and when no such
    text is found the method returns [False] with the input field
    untouched. *)
Theorem captcha_code_is_alphanumeric (Browser Element : Type)
    (web : Selenium Browser Element) :
  (forall text,
      looks_like_code text
      = (3 <=? String.length text)%nat && all_chars isalnum_char text)
  /\ (forall selectors s code,
        fst (find_code Browser Element web selectors s)
        = Returned (Some code) ->
        3 <= String.length code /\ all_chars isalnum_char code = true
        /\ trimmed code)
  /\ (forall s,
        fst (find_code Browser Element web captcha_selectors s)
        = Returned None ->
        fh_solve_captcha Browser Element web s
        = (Returned false,
           snd (find_code Browser Element web captcha_selectors s))).
Proof.
  assert (L : forall text,
             looks_like_code text
             = (3 <=? String.length text)%nat
               && all_chars isalnum_char text).
  { intros text. unfold looks_like_code.
    destruct text as [|c text]; [reflexivity|].
    change (String.eqb (String c text) "") with false. cbn [negb andb].
    destruct (isdigit (String c text)) eqn:D; [|reflexivity].
    apply isdigit_isalnum in D. unfold isalnum in *. now rewrite D. }
  split; [exact L | split].
  - intros selectors s code H.
    destruct (find_code_looks Browser Element web selectors s code H)
      as [Hl Ht].
    rewrite L in Hl. apply andb_true_iff in Hl as [H3 Ha].
    apply Nat.leb_le in H3. now repeat split.
  - intros s H. unfold fh_solve_captcha, btry, bbind.
    destruct (find_code Browser Element web captcha_selectors s)
      as [[c|e] s1]; simpl in H; [|discriminate].
    now injection H as ->.
Qed.

(** Witness: on the sample form the second element found by class name
    carries the code, with blanks around it. *)
Lemma captcha_code_is_alphanumeric_witness :
  fst (find_code (list string) nat web_form_sample captcha_selectors [])
  = Returned (Some "7H2K")
  /\ 3 <= String.length "7H2K" /\ all_chars isalnum_char "7H2K" = true
  /\ trimmed "7H2K".
Proof.
  split; [reflexivity|].
  apply (proj1 (proj2 (captcha_code_is_alphanumeric (list string) nat
                         web_form_sample))
           captcha_selectors [] "7H2K").
  reflexivity.
Defined.

Section FormHandlerSuccess.

Variable Browser : Type.
Variable Element : Type.
Variable web : Selenium Browser Element.

Lemma try_selectors_true (attempt : Locator -> Br Browser bool)
    (selectors : list Locator) (s s' : Browser) :
  try_selectors attempt selectors s = (Returned true, s') ->
  exists locator s0,
    In locator selectors /\ attempt locator s0 = (Returned true, s').
Proof.
  revert s; induction selectors as [|l rest IH]; intros s;
    cbn [try_selectors]; [discriminate|].
  destruct (attempt l s) as [[[|]|e] s1] eqn:E; intros H.
  - injection H as <-. exists l, s. split; [now left | exact E].
  - destruct (IH s1 H) as (l' & s0 & Hin & Ha).
    exists l', s0. split; [now right | exact Ha].
  - destruct (IH s1 H) as (l' & s0 & Hin & Ha).
    exists l', s0. split; [now right | exact Ha].
Qed.

Lemma type_and_check_true (text : string) (locator : Locator)
    (s s' : Browser) :
  type_and_check Browser Element web text locator s = (Returned true, s') ->
  exists element s0 s1 s2,
    wait_clickable web locator s = (Returned element, s0)
    /\ send_keys web element text s1 = (Returned tt, s2)
    /\ get_value web element s2 = (Returned (Some text), s').
Proof.
  unfold type_and_check, bbind, bret.
  destruct (wait_clickable web locator s) as [[el|e] s0]; [|discriminate].
  destruct (element_clear web el s0) as [[[]|e] s1]; [|discriminate].
  destruct (send_keys web el text s1) as [[[]|e] s2] eqn:K; [|discriminate].
  destruct (get_value web el s2) as [[[v|]|e] s3] eqn:G; try discriminate.
  intros [= Hv <-]. apply String.eqb_eq in Hv. subst v.
  exists el, s0, s1, s2. now repeat split.
Qed.

Lemma select_partial_true (element : Element) (case_type0 : string)
    (options : list Element) (s s' : Browser) :
  select_partial Browser Element web element case_type0 options s
  = (Returned true, s') ->
  exists option0 text text' s0 s1 s2,
    In option0 options
    /\ element_text web option0 s0 = (Returned text, s1)
    /\ str_in case_type0 text = true
    /\ element_text web option0 s1 = (Returned text', s2)
    /\ select_by_visible_text web element text' s2 = (Returned tt, s').
Proof.
  revert s; induction options as [|o rest IH]; intros s;
    cbn [select_partial]; [discriminate|].
  unfold bbind at 1.
  destruct (element_text web o s) as [[text|e] s1] eqn:T1; [|discriminate].
  destruct (str_in case_type0 text) eqn:C.
  - unfold bbind, bret.
    destruct (element_text web o s1) as [[text'|e] s2] eqn:T2;
      [|discriminate].
    destruct (select_by_visible_text web element text' s2)
      as [[[]|e] s3] eqn:V; [|discriminate].
    intros [= <-]. exists o, text, text', s, s1, s2.
    repeat split; try assumption. now left.
  - intros H. destruct (IH s1 H)
      as (o' & t & t' & s0 & s2 & s3 & Hin & H1 & H2 & H3 & H4).
    exists o', t, t', s0, s2, s3. repeat split; try assumption. now right.
Qed.

End FormHandlerSuccess.

(** [fill_case_number] returns [True] only when a field found by one of
    its locators, read back after typing the number into it, holds
    exactly that number; and [solve_captcha] returns [True] only when an
    input field read back holds the code found, a text of letters and
    digits. *)
Theorem typed_text_is_read_back (Browser Element : Type)
    (web : Selenium Browser Element) :
  (forall case_number0 s s',
      fh_fill_case_number Browser Element web case_number0 s
      = (Returned true, s') ->
      exists locator element s1 s2,
        In locator case_number_selectors
        /\ send_keys web element case_number0 s1 = (Returned tt, s2)
        /\ get_value web element s2 = (Returned (Some case_number0), s'))
  /\ (forall s s',
        fh_solve_captcha Browser Element web s = (Returned true, s') ->
        exists code locator element s1 s2,
          looks_like_code code = true
          /\ In locator captcha_input_selectors
          /\ send_keys web element code s1 = (Returned tt, s2)
          /\ get_value web element s2 = (Returned (Some code), s')).
Proof.
  split.
  - intros cn s s' H. unfold fh_fill_case_number in H.
    apply try_selectors_true in H as (l & s0 & Hin & Ha).
    apply type_and_check_true in Ha as (el & _ & s1 & s2 & _ & K & G).
    now exists l, el, s1, s2.
  - intros s s' H. unfold fh_solve_captcha, btry, bbind in H.
    destruct (find_code Browser Element web captcha_selectors s)
      as [[[code|]|e] s0] eqn:F; try discriminate.
    + assert (L : looks_like_code code = true).
      { apply (find_code_looks Browser Element web captcha_selectors s).
        now rewrite F. }
      destruct (try_selectors _ captcha_input_selectors s0)
        as [[b|e] s3] eqn:T; [|discriminate].
      injection H as -> ->.
      apply try_selectors_true in T as (l & s4 & Hin & Ha).
      apply type_and_check_true in Ha as (el & _ & s1 & s2 & _ & K & G).
      now exists code, l, el, s1, s2.
Qed.

(** Witness: the field of the first sample page keeps what is typed. *)
Lemma typed_text_is_read_back_witness :
  exists locator element s1 s2,
    In locator case_number_selectors
    /\ send_keys web_sample element "12345" s1 = (Returned tt, s2)
    /\ get_value web_sample element s2
       = (Returned (Some "12345"), Some "12345").
Proof.
  apply (proj1 (typed_text_is_read_back (option string) nat web_sample)
           "12345" None (Some "12345")).
  reflexivity.
Defined.

(** [fill_case_type] returns [True] only after a selection by visible
    text that returned: of the case type itself, or of the text of an
    option whose text holds the case type; and when the selection of the
    case type itself returns, the options are not read. *)
Theorem case_type_selected_on_success (Browser Element : Type)
    (web : Selenium Browser Element) (case_type0 : string) :
  (forall s s',
      fh_fill_case_type Browser Element web case_type0 s
      = (Returned true, s') ->
      exists element text s0,
        select_by_visible_text web element text s0 = (Returned tt, s')
        /\ (text = case_type0
            \/ exists option0 seen s1 s2,
                 element_text web option0 s1 = (Returned seen, s2)
                 /\ str_in case_type0 seen = true
                 /\ element_text web option0 s2 = (Returned text, s0)))
  /\ (forall locator s element s1 s2 s3,
        wait_clickable web locator s = (Returned element, s1) ->
        new_select web element s1 = (Returned tt, s2) ->
        select_by_visible_text web element case_type0 s2
        = (Returned tt, s3) ->
        case_type_attempt Browser Element web case_type0 locator s
        = (Returned true, s3)).
Proof.
  split.
  - intros s s' H. unfold fh_fill_case_type in H.
    apply try_selectors_true in H as (l & s0 & _ & Ha).
    unfold case_type_attempt, bbind at 1 in Ha.
    destruct (wait_clickable web l s0) as [[el|e] s1]; [|discriminate].
    unfold bbind at 1 in Ha.
    destruct (new_select web el s1) as [[[]|e] s2]; [|discriminate].
    unfold btry, bbind at 1, bret in Ha.
    destruct (select_by_visible_text web el case_type0 s2)
      as [[[]|e] s3] eqn:V.
    + injection Ha as <-. exists el, case_type0, s2. split; [exact V|].
      now left.
    + unfold bbind in Ha.
      destruct (select_options web el s3) as [[opts|e'] s4]; [|discriminate].
      apply select_partial_true in Ha
        as (o & t & t' & s5 & s6 & s7 & _ & H1 & H2 & H3 & H4).
      exists el, t', s7. split; [exact H4|]. right.
      now exists o, t, s5, s6.
  - intros l s el s1 s2 s3 Hw Hn Hv.
    unfold case_type_attempt, bbind at 1. rewrite Hw.
    unfold bbind at 1. rewrite Hn.
    unfold btry, bbind at 1. now rewrite Hv.
Qed.

(** Witness: on the sample form [W.P.] is no option, and the option
    [W.P.(C)], which holds it, is selected. *)
Lemma case_type_selected_on_success_witness :
  fh_fill_case_type (list string) nat web_form_sample "W.P." []
  = (Returned true, ["text W.P.(C)"])
  /\ exists element text s0,
       select_by_visible_text web_form_sample element text s0
       = (Returned tt, ["text W.P.(C)"])
       /\ (text = "W.P."
           \/ exists option0 seen s1 s2,
                element_text web_form_sample option0 s1 = (Returned seen, s2)
                /\ str_in "W.P." seen = true
                /\ element_text web_form_sample option0 s2
                   = (Returned text, s0)).
Proof.
  split; [reflexivity|].
  apply (proj1 (case_type_selected_on_success (list string) nat
                  web_form_sample "W.P.") [] ["text W.P.(C)"]).
  reflexivity.
Defined.

(** [fill_filing_year] returns [True] only after the year, written in
    decimal, was selected by value or, when that raised, by visible text;
    and [submit_form] returns [True] only after a click that returned, on
    a button that had reported itself enabled and displayed. *)
Theorem year_selected_and_button_clicked (Browser Element : Type)
    (web : Selenium Browser Element) :
  (forall year s s',
      fh_fill_filing_year Browser Element web year s
      = (Returned true, s') ->
      exists element s0,
        select_by_value web element (str_of_Z year) s0 = (Returned tt, s')
        \/ exists e s1,
             select_by_value web element (str_of_Z year) s0 = (Raised e, s1)
             /\ select_by_visible_text web element (str_of_Z year) s1
                = (Returned tt, s'))
  /\ (forall s s',
        fh_submit_form Browser Element web s = (Returned true, s') ->
        exists button s0 s1 s2 s3,
          is_enabled web button s0 = (Returned true, s1)
          /\ is_displayed web button s1 = (Returned true, s2)
          /\ scroll_into_view web button s2 = (Returned tt, s3)
          /\ click web button s3 = (Returned tt, s')).
Proof.
  split.
  - intros year s s' H. unfold fh_fill_filing_year in H.
    apply try_selectors_true in H as (l & s0 & _ & Ha).
    unfold filing_year_attempt, bbind at 1 in Ha.
    destruct (wait_clickable web l s0) as [[el|e] s1]; [|discriminate].
    unfold bbind at 1 in Ha.
    destruct (new_select web el s1) as [[[]|e] s2]; [|discriminate].
    unfold btry, bbind at 1, bret in Ha.
    exists el, s2.
    destruct (select_by_value web el (str_of_Z year) s2)
      as [[[]|e] s3] eqn:V.
    + injection Ha as <-. now left.
    + right. exists e, s3. split; [reflexivity|].
      unfold bbind in Ha.
      destruct (select_by_visible_text web el (str_of_Z year) s3)
        as [[[]|e'] s4]; [|discriminate].
      now injection Ha as <-.
  - intros s s' H. unfold fh_submit_form in H.
    apply try_selectors_true in H as (l & s0 & _ & Ha).
    unfold submit_attempt, bbind at 1 in Ha.
    destruct (wait_clickable web l s0) as [[b|e] s1]; [|discriminate].
    unfold bbind at 1 in Ha.
    destruct (is_enabled web b s1) as [[[|]|e] s2] eqn:En; try discriminate.
    unfold bbind at 1 in Ha.
    destruct (is_displayed web b s2) as [[[|]|e] s3] eqn:Di;
      try discriminate.
    unfold bbind at 1 in Ha.
    destruct (scroll_into_view web b s3) as [[[]|e] s4] eqn:Sc;
      [|discriminate].
    unfold bbind, bret in Ha.
    destruct (click web b s4) as [[[]|e] s5] eqn:Cl; [|discriminate].
    injection Ha as <-. now exists b, s1, s2, s3, s4.
Qed.

(** Witness: on the sample form the year is selected by its text, the
    select knowing no values. *)
Lemma year_selected_and_button_clicked_witness :
  exists element s0,
    select_by_value web_form_sample element (str_of_Z 2023) s0
    = (Returned tt, ["text 2023"])
    \/ exists e s1,
         select_by_value web_form_sample element (str_of_Z 2023) s0
         = (Raised e, s1)
         /\ select_by_visible_text web_form_sample element (str_of_Z 2023) s1
            = (Returned tt, ["text 2023"]).
Proof.
  apply (proj1 (year_selected_and_button_clicked (list string) nat
                  web_form_sample) 2023%Z [] ["text 2023"]).
  reflexivity.
Defined.
